(** * Air sculptures firmware (Arduino Mega 2560): a shallow embedding

    The embedding follows [src/main.cpp] (globals, data sets, [setup], [loop])
    and [src/myfunctions.h] (the supporting functions).  Every global of the
    sketch is a field of [State]; the per-strip globals [strip1X] / [strip2X]
    are the field [X] of the records [strip1] / [strip2].  A function of the
    sketch that mutates globals is a function from [State] to [State] with the
    name it has in the source.

    The target is the ATmega2560: [int] is 16 bits, [unsigned int] is 16 bits,
    [long] is 32 bits, and the channels of FastLED's [CHSV]/[CRGB] are
    [uint8_t].  Integers are values of [Z]; every conversion and every
    arithmetic operation that can leave the range of its C type is written
    with its wrap-around. *)

From Stdlib Require Import ZArith List Bool Lia.
Import ListNotations.
Local Open Scope Z_scope.

(** ** Machine integers *)

Definition uint8 (z : Z) : Z := z mod 256.
Definition uint16 (z : Z) : Z := z mod 65536.
Definition uint32 (z : Z) : Z := z mod 4294967296.
Definition int16 (z : Z) : Z := (z + 32768) mod 65536 - 32768.
Definition int32 (z : Z) : Z := (z + 2147483648) mod 4294967296 - 2147483648.

(** ** The Arduino core

    [map] is the Arduino core's function (WMath.cpp), all in [long]:
    [(x - in_min) * (out_max - out_min) / (in_max - in_min) + out_min],
    where [/] is C's integer division, which truncates toward zero. *)

Module Arduino.

Definition map (x in_min in_max out_min out_max : Z) : Z :=
  let num := int32 (int32 (x - in_min) * int32 (out_max - out_min)) in
  let den := int32 (in_max - in_min) in
  int32 (int32 (num ÷ den) + out_min).

End Arduino.

(** ** FastLED's colour records *)

Record CHSV := { hue : Z; sat : Z; val : Z }.
Record CRGB := { red : Z; green : Z; blue : Z }.

Definition Black : CRGB := Build_CRGB 0 0 0.

(** ** Globals of main.cpp *)

Inductive Sculpture := CO2 | PM25 | VOC.

Definition SCULPTURE_ID (sc : Sculpture) : Z :=
  match sc with CO2 => 1 | PM25 => 2 | VOC => 3 end.

Definition CO2band1_1 : nat := 25.
Definition CO2band1_2 : nat := 25.
Definition CO2band1_3 : nat := 25.
Definition CO2band2 : nat := 55.
Definition PM25band1 : nat := 55.
Definition PM25band2 : nat := 55.
Definition VOCband1 : nat := 50.
Definition VOCband2 : nat := 50.

Definition CO2_1 : list Z :=
  [1609; 577; 406; 419; 443; 414; 403; 413; 409; 411; 412; 409; 423; 414;
   421; 434; 421].
Definition CO2_2 : list Z :=
  [1685; 642; 618; 698; 697; 778; 450; 664; 648; 676; 425; 504; 550; 481;
   640; 942; 1791; 504; 733; 688; 592; 608; 850; 779; 1876; 646; 648; 659;
   893; 422; 455; 701; 716; 892; 1046; 455; 483; 503; 448; 550].
Definition PM25_1 : list Z :=
  [118; 38; 34; 111; 125; 82; 178; 174; 43; 43; 42; 83; 63; 83; 85; 103; 68;
   53; 54; 66].
Definition PM25_2 : list Z :=
  [65; 88; 44; 42; 73; 69; 70; 61; 54; 89; 86; 91; 60; 63; 92; 88; 95; 55;
   85; 49; 48; 51; 35; 38; 49; 51; 21; 32; 28; 42; 21; 25].
Definition VOC_1 : list Z :=
  [8; 11; 5; 13; 16; 14; 15; 17; 15; 20; 29; 21; 22; 19; 14; 13; 19; 25; 17;
   15; 13; 17; 16; 15; 20; 17].
Definition VOC_2 : list Z :=
  [122; 67; 24; 36; 46; 32; 29; 34; 27; 25; 22; 23; 19; 23; 21; 33; 26; 34;
   41; 15; 25; 18].

Definition cblue : CHSV := Build_CHSV 140 255 255.
Definition BAND_DELAY : Z := 500.
Definition IDLE_MODE : Z := 1.
Definition BUTTON_MODE : Z := 2.

(** The globals of one strip: [strip1playMode] is [playMode (strip1 s)],
    [strip2Color] is [Color (strip2 s)], and so on.  [bandms] is the
    [elapsedMillis] counter of the strip, in milliseconds. *)
Record Strip := {
  playMode : Z;
  brightness : Z;
  maxBrightLvl : Z;
  hasPlayModeChanged : bool;
  activeLedState : Z;
  isMaxBrightness : bool;
  bandms : Z;
  bandDelay : Z;
  readingsCounter : Z;
  prevBrightVal : Z;
  currBrightVal : Z;
  Color : CHSV
}.

Record State := {
  isButton0Pressed : bool;
  isButton1Pressed : bool;
  rangeVal : Z;
  loxmsec : Z;
  isUserPresent : bool;
  strip1 : Strip;
  strip2 : Strip;
  readings1 : list Z;
  readings2 : list Z;
  leds0 : list CRGB;
  leds1 : list CRGB;
  leds2 : list CRGB;
  leds3 : list CRGB
}.

(** Assignment to one global. *)

Definition with_hue (v : Z) (c : CHSV) : CHSV :=
  Build_CHSV v (sat c) (val c).
Definition with_sat (v : Z) (c : CHSV) : CHSV :=
  Build_CHSV (hue c) v (val c).
Definition with_val (v : Z) (c : CHSV) : CHSV :=
  Build_CHSV (hue c) (sat c) v.

Definition with_playMode (v : Z) (t : Strip) : Strip :=
  Build_Strip v (brightness t) (maxBrightLvl t) (hasPlayModeChanged t)
    (activeLedState t) (isMaxBrightness t) (bandms t) (bandDelay t)
    (readingsCounter t) (prevBrightVal t) (currBrightVal t) (Color t).
Definition with_brightness (v : Z) (t : Strip) : Strip :=
  Build_Strip (playMode t) v (maxBrightLvl t) (hasPlayModeChanged t)
    (activeLedState t) (isMaxBrightness t) (bandms t) (bandDelay t)
    (readingsCounter t) (prevBrightVal t) (currBrightVal t) (Color t).
Definition with_maxBrightLvl (v : Z) (t : Strip) : Strip :=
  Build_Strip (playMode t) (brightness t) v (hasPlayModeChanged t)
    (activeLedState t) (isMaxBrightness t) (bandms t) (bandDelay t)
    (readingsCounter t) (prevBrightVal t) (currBrightVal t) (Color t).
Definition with_hasPlayModeChanged (v : bool) (t : Strip) : Strip :=
  Build_Strip (playMode t) (brightness t) (maxBrightLvl t) v
    (activeLedState t) (isMaxBrightness t) (bandms t) (bandDelay t)
    (readingsCounter t) (prevBrightVal t) (currBrightVal t) (Color t).
Definition with_activeLedState (v : Z) (t : Strip) : Strip :=
  Build_Strip (playMode t) (brightness t) (maxBrightLvl t)
    (hasPlayModeChanged t) v (isMaxBrightness t) (bandms t) (bandDelay t)
    (readingsCounter t) (prevBrightVal t) (currBrightVal t) (Color t).
Definition with_isMaxBrightness (v : bool) (t : Strip) : Strip :=
  Build_Strip (playMode t) (brightness t) (maxBrightLvl t)
    (hasPlayModeChanged t) (activeLedState t) v (bandms t) (bandDelay t)
    (readingsCounter t) (prevBrightVal t) (currBrightVal t) (Color t).
Definition with_bandms (v : Z) (t : Strip) : Strip :=
  Build_Strip (playMode t) (brightness t) (maxBrightLvl t)
    (hasPlayModeChanged t) (activeLedState t) (isMaxBrightness t) v
    (bandDelay t) (readingsCounter t) (prevBrightVal t) (currBrightVal t)
    (Color t).
Definition with_bandDelay (v : Z) (t : Strip) : Strip :=
  Build_Strip (playMode t) (brightness t) (maxBrightLvl t)
    (hasPlayModeChanged t) (activeLedState t) (isMaxBrightness t) (bandms t) v
    (readingsCounter t) (prevBrightVal t) (currBrightVal t) (Color t).
Definition with_readingsCounter (v : Z) (t : Strip) : Strip :=
  Build_Strip (playMode t) (brightness t) (maxBrightLvl t)
    (hasPlayModeChanged t) (activeLedState t) (isMaxBrightness t) (bandms t)
    (bandDelay t) v (prevBrightVal t) (currBrightVal t) (Color t).
Definition with_prevBrightVal (v : Z) (t : Strip) : Strip :=
  Build_Strip (playMode t) (brightness t) (maxBrightLvl t)
    (hasPlayModeChanged t) (activeLedState t) (isMaxBrightness t) (bandms t)
    (bandDelay t) (readingsCounter t) v (currBrightVal t) (Color t).
Definition with_currBrightVal (v : Z) (t : Strip) : Strip :=
  Build_Strip (playMode t) (brightness t) (maxBrightLvl t)
    (hasPlayModeChanged t) (activeLedState t) (isMaxBrightness t) (bandms t)
    (bandDelay t) (readingsCounter t) (prevBrightVal t) v (Color t).
Definition with_Color (v : CHSV) (t : Strip) : Strip :=
  Build_Strip (playMode t) (brightness t) (maxBrightLvl t)
    (hasPlayModeChanged t) (activeLedState t) (isMaxBrightness t) (bandms t)
    (bandDelay t) (readingsCounter t) (prevBrightVal t) (currBrightVal t) v.

Definition with_isButton0Pressed (v : bool) (s : State) : State :=
  Build_State v (isButton1Pressed s) (rangeVal s) (loxmsec s)
    (isUserPresent s) (strip1 s) (strip2 s) (readings1 s) (readings2 s)
    (leds0 s) (leds1 s) (leds2 s) (leds3 s).
Definition with_isButton1Pressed (v : bool) (s : State) : State :=
  Build_State (isButton0Pressed s) v (rangeVal s) (loxmsec s)
    (isUserPresent s) (strip1 s) (strip2 s) (readings1 s) (readings2 s)
    (leds0 s) (leds1 s) (leds2 s) (leds3 s).
Definition with_rangeVal (v : Z) (s : State) : State :=
  Build_State (isButton0Pressed s) (isButton1Pressed s) v (loxmsec s)
    (isUserPresent s) (strip1 s) (strip2 s) (readings1 s) (readings2 s)
    (leds0 s) (leds1 s) (leds2 s) (leds3 s).
Definition with_loxmsec (v : Z) (s : State) : State :=
  Build_State (isButton0Pressed s) (isButton1Pressed s) (rangeVal s) v
    (isUserPresent s) (strip1 s) (strip2 s) (readings1 s) (readings2 s)
    (leds0 s) (leds1 s) (leds2 s) (leds3 s).
Definition with_isUserPresent (v : bool) (s : State) : State :=
  Build_State (isButton0Pressed s) (isButton1Pressed s) (rangeVal s)
    (loxmsec s) v (strip1 s) (strip2 s) (readings1 s) (readings2 s) (leds0 s)
    (leds1 s) (leds2 s) (leds3 s).
Definition with_strip1 (v : Strip) (s : State) : State :=
  Build_State (isButton0Pressed s) (isButton1Pressed s) (rangeVal s)
    (loxmsec s) (isUserPresent s) v (strip2 s) (readings1 s) (readings2 s)
    (leds0 s) (leds1 s) (leds2 s) (leds3 s).
Definition with_strip2 (v : Strip) (s : State) : State :=
  Build_State (isButton0Pressed s) (isButton1Pressed s) (rangeVal s)
    (loxmsec s) (isUserPresent s) (strip1 s) v (readings1 s) (readings2 s)
    (leds0 s) (leds1 s) (leds2 s) (leds3 s).
Definition with_readings1 (v : list Z) (s : State) : State :=
  Build_State (isButton0Pressed s) (isButton1Pressed s) (rangeVal s)
    (loxmsec s) (isUserPresent s) (strip1 s) (strip2 s) v (readings2 s)
    (leds0 s) (leds1 s) (leds2 s) (leds3 s).
Definition with_readings2 (v : list Z) (s : State) : State :=
  Build_State (isButton0Pressed s) (isButton1Pressed s) (rangeVal s)
    (loxmsec s) (isUserPresent s) (strip1 s) (strip2 s) (readings1 s) v
    (leds0 s) (leds1 s) (leds2 s) (leds3 s).
Definition with_leds0 (v : list CRGB) (s : State) : State :=
  Build_State (isButton0Pressed s) (isButton1Pressed s) (rangeVal s)
    (loxmsec s) (isUserPresent s) (strip1 s) (strip2 s) (readings1 s)
    (readings2 s) v (leds1 s) (leds2 s) (leds3 s).
Definition with_leds1 (v : list CRGB) (s : State) : State :=
  Build_State (isButton0Pressed s) (isButton1Pressed s) (rangeVal s)
    (loxmsec s) (isUserPresent s) (strip1 s) (strip2 s) (readings1 s)
    (readings2 s) (leds0 s) v (leds2 s) (leds3 s).
Definition with_leds2 (v : list CRGB) (s : State) : State :=
  Build_State (isButton0Pressed s) (isButton1Pressed s) (rangeVal s)
    (loxmsec s) (isUserPresent s) (strip1 s) (strip2 s) (readings1 s)
    (readings2 s) (leds0 s) (leds1 s) v (leds3 s).
Definition with_leds3 (v : list CRGB) (s : State) : State :=
  Build_State (isButton0Pressed s) (isButton1Pressed s) (rangeVal s)
    (loxmsec s) (isUserPresent s) (strip1 s) (strip2 s) (readings1 s)
    (readings2 s) (leds0 s) (leds1 s) (leds2 s) v.

Definition upd_strip1 (f : Strip -> Strip) (s : State) : State :=
  with_strip1 (f (strip1 s)) s.
Definition upd_strip2 (f : Strip -> Strip) (s : State) : State :=
  with_strip2 (f (strip2 s)) s.
Definition upd_Color (f : CHSV -> CHSV) (t : Strip) : Strip :=
  with_Color (f (Color t)) t.

(** ** What the sketch takes from outside the two source files

    The macros [BAND1], [BAND2], [BAND1_1], [BAND1_2], [BAND1_3] are used by
    myfunctions.h and defined in neither file; the sculpture is chosen by a
    [#define]; [CRGB = CHSV] (FastLED's HSV to RGB conversion),
    [CRGB::fadeToBlackBy] and [CRGB::getAverageLight] are FastLED's.  They are
    the fields of a [Build], and everything below holds for every [Build].

    Modelled from the spec: [add_glitter] is called by [loop] and defined in
    neither file; section 4.5 describes it as a cosmetic overlay of random
    sparkle pixels on the final pixel buffers.  It is the field
    [glitter_overlay], which takes a random seed and the four pixel buffers
    and returns the four buffers. *)

Definition Buffers : Type :=
  (list CRGB * list CRGB * list CRGB * list CRGB)%type.

Record Build := {
  sculpture : Sculpture;
  BAND1 : nat;
  BAND2 : nat;
  BAND1_1 : nat;
  BAND1_2 : nat;
  BAND1_3 : nat;
  hsv2rgb : CHSV -> CRGB;
  fadeToBlackBy : CRGB -> Z -> CRGB;
  getAverageLight : CRGB -> Z;
  glitter_overlay : Z -> Buffers -> Buffers
}.

(** What one pass of [loop] reads from the hardware: the two debounced
    buttons, the measurement [lox.rangingTest] returns if it is called
    ([RangeStatus] is a [uint8_t], [RangeMilliMeter] a [uint16_t]), the
    milliseconds that pass until the next pass, and the random numbers of the
    glitter. *)
Record Input := {
  button0_fallingEdge : bool;
  button1_fallingEdge : bool;
  RangeStatus : Z;
  RangeMilliMeter : Z;
  elapsed : Z;
  glitter_seed : Z
}.

(** [for (int i = 0; i < n; i++) leds[i] = f(leds[i]);] for a band of [n]
    pixels that lies inside the array.  In the sketch a write past the end of
    the array is undefined; here it has no effect, so what a theorem says of
    the memory outside the band is said of the sketch only where the band
    lies inside the array. *)
Fixpoint for_pixels (n : nat) (f : CRGB -> CRGB) (l : list CRGB) : list CRGB :=
  match n, l with
  | S n', p :: l' => f p :: for_pixels n' f l'
  | _, _ => l
  end.

(** [leds[i]] for [i] inside the array.  In the sketch a read past the end
    of the array is undefined; here it gives a black pixel. *)
Definition pixel (l : list CRGB) (i : nat) : CRGB := nth i l Black.

(** ** myfunctions.h: console, hue, readings, play mode *)

Definition read_console (i : Input) (s : State) : State :=
  let s := if button0_fallingEdge i then with_isButton0Pressed true s else s in
  let s := if button1_fallingEdge i then with_isButton1Pressed true s else s in
  if loxmsec s >? 100 then
    let s :=
      if negb (RangeStatus i =? 4) then
        let s := with_rangeVal (int16 (RangeMilliMeter i)) s in
        if rangeVal s >? 1000 then with_isUserPresent false s
        else with_isUserPresent true s
      else with_isUserPresent false s in
    with_loxmsec 0 s
  else s.

Definition do_colour_variation (s : State) : State :=
  if eqb (isUserPresent s) true then
    let s := upd_strip1
               (upd_Color (with_hue (uint8 (Arduino.map (rangeVal s) 0 500 76 204)))) s in
    upd_strip2
      (upd_Color (with_hue (uint8 (Arduino.map (rangeVal s) 0 500 76 204)))) s
  else
    let s := upd_strip1 (upd_Color (with_hue (hue cblue))) s in
    upd_strip2 (upd_Color (with_hue (hue cblue))) s.

(** [for (int i = 0; i < n; i++) readings[i] = int(map(D[i], lo, hi, 0, 255));]
    the arrays [readings1] and [readings2] are declared with exactly [n]
    elements. *)
Definition translate (n : nat) (D : list Z) (lo hi : Z) : list Z :=
  List.map (fun x => int16 (Arduino.map x lo hi 0 255)) (firstn n D).

Definition register_readings (sc : Sculpture) (s : State) : State :=
  if SCULPTURE_ID sc =? 1 then
    let s := with_readings1 (translate 17 CO2_1 0 1800) s in
    with_readings2 (translate 40 CO2_2 0 1800) s
  else if SCULPTURE_ID sc =? 2 then
    let s := with_readings1 (translate 20 PM25_1 0 125) s in
    with_readings2 (translate 32 PM25_2 0 125) s
  else
    let s := with_readings1 (translate 26 VOC_1 0 130) s in
    with_readings2 (translate 22 VOC_2 0 130) s.

Definition set_playMode (s : State) : State :=
  let s :=
    if eqb (isButton0Pressed s) true then
      let s := with_isButton0Pressed false s in
      let s := upd_strip1 (with_playMode BUTTON_MODE) s in
      let s := upd_strip1 (with_hasPlayModeChanged true) s in
      let s := upd_strip1 (with_activeLedState 0) s in
      upd_strip1 (with_bandDelay (BAND_DELAY ÷ 4)) s
    else s in
  if eqb (isButton1Pressed s) true then
    let s := with_isButton1Pressed false s in
    let s := upd_strip2 (with_playMode BUTTON_MODE) s in
    let s := upd_strip2 (with_hasPlayModeChanged true) s in
    let s := upd_strip2 (with_activeLedState 0) s in
    upd_strip2 (with_bandDelay (BAND_DELAY ÷ 4)) s
  else s.

(** ** myfunctions.h: the two strips *)

Section Firmware.

Variable B : Build.

Definition strip1_fade (s : State) : State :=
  with_leds0 (for_pixels (BAND1 B) (fun p => fadeToBlackBy B p 8) (leds0 s)) s.

Definition strip2_fade (s : State) : State :=
  with_leds1 (for_pixels (BAND2 B) (fun p => fadeToBlackBy B p 8) (leds1 s)) s.

Definition strip1_set_brightLevel (brightlvl : Z) (s : State) : State :=
  let s := upd_strip1 (upd_Color (with_val (uint8 brightlvl))) s in
  with_leds0
    (for_pixels (BAND1 B) (fun _ => hsv2rgb B (Color (strip1 s))) (leds0 s)) s.

Definition strip2_set_brightLevel (brightlvl : Z) (s : State) : State :=
  let s := upd_strip2 (upd_Color (with_val (uint8 brightlvl))) s in
  with_leds1
    (for_pixels (BAND2 B) (fun _ => hsv2rgb B (Color (strip2 s))) (leds1 s)) s.

(** Has the strip faded to black: the first pixel and the pixel [BAND - 1].
    The index is a natural number here, so it is 0 when [BAND] is 0, where
    the source reads [leds[-1]]. *)
Definition strip1_has_fade (s : State) : bool :=
  (getAverageLight B (pixel (leds0 s) 0) =? 0)
  && (getAverageLight B (pixel (leds0 s) (BAND1 B - 1)) =? 0).

Definition strip2_has_fade (s : State) : bool :=
  (getAverageLight B (pixel (leds1 s) 0) =? 0)
  && (getAverageLight B (pixel (leds1 s) (BAND2 B - 1)) =? 0).

(** Tracks fade animation bright levels. *)
Definition strip1_get_brightness (s : State) (_brightness : Z) : Z :=
  if negb (isMaxBrightness (strip1 s)) then
    let _brightness := int16 (_brightness + 1) in
    if _brightness >? maxBrightLvl (strip1 s) then maxBrightLvl (strip1 s)
    else _brightness
  else
    let _brightness := int16 (_brightness - 1) in
    if _brightness <? 0 then 0 else _brightness.

Definition strip2_get_brightness (s : State) (_brightness : Z) : Z :=
  if negb (isMaxBrightness (strip2 s)) then
    let _brightness := int16 (_brightness + 1) in
    if _brightness >? maxBrightLvl (strip2 s) then maxBrightLvl (strip2 s)
    else _brightness
  else
    let _brightness := int16 (_brightness - 1) in
    if _brightness <? 0 then 0 else _brightness.

(** Idle fade animation.  In the source the three loops of the
    [SCULPTURE_ID == 1] branch are written [for (int i = 0; i < BAND1_1)];
    they are read as the loops over [i < BAND1_1], [i < BAND1_2] and
    [i < BAND1_3] that the other branch has. *)
Definition strip1_idle_animation (s : State) : State :=
  let brightlevel := strip1_get_brightness s (brightness (strip1 s)) in
  let s := upd_strip1 (with_brightness brightlevel) s in
  let s := upd_strip1 (upd_Color (with_val (uint8 brightlevel))) s in
  let s :=
    if SCULPTURE_ID (sculpture B) =? 1 then
      let s := with_leds0
                 (for_pixels (BAND1_1 B) (fun _ => hsv2rgb B (Color (strip1 s))) (leds0 s)) s in
      let s := with_leds1
                 (for_pixels (BAND1_2 B) (fun _ => hsv2rgb B (Color (strip1 s))) (leds1 s)) s in
      with_leds2
        (for_pixels (BAND1_3 B) (fun _ => hsv2rgb B (Color (strip1 s))) (leds2 s)) s
    else
      with_leds0
        (for_pixels (BAND1 B) (fun _ => hsv2rgb B (Color (strip1 s))) (leds0 s)) s in
  if brightlevel =? maxBrightLvl (strip1 s) then
    upd_strip1 (with_isMaxBrightness true) s
  else if brightlevel =? 0 then
    upd_strip1 (with_isMaxBrightness false) s
  else s.

Definition strip2_idle_animation (s : State) : State :=
  let brightlevel := strip2_get_brightness s (brightness (strip2 s)) in
  let s := upd_strip2 (with_brightness brightlevel) s in
  let s := upd_strip2 (upd_Color (with_val (uint8 brightlevel))) s in
  let s :=
    if SCULPTURE_ID (sculpture B) =? 1 then
      with_leds3
        (for_pixels (BAND2 B) (fun _ => hsv2rgb B (Color (strip1 s))) (leds3 s)) s
    else
      with_leds1
        (for_pixels (BAND2 B) (fun _ => hsv2rgb B (Color (strip2 s))) (leds1 s)) s in
  if brightlevel =? maxBrightLvl (strip2 s) then
    upd_strip2 (with_isMaxBrightness true) s
  else if brightlevel =? 0 then
    upd_strip2 (with_isMaxBrightness false) s
  else s.

(** Prep to go to idle mode. *)
Definition strip1_go_idle (s : State) : State :=
  let s := upd_strip1 (with_activeLedState 0) s in
  let s := upd_strip1 (with_playMode IDLE_MODE) s in
  let s := upd_strip1 (with_hasPlayModeChanged true) s in
  let s := upd_strip1 (with_bandDelay BAND_DELAY) s in
  let s := upd_strip1 (with_maxBrightLvl 255) s in
  let s := upd_strip1 (with_isMaxBrightness false) s in
  let s := upd_strip1 (with_brightness 0) s in
  upd_strip1 (with_bandms 0) s.

Definition strip2_go_idle (s : State) : State :=
  let s := upd_strip2 (with_activeLedState 0) s in
  let s := upd_strip2 (with_playMode IDLE_MODE) s in
  let s := upd_strip2 (with_hasPlayModeChanged true) s in
  let s := upd_strip2 (with_bandDelay BAND_DELAY) s in
  let s := upd_strip2 (with_maxBrightLvl 255) s in
  let s := upd_strip2 (with_isMaxBrightness false) s in
  let s := upd_strip2 (with_brightness 0) s in
  upd_strip2 (with_bandms 0) s.

(** [readings[counter]], [None] when the index is outside the array. *)
Definition read_reading (readings : list Z) (counter : Z) : option Z :=
  if counter <? 0 then None else nth_error readings (Z.to_nat counter).

(** Plays back readings.  The result is [None] when the function reads
    [readings1] outside its bounds, which is the only read of the sketch
    whose index is not a constant or a loop counter. *)
Definition strip1_playback_readings (s : State) : option State :=
  if activeLedState (strip1 s) =? 0 then
    let s := strip1_fade s in
    if eqb (strip1_has_fade s) true then
      let s := upd_strip1 (with_activeLedState 1) s in
      let s := upd_strip1 (with_bandms 0) s in
      let s := upd_strip1 (with_readingsCounter 0) s in
      let s := upd_strip1 (with_prevBrightVal 0) s in
      let s := upd_strip1 (with_currBrightVal 0) s in
      Some (upd_strip1 (upd_Color (with_val 0)) s)
    else Some s
  else if activeLedState (strip1 s) =? 1 then
    if bandms (strip1 s) <? BAND_DELAY * 2 then
      match read_reading (readings1 s) (readingsCounter (strip1 s)) with
      | None => None
      | Some r =>
        let s := upd_strip1 (with_currBrightVal (uint16 r)) s in
        let s :=
          if currBrightVal (strip1 s) >? prevBrightVal (strip1 s) then
            if val (Color (strip1 s)) <? currBrightVal (strip1 s) then
              upd_strip1 (upd_Color (with_val (uint8 (val (Color (strip1 s)) + 10)))) s
            else s
          else
            if val (Color (strip1 s)) >? currBrightVal (strip1 s) then
              upd_strip1 (upd_Color (with_val (uint8 (val (Color (strip1 s)) - 10)))) s
            else s in
        Some (strip1_set_brightLevel (val (Color (strip1 s))) s)
      end
    else
      let s := upd_strip1 (with_prevBrightVal (currBrightVal (strip1 s))) s in
      let s := upd_strip1 (with_readingsCounter (uint16 (readingsCounter (strip1 s) + 1))) s in
      let s := upd_strip1 (with_bandms 0) s in
      let numElements := Z.of_nat (length (readings1 s)) in
      if readingsCounter (strip1 s) =? numElements then
        Some (upd_strip1 (with_activeLedState 2) s)
      else Some s
  else if activeLedState (strip1 s) =? 2 then
    let s := strip1_fade s in
    if strip1_has_fade s then Some (strip1_go_idle s) else Some s
  else Some s.

Definition strip2_playback_readings (s : State) : option State :=
  if activeLedState (strip2 s) =? 0 then
    let s := strip2_fade s in
    if eqb (strip2_has_fade s) true then
      let s := upd_strip2 (with_activeLedState 1) s in
      let s := upd_strip2 (with_bandms 0) s in
      let s := upd_strip2 (with_readingsCounter 0) s in
      let s := upd_strip2 (with_prevBrightVal 0) s in
      let s := upd_strip2 (with_currBrightVal 0) s in
      Some (upd_strip2 (upd_Color (with_val 0)) s)
    else Some s
  else if activeLedState (strip2 s) =? 1 then
    if bandms (strip2 s) <? BAND_DELAY * 2 then
      match read_reading (readings2 s) (readingsCounter (strip2 s)) with
      | None => None
      | Some r =>
        let s := upd_strip2 (with_currBrightVal (uint16 r)) s in
        let s :=
          if currBrightVal (strip2 s) >? prevBrightVal (strip2 s) then
            if val (Color (strip2 s)) <? currBrightVal (strip2 s) then
              upd_strip2 (upd_Color (with_val (uint8 (val (Color (strip2 s)) + 10)))) s
            else s
          else
            if val (Color (strip2 s)) >? currBrightVal (strip2 s) then
              upd_strip2 (upd_Color (with_val (uint8 (val (Color (strip2 s)) - 10)))) s
            else s in
        Some (strip2_set_brightLevel (val (Color (strip2 s))) s)
      end
    else
      let s := upd_strip2 (with_prevBrightVal (currBrightVal (strip2 s))) s in
      let s := upd_strip2 (with_readingsCounter (uint16 (readingsCounter (strip2 s) + 1))) s in
      let s := upd_strip2 (with_bandms 0) s in
      let numElements := Z.of_nat (length (readings2 s)) in
      if readingsCounter (strip2 s) =? numElements then
        Some (upd_strip2 (with_activeLedState 2) s)
      else Some s
  else if activeLedState (strip2 s) =? 2 then
    let s := strip2_fade s in
    if strip2_has_fade s then Some (strip2_go_idle s) else Some s
  else Some s.

(** ** main.cpp: [setup] and [loop] *)

(** The globals as main.cpp initialises them; a global without an
    initialiser is zero.  The three [elapsedMillis] counters read [t0], the
    time [setup] has taken, when [loop] first runs. *)
Definition power_on_strip (t0 : Z) : Strip :=
  Build_Strip IDLE_MODE 0 255 false 0 false (uint32 t0) BAND_DELAY 0 0 0 cblue.

Definition power_on (sc : Sculpture) (t0 : Z) : State :=
  let zeros (n : nat) := repeat 0 n in
  let black (n : nat) := repeat Black n in
  match sc with
  | CO2 =>
    Build_State false false 0 (uint32 t0) false (power_on_strip t0) (power_on_strip t0)
      (zeros 17%nat) (zeros 40%nat)
      (black CO2band1_1) (black CO2band1_2) (black CO2band1_3) (black CO2band2)
  | PM25 =>
    Build_State false false 0 (uint32 t0) false (power_on_strip t0) (power_on_strip t0)
      (zeros 20%nat) (zeros 32%nat)
      (black PM25band1) (black PM25band2) (black 0%nat) (black 0%nat)
  | VOC =>
    Build_State false false 0 (uint32 t0) false (power_on_strip t0) (power_on_strip t0)
      (zeros 26%nat) (zeros 22%nat)
      (black VOCband1) (black VOCband2) (black 0%nat) (black 0%nat)
  end.

(** [setup] returns only when the distance sensor has booted; what it does to
    the globals is [register_readings]. *)
Definition setup (t0 : Z) : State :=
  register_readings (sculpture B) (power_on (sculpture B) t0).

Definition add_glitter (seed : Z) (s : State) : State :=
  match glitter_overlay B seed (leds0 s, leds1 s, leds2 s, leds3 s) with
  | (l0, l1, l2, l3) =>
    with_leds3 l3 (with_leds2 l2 (with_leds1 l1 (with_leds0 l0 s)))
  end.

(** [FastLED.show(); FastLED.delay(1000 / UPDATES_PER_SECOND);] time passes
    here: the three [elapsedMillis] counters ([unsigned long]) advance by the
    milliseconds the pass has taken. *)
Definition FastLED_delay (ms : Z) (s : State) : State :=
  let s := with_loxmsec (uint32 (loxmsec s + ms)) s in
  let s := upd_strip1 (with_bandms (uint32 (bandms (strip1 s) + ms))) s in
  upd_strip2 (with_bandms (uint32 (bandms (strip2 s) + ms))) s.

Definition loop (i : Input) (s : State) : option State :=
  let s := read_console i s in
  let s := do_colour_variation s in
  let s := set_playMode s in
  let r1 :=
    if playMode (strip1 s) =? IDLE_MODE then Some (strip1_idle_animation s)
    else if playMode (strip1 s) =? BUTTON_MODE then strip1_playback_readings s
    else Some s in
  match r1 with
  | None => None
  | Some s =>
    let r2 :=
      if playMode (strip2 s) =? IDLE_MODE then Some (strip2_idle_animation s)
      else if playMode (strip2 s) =? BUTTON_MODE then strip2_playback_readings s
      else Some s in
    match r2 with
    | None => None
    | Some s => Some (FastLED_delay (elapsed i) (add_glitter (glitter_seed i) s))
    end
  end.

(** The states the sketch is in at the start of a pass of [loop]. *)
Inductive reachable : State -> Prop :=
| reach_setup : forall t0, reachable (setup t0)
| reach_loop : forall s i s', reachable s -> loop i s = Some s' -> reachable s'.

(** Consecutive passes of [loop], one per input. *)
Fixpoint run (inputs : list Input) (s : State) : option State :=
  match inputs with
  | [] => Some s
  | i :: inputs' =>
    match loop i s with
    | None => None
    | Some s' => run inputs' s'
    end
  end.

(** The number of elements of [readings1] and of [readings2]. *)
Definition numElements1 (sc : Sculpture) : Z :=
  match sc with CO2 => 17 | PM25 => 20 | VOC => 26 end.
Definition numElements2 (sc : Sculpture) : Z :=
  match sc with CO2 => 40 | PM25 => 32 | VOC => 22 end.

(** What holds of one strip at every point of every pass: in the
    interpolating phase the cursor is inside the readings, and the idle
    brightness and its direction flag are consistent. *)
Definition strip_ok (n : Z) (t : Strip) : Prop :=
  (activeLedState t = 1 -> 0 <= readingsCounter t < n) /\
  maxBrightLvl t = 255 /\
  0 <= brightness t <= 255 /\
  (isMaxBrightness t = false -> brightness t < 255) /\
  (isMaxBrightness t = true -> 0 < brightness t).

Definition state_ok (s : State) : Prop :=
  Z.of_nat (length (readings1 s)) = numElements1 (sculpture B) /\
  Z.of_nat (length (readings2 s)) = numElements2 (sculpture B) /\
  strip_ok (numElements1 (sculpture B)) (strip1 s) /\
  strip_ok (numElements2 (sculpture B)) (strip2 s).

End Firmware.

(** ** The idle ramp of one strip, on its own

    [pingpong M (b, f)] is what one call of [stripN_idle_animation] does to
    the pair of [stripNbrightness] and [stripNisMaxBrightness] when
    [stripNmaxBrightLvl] is [M] (lemmas [strip1_idle_pingpong] and
    [strip2_idle_pingpong]). *)
Definition pingpong (M : Z) (bf : Z * bool) : Z * bool :=
  let (b, f) := bf in
  let b' :=
    if negb f then
      let b1 := int16 (b + 1) in if b1 >? M then M else b1
    else
      let b1 := int16 (b - 1) in if b1 <? 0 then 0 else b1 in
  (b', if b' =? M then true else if b' =? 0 then false else f).

(** The pairs of brightness and direction flag that the idle ramp with top
    [M] goes through. *)
Definition on_ramp (M : Z) (bf : Z * bool) : Prop :=
  0 <= fst bf <= M
  /\ (snd bf = false -> fst bf < M)
  /\ (snd bf = true -> 0 < fst bf).

(** ** One frame of the interpolating phase, on its own

    [interpolated target prev v] is the value that lines 362 to 375 (and 431
    to 444) leave in [stripNColor.val], from the target [stripNcurrBrightVal],
    the previous target [stripNprevBrightVal] and the value [v] before
    (lemmas [strip1_interpolating_frame] and [strip2_interpolating_frame]). *)
Definition interpolated (target prev v : Z) : Z :=
  if target >? prev then
    if v <? target then uint8 (v + 10) else v
  else
    if v >? target then uint8 (v - 10) else v.

(** What one frame does to the value, [v] before and [v'] after, case by
    case: a step of 10 modulo 256 toward the target while the value has not
    reached it, no step once it has, and a step that passes the target by
    less than 10 when it does not wrap around. *)
Definition steps_by_ten (target prev v v' : Z) : Prop :=
  (prev < target -> v < target -> v' = (v + 10) mod 256)
  /\ (prev < target -> target <= v -> v' = v)
  /\ (target <= prev -> target < v -> v' = (v - 10) mod 256)
  /\ (target <= prev -> v <= target -> v' = v)
  /\ (prev < target -> v < target -> v + 10 < 256 ->
      v' = v + 10 /\ v' < target + 10)
  /\ (target <= prev -> target < v -> 10 <= v ->
      v' = v - 10 /\ target - 10 < v').

(** ** The spec's own reading of the translation

    Section 4.1 of the specification: the nearest integer to
    [(raw - domainMin) * 255 / (domainMax - domainMin)].  [nearest p q r]
    says that [r] is an integer nearest to [p / q], whatever the rule for
    ties; [round_div] rounds halves up. *)
Definition nearest (p q r : Z) : Prop := 2 * Z.abs (r * q - p) <= q.

Definition round_div (p q : Z) : Z := (2 * p + q) / (2 * q).

Definition spec_translate (D : list Z) (lo hi : Z) : list Z :=
  List.map (fun x => round_div ((x - lo) * 255) (hi - lo)) D.

(** ** A test rig

    A [Build] for running the sketch on concrete states: the PM2.5 sculpture
    that main.cpp selects, its two strips of 55 pixels, and stand-ins for the
    FastLED calls ([scale8] arithmetic for fading and average light, the value
    channel for the conversion from HSV, no glitter).  No theorem below
    depends on the stand-ins: each is proved for every [Build]. *)
Module Rig.

Definition scale8 (i scale : Z) : Z := Z.shiftr (i * (1 + scale)) 8.

Definition rig_hsv2rgb (c : CHSV) : CRGB :=
  Build_CRGB (val c) (val c) (val c).

Definition rig_fadeToBlackBy (p : CRGB) (fadefactor : Z) : CRGB :=
  Build_CRGB (scale8 (red p) (255 - fadefactor))
             (scale8 (green p) (255 - fadefactor))
             (scale8 (blue p) (255 - fadefactor)).

Definition rig_getAverageLight (p : CRGB) : Z :=
  scale8 (red p) 85 + scale8 (green p) 85 + scale8 (blue p) 85.

Definition pm25 : Build :=
  Build_Build PM25 PM25band1 PM25band2 0 0 0
    rig_hsv2rgb rig_fadeToBlackBy rig_getAverageLight (fun _ b => b).

Definition co2 : Build :=
  Build_Build CO2 CO2band1_1 CO2band2 CO2band1_1 CO2band1_2 CO2band1_3
    rig_hsv2rgb rig_fadeToBlackBy rig_getAverageLight (fun _ b => b).

End Rig.

(** ** Concrete states and inputs *)
Module Bench.

(** The PM2.5 sculpture when [loop] first runs, 2010 ms after power on. *)
Definition boot : State := setup Rig.pm25 2010.

(** A pass of 10 ms with no button pressed and nobody in front of the
    sensor (phase failure), and the same pass with button 0 pressed. *)
Definition quiet : Input := Build_Input false false 4 8190 10 0.
Definition press0 : Input := Build_Input true false 4 8190 10 0.

(** A poll that reports a valid distance of [mm] millimetres. *)
Definition poll (mm : Z) : Input := Build_Input false false 0 mm 10 0.

(** Strip 1 in the interpolating phase, at the start of a dwell window, with
    cursor [c], previous target [p] and value [v]. *)
Definition interpolating1 (c p v : Z) (s : State) : State :=
  upd_strip1
    (fun t =>
       with_playMode BUTTON_MODE
         (with_activeLedState 1
            (with_bandms 0
               (with_readingsCounter c
                  (with_prevBrightVal p (upd_Color (with_val v) t)))))) s.

(** The value on its way down from the first reading (240) to the second
    (77), and on its way up from the third (69) to the fourth (226). *)
Definition dimming : State := interpolating1 1 240 80 boot.
Definition brightening : State := interpolating1 3 69 220 boot.

(** The dwell on the reading 354 that follows the reading 363. *)
Definition after_peak : State := interpolating1 7 363 100 boot.

(** The dwell on the reading 363 that follows the reading 167. *)
Definition at_peak : State := interpolating1 6 167 250 boot.

(** The last reading of strip 1, its dwell window elapsed. *)
Definition last_reading : State :=
  upd_strip1 (with_bandms 1000) (interpolating1 19 110 134 boot).

(** Strip 1 idle, on its way down at brightness 130, button 0 pressed. *)
Definition pressed_on_the_way_down : State :=
  with_isButton0Pressed true
    (upd_strip1 (fun t => with_isMaxBrightness true (with_brightness 130 t)) boot).

(** Both buttons pressed while both strips play back their readings. *)
Definition pressed_in_playback : State :=
  with_isButton1Pressed true
    (with_isButton0Pressed true
       (upd_strip2 (fun t => with_playMode BUTTON_MODE (with_activeLedState 1 t))
          (interpolating1 3 69 220 boot))).

(** What strip 1 shows of its playback: phase, cursor, previous target and
    value. *)
Definition playback1 (s : State) : Z * Z * Z * Z :=
  (activeLedState (strip1 s), readingsCounter (strip1 s),
   prevBrightVal (strip1 s), val (Color (strip1 s))).

End Bench.

(** ** What the sketch keeps from pass to pass

    The channels of a colour record are bytes. *)
Definition bytes (c : CHSV) : Prop :=
  0 <= hue c < 256 /\ 0 <= sat c < 256 /\ 0 <= val c < 256.

(** The play mode of a strip, its playback phase and its fade delay go
    together: an idle strip is in phase 0 with the base delay, a strip in
    button mode is in phase 0, 1 or 2 with a quarter of it. *)
Definition mode_ok (t : Strip) : Prop :=
  (playMode t = IDLE_MODE /\ activeLedState t = 0 /\ bandDelay t = BAND_DELAY)
  \/ (playMode t = BUTTON_MODE
      /\ (activeLedState t = 0 \/ activeLedState t = 1 \/ activeLedState t = 2)
      /\ bandDelay t = BAND_DELAY ÷ 4).

(** The console at the start of a pass: no press is pending, the distance is
    an [int], and a present user is at most 1000 mm away. *)
Definition console_ok (s : State) : Prop :=
  isButton0Pressed s = false
  /\ isButton1Pressed s = false
  /\ -32768 <= rangeVal s < 32768
  /\ (isUserPresent s = true -> rangeVal s <= 1000).

(** The two colour records: bytes, fully saturated, and of one hue. *)
Definition colours_ok (s : State) : Prop :=
  bytes (Color (strip1 s)) /\ bytes (Color (strip2 s))
  /\ sat (Color (strip1 s)) = 255 /\ sat (Color (strip2 s)) = 255
  /\ hue (Color (strip1 s)) = hue (Color (strip2 s)).

Definition pass_ok (s : State) : Prop :=
  console_ok s /\ colours_ok s /\ mode_ok (strip1 s) /\ mode_ok (strip2 s).

(** A loop that writes one colour: the pixels below the band that the array
    has show the colour, the others are as before, and the array keeps its
    length. *)
Definition painted (n : nat) (c : CRGB) (before after : list CRGB) : Prop :=
  length after = length before
  /\ (forall i : nat, (i < n)%nat -> (i < length before)%nat ->
      nth_error after i = Some c)
  /\ (forall i : nat, (n <= i)%nat -> nth_error after i = nth_error before i).

(** ** States of a run *)
Module Trace.

(** The state of the PM2.5 sculpture after the passes of [loop] that the
    inputs give, from power on. *)
Definition after (inputs : list Input) : State :=
  match run Rig.pm25 inputs Bench.boot with
  | Some s => s
  | None => Bench.boot
  end.

(** One quiet pass; a user seen at 300 mm; button 0 pressed and one more
    pass (strip 1 interpolates toward its first reading); the same 98 passes
    later, when the dwell window of the first reading has elapsed. *)
Definition one_pass : State := after [Bench.quiet].
Definition seen : State := after [Bench.poll 300].
Definition playing : State := after [Bench.press0; Bench.quiet].
Definition dwell_over : State := after (Bench.press0 :: repeat Bench.quiet 99).

End Trace.

(** * Properties *)

(** ** Machine integers *)

Lemma uint8_small (z : Z) : 0 <= z < 256 -> uint8 z = z.
Proof. intros H. unfold uint8. now apply Z.mod_small. Qed.

Lemma uint8_range (z : Z) : 0 <= uint8 z < 256.
Proof. unfold uint8. apply Z.mod_pos_bound. lia. Qed.

Lemma uint16_small (z : Z) : 0 <= z < 65536 -> uint16 z = z.
Proof. intros H. unfold uint16. now apply Z.mod_small. Qed.

Lemma int16_small (z : Z) : -32768 <= z < 32768 -> int16 z = z.
Proof. intros H. unfold int16. rewrite Z.mod_small; lia. Qed.

Lemma int32_small (z : Z) : -2147483648 <= z < 2147483648 -> int32 z = z.
Proof. intros H. unfold int32. rewrite Z.mod_small; lia. Qed.

Lemma quot_abs_le (a b : Z) : b <> 0 -> Z.abs (a ÷ b) <= Z.abs a.
Proof.
  intros Hb. rewrite <- Z.quot_abs by assumption.
  rewrite Z.quot_div_nonneg by lia.
  apply Z.div_le_upper_bound; nia.
Qed.

(** [map] on arguments that are [int]s, with an output range that is at most
    a byte wide: no operation of it leaves the range of [long]. *)
Lemma map_of_ints (x in_min in_max out_min out_max : Z) :
  -32768 <= x < 32768 ->
  -32768 <= in_min < 32768 ->
  -32768 <= in_max < 32768 ->
  in_min <> in_max ->
  -32768 <= out_min < 32768 ->
  0 <= out_max - out_min < 256 ->
  Arduino.map x in_min in_max out_min out_max
  = ((x - in_min) * (out_max - out_min)) ÷ (in_max - in_min) + out_min.
Proof.
  intros Hx Hlo Hhi Hne Hout Hw. unfold Arduino.map.
  assert (Hd : in_max - in_min <> 0) by lia.
  pose proof (quot_abs_le ((x - in_min) * (out_max - out_min)) _ Hd) as Hq.
  assert (Hn : Z.abs ((x - in_min) * (out_max - out_min)) <= 65535 * 255) by nia.
  rewrite (int32_small (x - in_min)) by lia.
  rewrite (int32_small (out_max - out_min)) by lia.
  rewrite (int32_small ((x - in_min) * (out_max - out_min))) by lia.
  rewrite (int32_small (in_max - in_min)) by lia.
  rewrite (int32_small (_ ÷ _)) by lia.
  apply int32_small. lia.
Qed.

Lemma gtb_lt (n m : Z) : (n >? m) = true <-> m < n.
Proof. rewrite Z.gtb_ltb. apply Z.ltb_lt. Qed.

Lemma gtb_ge (n m : Z) : (n >? m) = false <-> n <= m.
Proof. rewrite Z.gtb_ltb. rewrite Z.ltb_ge. reflexivity. Qed.

(** ** The reading translator *)

Lemma nth_error_translate (n : nat) (D : list Z) (lo hi : Z) (i : nat) (d : Z) :
  (i < n)%nat ->
  nth_error D i = Some d ->
  nth_error (translate n D lo hi) i = Some (int16 (Arduino.map d lo hi 0 255)).
Proof.
  intros Hi Hd. unfold translate.
  rewrite nth_error_map, nth_error_firstn.
  destruct (Nat.ltb_spec i n) as [_ | Hge]; [| lia].
  now rewrite Hd.
Qed.

(** What [register_readings] stores is the translation of the data set of
    the sculpture, element by element: the raw value times 255, divided by
    the top of the domain range, rounded down. *)
Lemma register_readings_values (sc : Sculpture) (s : State) :
  let top := match sc with CO2 => 1800 | PM25 => 125 | VOC => 130 end in
  readings1 (register_readings sc s)
  = List.map (fun d => (d - 0) * 255 / (top - 0))
             (match sc with CO2 => CO2_1 | PM25 => PM25_1 | VOC => VOC_1 end)
  /\
  readings2 (register_readings sc s)
  = List.map (fun d => (d - 0) * 255 / (top - 0))
             (match sc with CO2 => CO2_2 | PM25 => PM25_2 | VOC => VOC_2 end).
Proof. destruct sc; split; vm_compute; reflexivity. Qed.

(** C3 (as amended): for every data set [D], every domain range [lo], [hi]
    of distinct [int]s and every index [i] inside the loop, the translation
    stores at [i] the value [(D[i] - lo) * 255 / (hi - lo)] with the integer
    division of C, which truncates; it does not round to the nearest integer.
    When [D[i]] is not below [lo] and the quotient fits an [int], this is the
    quotient rounded down. *)
Theorem translate_truncates (n : nat) (D : list Z) (lo hi : Z) (i : nat) (d : Z) :
  (i < n)%nat ->
  nth_error D i = Some d ->
  -32768 <= d < 32768 ->
  -32768 <= lo < 32768 ->
  -32768 <= hi < 32768 ->
  lo <> hi ->
  nth_error (translate n D lo hi) i
  = Some (int16 (((d - lo) * 255) ÷ (hi - lo)))
  /\
  (lo <= d -> lo < hi -> (d - lo) * 255 / (hi - lo) < 32768 ->
   nth_error (translate n D lo hi) i = Some ((d - lo) * 255 / (hi - lo))).
Proof.
  intros Hi Hd Rd Rlo Rhi Hne.
  rewrite (nth_error_translate n D lo hi i d Hi Hd).
  rewrite map_of_ints by lia.
  replace (255 - 0) with 255 by reflexivity. rewrite Z.add_0_r.
  split; [reflexivity |].
  intros Hle Hlt Hfit.
  rewrite Z.quot_div_nonneg by lia.
  rewrite int16_small; [reflexivity |].
  split; [| assumption].
  transitivity 0; [lia |]. apply Z.div_pos; lia.
Qed.

(** ** The console *)


(** ** The hue *)

Lemma do_colour_variation_present (s : State) :
  isUserPresent s = true ->
  hue (Color (strip1 (do_colour_variation s)))
  = uint8 (Arduino.map (rangeVal s) 0 500 76 204)
  /\ hue (Color (strip2 (do_colour_variation s)))
     = uint8 (Arduino.map (rangeVal s) 0 500 76 204).
Proof. intros H. unfold do_colour_variation. rewrite H. cbn. split; reflexivity. Qed.

(** C7 (as amended): when presence is true the hue of both strips is the
    integer linear map of the distance from [0, 500] to [76, 204], that is
    [76 + distance * 128 / 500] with the quotient truncated, stored in the
    8-bit hue field and so taken modulo 256: distance 0 gives 76, distance 500
    gives 204, distances up to 703 give the linear value, and beyond that the
    hue wraps around (distance 1000 gives 76 again).  When presence is false
    the hue of both strips is 140, whatever the last distance. *)
Theorem do_colour_variation_hue (s : State) :
  -32768 <= rangeVal s < 32768 ->
  let h1 := hue (Color (strip1 (do_colour_variation s))) in
  let h2 := hue (Color (strip2 (do_colour_variation s))) in
  (isUserPresent s = true ->
   h1 = ((rangeVal s * 128) ÷ 500 + 76) mod 256 /\ h2 = h1)
  /\
  (isUserPresent s = true -> 0 <= rangeVal s <= 703 ->
   h1 = 76 + rangeVal s * 128 / 500 /\ h2 = h1)
  /\
  (isUserPresent s = true -> rangeVal s = 0 -> h1 = 76 /\ h2 = 76)
  /\
  (isUserPresent s = true -> rangeVal s = 500 -> h1 = 204 /\ h2 = 204)
  /\
  (isUserPresent s = false -> h1 = 140 /\ h2 = 140).
Proof.
  intros Hr h1 h2.
  assert (P : isUserPresent s = true ->
              h1 = ((rangeVal s * 128) ÷ 500 + 76) mod 256 /\ h2 = h1).
  { intros Hp. destruct (do_colour_variation_present s Hp) as [E1 E2].
    subst h1 h2. rewrite E1, E2. rewrite map_of_ints by lia.
    rewrite Z.sub_0_r. replace (500 - 0) with 500 by reflexivity.
    replace (204 - 76) with 128 by reflexivity. split; reflexivity. }
  split; [exact P |]. split; [| split; [| split]].
  - intros Hp Hd. destruct (P Hp) as [E1 E2]. split; [| exact E2].
    rewrite E1. rewrite Z.quot_div_nonneg by lia.
    assert (0 <= rangeVal s * 128 / 500 <= 179).
    { split; [apply Z.div_pos; lia |].
      apply Z.lt_succ_r. apply Z.div_lt_upper_bound; lia. }
    rewrite Z.mod_small by lia. lia.
  - intros Hp H0. destruct (P Hp) as [E1 E2]. rewrite E2, E1, H0.
    split; reflexivity.
  - intros Hp H0. destruct (P Hp) as [E1 E2]. rewrite E2, E1, H0.
    split; reflexivity.
  - intros Hp. subst h1 h2. unfold do_colour_variation. rewrite Hp. cbn.
    split; reflexivity.
Qed.

(** ** The play mode *)

Lemma set_playMode_button0 (s : State) :
  isButton0Pressed s = true ->
  strip1 (set_playMode s)
  = with_bandDelay 125
      (with_activeLedState 0
         (with_hasPlayModeChanged true (with_playMode BUTTON_MODE (strip1 s))))
  /\ isButton0Pressed (set_playMode s) = false.
Proof.
  intros H. unfold set_playMode. rewrite H. cbn.
  destruct (isButton1Pressed s); cbn; split; reflexivity.
Qed.

Lemma set_playMode_button1 (s : State) :
  isButton1Pressed s = true ->
  strip2 (set_playMode s)
  = with_bandDelay 125
      (with_activeLedState 0
         (with_hasPlayModeChanged true (with_playMode BUTTON_MODE (strip2 s))))
  /\ isButton1Pressed (set_playMode s) = false.
Proof.
  intros H. unfold set_playMode.
  destruct (isButton0Pressed s); cbn; rewrite H; cbn; split; reflexivity.
Qed.

Lemma set_playMode_leds (s : State) :
  leds0 (set_playMode s) = leds0 s /\ leds1 (set_playMode s) = leds1 s
  /\ leds2 (set_playMode s) = leds2 s /\ leds3 (set_playMode s) = leds3 s.
Proof.
  unfold set_playMode.
  destruct (isButton0Pressed s) eqn:E0; cbn;
    destruct (isButton1Pressed s) eqn:E1; cbn; repeat split; reflexivity.
Qed.

(** C2 (as amended): when a strip's activate flag is consumed, the fade delay
    of the strip becomes the base delay divided by 4 (125), the brightness,
    the colour record and the pixels are left as they are (the brightness is
    not forced to 0), and the direction flag is left as it is too: it is not
    reset to false. *)
Theorem set_playMode_side_effects (s : State) :
  (isButton0Pressed s = true ->
   bandDelay (strip1 (set_playMode s)) = BAND_DELAY ÷ 4
   /\ bandDelay (strip1 (set_playMode s)) = 125
   /\ brightness (strip1 (set_playMode s)) = brightness (strip1 s)
   /\ Color (strip1 (set_playMode s)) = Color (strip1 s)
   /\ leds0 (set_playMode s) = leds0 s
   /\ isMaxBrightness (strip1 (set_playMode s)) = isMaxBrightness (strip1 s))
  /\
  (isButton1Pressed s = true ->
   bandDelay (strip2 (set_playMode s)) = BAND_DELAY ÷ 4
   /\ bandDelay (strip2 (set_playMode s)) = 125
   /\ brightness (strip2 (set_playMode s)) = brightness (strip2 s)
   /\ Color (strip2 (set_playMode s)) = Color (strip2 s)
   /\ leds1 (set_playMode s) = leds1 s
   /\ isMaxBrightness (strip2 (set_playMode s)) = isMaxBrightness (strip2 s)).
Proof.
  destruct (set_playMode_leds s) as (L0 & L1 & _).
  split; intros H.
  - destruct (set_playMode_button0 s H) as [E _]. rewrite E, L0. cbn.
    repeat split; reflexivity.
  - destruct (set_playMode_button1 s H) as [E _]. rewrite E, L1. cbn.
    repeat split; reflexivity.
Qed.

(** ** Pixel loops *)

Lemma for_pixels_length (n : nat) (f : CRGB -> CRGB) (l : list CRGB) :
  length (for_pixels n f l) = length l.
Proof.
  revert l. induction n as [| n IH]; intros [| p l]; cbn; try reflexivity.
  now rewrite IH.
Qed.

Lemma for_pixels_nth_error (n : nat) (f : CRGB -> CRGB) (l : list CRGB) (i : nat) :
  (i < n)%nat ->
  nth_error (for_pixels n f l) i = option_map f (nth_error l i).
Proof.
  revert l i. induction n as [| n IH]; intros l i Hi; [lia |].
  destruct l as [| p l]; [destruct i; reflexivity |].
  destruct i as [| i]; cbn; [reflexivity |]. apply IH. lia.
Qed.

Lemma for_pixels_const (n : nat) (c : CRGB) (l : list CRGB) :
  length l = n -> for_pixels n (fun _ => c) l = repeat c n.
Proof.
  revert l. induction n as [| n IH]; intros [| p l] H; cbn in *;
    try reflexivity; try discriminate.
  f_equal. apply IH. lia.
Qed.

Section Strips.

Variable B : Build.

(** ** The idle animation of strip 2 *)

(** C9: when the sculpture identity is 1 (CO2), the idle animation of strip 2
    writes [strip1Color], with the hue and the value that strip 1 has at that
    moment, to every pixel of [leds3] that its loop over [BAND2] reaches
    (all of them when [BAND2] is the length of [leds3]); the colour record
    of strip 2 gets the new idle brightness as its value but is written to
    no pixel, and [leds1] is left as it is. *)
Theorem strip2_idle_writes_strip1Color (s : State) :
  SCULPTURE_ID (sculpture B) = 1 ->
  let s' := strip2_idle_animation B s in
  Color (strip1 s') = Color (strip1 s)
  /\ (forall i : nat, (i < BAND2 B)%nat -> (i < length (leds3 s))%nat ->
      nth_error (leds3 s') i = Some (hsv2rgb B (Color (strip1 s))))
  /\ (length (leds3 s) = BAND2 B ->
      leds3 s' = repeat (hsv2rgb B (Color (strip1 s))) (BAND2 B))
  /\ val (Color (strip2 s'))
     = uint8 (strip2_get_brightness s (brightness (strip2 s)))
  /\ leds1 s' = leds1 s.
Proof.
  intros Hid s'. subst s'. unfold strip2_idle_animation. rewrite Hid.
  change (1 =? 1) with true. cbv zeta. cbn [upd_strip2 upd_Color].
  set (bl := strip2_get_brightness s (brightness (strip2 s))).
  match goal with
  | |- context [if ?c then _ else _] => destruct c
  end;
  [| match goal with
     | |- context [if ?c then _ else _] => destruct c
     end]; cbn;
  (split; [reflexivity |]; split; [| split; [| split; reflexivity]]).
  all: try (intros i Hi Hl; rewrite for_pixels_nth_error by assumption;
            destruct (nth_error (leds3 s) i) eqn:E; [reflexivity |];
            apply nth_error_None in E; lia).
  all: intros Hl; apply for_pixels_const; assumption.
Qed.

(** ** The interpolating phase *)

Ltac break_if :=
  match goal with
  | |- context [if ?c then _ else _] => destruct c eqn:?
  end.

Lemma strip1_interpolating_frame (s : State) (r : Z) :
  activeLedState (strip1 s) = 1 ->
  bandms (strip1 s) < BAND_DELAY * 2 ->
  read_reading (readings1 s) (readingsCounter (strip1 s)) = Some r ->
  exists s',
    strip1_playback_readings B s = Some s'
    /\ val (Color (strip1 s'))
       = uint8 (interpolated (uint16 r) (prevBrightVal (strip1 s))
                             (val (Color (strip1 s))))
    /\ currBrightVal (strip1 s') = uint16 r
    /\ activeLedState (strip1 s') = 1
    /\ readingsCounter (strip1 s') = readingsCounter (strip1 s)
    /\ prevBrightVal (strip1 s') = prevBrightVal (strip1 s)
    /\ bandms (strip1 s') = bandms (strip1 s)
    /\ readings1 s' = readings1 s
    /\ leds0 s'
       = for_pixels (BAND1 B) (fun _ => hsv2rgb B (Color (strip1 s'))) (leds0 s).
Proof.
  intros Hst Hms Hrd. unfold strip1_playback_readings.
  rewrite Hst. change (1 =? 0) with false. change (1 =? 1) with true. cbv iota.
  apply Z.ltb_lt in Hms. rewrite Hms, Hrd.
  eexists. split; [reflexivity |].
  unfold interpolated. cbn.
  repeat break_if; cbn; repeat split; first [reflexivity | assumption].
Qed.

Lemma strip2_interpolating_frame (s : State) (r : Z) :
  activeLedState (strip2 s) = 1 ->
  bandms (strip2 s) < BAND_DELAY * 2 ->
  read_reading (readings2 s) (readingsCounter (strip2 s)) = Some r ->
  exists s',
    strip2_playback_readings B s = Some s'
    /\ val (Color (strip2 s'))
       = uint8 (interpolated (uint16 r) (prevBrightVal (strip2 s))
                             (val (Color (strip2 s))))
    /\ currBrightVal (strip2 s') = uint16 r
    /\ activeLedState (strip2 s') = 1
    /\ readingsCounter (strip2 s') = readingsCounter (strip2 s)
    /\ prevBrightVal (strip2 s') = prevBrightVal (strip2 s)
    /\ bandms (strip2 s') = bandms (strip2 s)
    /\ readings2 s' = readings2 s
    /\ leds1 s'
       = for_pixels (BAND2 B) (fun _ => hsv2rgb B (Color (strip2 s'))) (leds1 s).
Proof.
  intros Hst Hms Hrd. unfold strip2_playback_readings.
  rewrite Hst. change (1 =? 0) with false. change (1 =? 1) with true. cbv iota.
  apply Z.ltb_lt in Hms. rewrite Hms, Hrd.
  eexists. split; [reflexivity |].
  unfold interpolated. cbn.
  repeat break_if; cbn; repeat split; first [reflexivity | assumption].
Qed.

Lemma interpolated_steps_by_ten (target prev v : Z) :
  0 <= v < 256 ->
  steps_by_ten target prev v (uint8 (interpolated target prev v)).
Proof.
  intros Hv. unfold steps_by_ten, interpolated.
  destruct (target >? prev) eqn:G; [apply gtb_lt in G | apply gtb_ge in G].
  - destruct (Z.ltb_spec v target) as [L | L].
    + unfold uint8. rewrite Z.mod_mod by lia.
      repeat split; intros; try lia.
      * rewrite Z.mod_small; lia.
      * rewrite Z.mod_small; lia.
    + rewrite uint8_small by lia. repeat split; intros; lia.
  - destruct (v >? target) eqn:L; [apply gtb_lt in L | apply gtb_ge in L].
    + unfold uint8. rewrite Z.mod_mod by lia.
      repeat split; intros; try lia.
      * rewrite Z.mod_small; lia.
      * rewrite Z.mod_small; lia.
    + rewrite uint8_small by lia. repeat split; intros; lia.
Qed.

(** C1 (as amended): in the interpolating phase, on every frame within the
    dwell window, with the target [readings[cursor]] (as an [unsigned int]):
    if the target is above the previous target and the current value is below
    the target, the value goes up by 10 modulo 256 (it is an 8-bit field); if
    the target is not above the previous target and the value is above the
    target, the value goes down by 10 modulo 256; otherwise the value stays.
    The step is not clamped to the target: the value stops once it has
    reached or passed the target, and it passes it by less than 10 when the
    step does not wrap around. *)
Theorem interpolating_steps_by_ten (s : State) (r : Z) :
  (activeLedState (strip1 s) = 1 ->
   bandms (strip1 s) < BAND_DELAY * 2 ->
   read_reading (readings1 s) (readingsCounter (strip1 s)) = Some r ->
   0 <= val (Color (strip1 s)) < 256 ->
   exists s',
     strip1_playback_readings B s = Some s'
     /\ currBrightVal (strip1 s') = uint16 r
     /\ steps_by_ten (uint16 r) (prevBrightVal (strip1 s))
          (val (Color (strip1 s))) (val (Color (strip1 s'))))
  /\
  (activeLedState (strip2 s) = 1 ->
   bandms (strip2 s) < BAND_DELAY * 2 ->
   read_reading (readings2 s) (readingsCounter (strip2 s)) = Some r ->
   0 <= val (Color (strip2 s)) < 256 ->
   exists s',
     strip2_playback_readings B s = Some s'
     /\ currBrightVal (strip2 s') = uint16 r
     /\ steps_by_ten (uint16 r) (prevBrightVal (strip2 s))
          (val (Color (strip2 s))) (val (Color (strip2 s')))).
Proof.
  split; intros Hst Hms Hrd Hv.
  - destruct (strip1_interpolating_frame s r Hst Hms Hrd)
      as (s' & E & Ev & Ec & _).
    exists s'. split; [exact E |]. split; [exact Ec |].
    rewrite Ev. now apply interpolated_steps_by_ten.
  - destruct (strip2_interpolating_frame s r Hst Hms Hrd)
      as (s' & E & Ev & Ec & _).
    exists s'. split; [exact E |]. split; [exact Ec |].
    rewrite Ev. now apply interpolated_steps_by_ten.
Qed.

(** C10 (as amended): the playback value is an 8-bit field and every change
    of plus or minus 10 in the interpolating phase is taken modulo 256.  The
    translated readings can exceed 255: on the PM2.5 sculpture the raw 178
    and 174 become 363 and 354.  For a target above 255 the stored value
    never equals the target.  When such a target is above the previous
    target (363 after 167), every frame of the dwell window adds 10 modulo
    256, so the value wraps around past 255 again and again; when it is not
    above the previous target (354 after 363), the value is left as it is. *)
Theorem playback_value_wraps (s : State) (r : Z) :
  (sculpture B = PM25 ->
   forall t0 : Z,
     nth_error PM25_1 6 = Some 178 /\ nth_error PM25_1 7 = Some 174
     /\ nth_error (readings1 (setup B t0)) 5 = Some 167
     /\ nth_error (readings1 (setup B t0)) 6 = Some 363
     /\ nth_error (readings1 (setup B t0)) 7 = Some 354)
  /\
  (activeLedState (strip1 s) = 1 ->
   bandms (strip1 s) < BAND_DELAY * 2 ->
   read_reading (readings1 s) (readingsCounter (strip1 s)) = Some r ->
   0 <= val (Color (strip1 s)) < 256 ->
   255 < uint16 r ->
   exists s',
     strip1_playback_readings B s = Some s'
     /\ 0 <= val (Color (strip1 s')) < 256
     /\ val (Color (strip1 s')) <> uint16 r
     /\ (prevBrightVal (strip1 s) < uint16 r ->
         val (Color (strip1 s')) = (val (Color (strip1 s)) + 10) mod 256)
     /\ (uint16 r <= prevBrightVal (strip1 s) ->
         val (Color (strip1 s')) = val (Color (strip1 s)))
     /\ activeLedState (strip1 s') = 1
     /\ readingsCounter (strip1 s') = readingsCounter (strip1 s)
     /\ prevBrightVal (strip1 s') = prevBrightVal (strip1 s)
     /\ readings1 s' = readings1 s)
  /\
  (activeLedState (strip2 s) = 1 ->
   bandms (strip2 s) < BAND_DELAY * 2 ->
   read_reading (readings2 s) (readingsCounter (strip2 s)) = Some r ->
   0 <= val (Color (strip2 s)) < 256 ->
   255 < uint16 r ->
   exists s',
     strip2_playback_readings B s = Some s'
     /\ 0 <= val (Color (strip2 s')) < 256
     /\ val (Color (strip2 s')) <> uint16 r
     /\ (prevBrightVal (strip2 s) < uint16 r ->
         val (Color (strip2 s')) = (val (Color (strip2 s)) + 10) mod 256)
     /\ (uint16 r <= prevBrightVal (strip2 s) ->
         val (Color (strip2 s')) = val (Color (strip2 s)))
     /\ activeLedState (strip2 s') = 1
     /\ readingsCounter (strip2 s') = readingsCounter (strip2 s)
     /\ prevBrightVal (strip2 s') = prevBrightVal (strip2 s)
     /\ readings2 s' = readings2 s).
Proof.
  split; [| split].
  - intros Hsc t0. unfold setup. rewrite Hsc. repeat split; reflexivity.
  - intros Hst Hms Hrd Hv Hbig.
    destruct (strip1_interpolating_frame s r Hst Hms Hrd)
      as (s' & E & Ev & _ & Ea & Ec & Ep & _ & Er & _).
    pose proof (interpolated_steps_by_ten (uint16 r) (prevBrightVal (strip1 s))
                  _ Hv) as (S1 & _ & _ & S4 & _).
    rewrite <- Ev in S1, S4.
    pose proof (uint8_range (interpolated (uint16 r) (prevBrightVal (strip1 s))
                               (val (Color (strip1 s))))) as Hr.
    rewrite <- Ev in Hr.
    exists s'. repeat split; try assumption; lia.
  - intros Hst Hms Hrd Hv Hbig.
    destruct (strip2_interpolating_frame s r Hst Hms Hrd)
      as (s' & E & Ev & _ & Ea & Ec & Ep & _ & Er & _).
    pose proof (interpolated_steps_by_ten (uint16 r) (prevBrightVal (strip2 s))
                  _ Hv) as (S1 & _ & _ & S4 & _).
    rewrite <- Ev in S1, S4.
    pose proof (uint8_range (interpolated (uint16 r) (prevBrightVal (strip2 s))
                               (val (Color (strip2 s))))) as Hr.
    rewrite <- Ev in Hr.
    exists s'. repeat split; try assumption; lia.
Qed.

(** ** The end of the readings *)

Lemma strip1_next_reading (s : State) :
  activeLedState (strip1 s) = 1 ->
  BAND_DELAY * 2 <= bandms (strip1 s) ->
  exists s',
    strip1_playback_readings B s = Some s'
    /\ readingsCounter (strip1 s') = uint16 (readingsCounter (strip1 s) + 1)
    /\ prevBrightVal (strip1 s') = currBrightVal (strip1 s)
    /\ bandms (strip1 s') = 0
    /\ readings1 s' = readings1 s
    /\ activeLedState (strip1 s')
       = (if uint16 (readingsCounter (strip1 s) + 1)
             =? Z.of_nat (length (readings1 s))
          then 2 else 1).
Proof.
  intros Hst Hms. unfold strip1_playback_readings.
  rewrite Hst. change (1 =? 0) with false. change (1 =? 1) with true. cbv iota.
  apply Z.ltb_ge in Hms. rewrite Hms. cbn.
  break_if; eexists; (split; [reflexivity |]); cbn;
    repeat split; first [reflexivity | assumption].
Qed.

Lemma strip2_next_reading (s : State) :
  activeLedState (strip2 s) = 1 ->
  BAND_DELAY * 2 <= bandms (strip2 s) ->
  exists s',
    strip2_playback_readings B s = Some s'
    /\ readingsCounter (strip2 s') = uint16 (readingsCounter (strip2 s) + 1)
    /\ prevBrightVal (strip2 s') = currBrightVal (strip2 s)
    /\ bandms (strip2 s') = 0
    /\ readings2 s' = readings2 s
    /\ activeLedState (strip2 s')
       = (if uint16 (readingsCounter (strip2 s) + 1)
             =? Z.of_nat (length (readings2 s))
          then 2 else 1).
Proof.
  intros Hst Hms. unfold strip2_playback_readings.
  rewrite Hst. change (1 =? 0) with false. change (1 =? 1) with true. cbv iota.
  apply Z.ltb_ge in Hms. rewrite Hms. cbn.
  break_if; eexists; (split; [reflexivity |]); cbn;
    repeat split; first [reflexivity | assumption].
Qed.

(** ** What every pass of [loop] keeps *)

Lemma state_ok_frame (s s' : State) :
  strip1 s' = strip1 s -> strip2 s' = strip2 s ->
  readings1 s' = readings1 s -> readings2 s' = readings2 s ->
  state_ok B s -> state_ok B s'.
Proof.
  unfold state_ok. intros E1 E2 E3 E4. now rewrite E1, E2, E3, E4.
Qed.

Lemma numElements1_range : 17 <= numElements1 (sculpture B) <= 26.
Proof. destruct (sculpture B); cbn; lia. Qed.

Lemma numElements2_range : 22 <= numElements2 (sculpture B) <= 40.
Proof. destruct (sculpture B); cbn; lia. Qed.

Lemma setup_ok (t0 : Z) : state_ok B (setup B t0).
Proof.
  unfold setup, state_ok, strip_ok.
  destruct (sculpture B); cbn; repeat split; intros; try lia; discriminate.
Qed.

Lemma read_console_ok (i : Input) (s : State) :
  state_ok B s -> state_ok B (read_console i s).
Proof.
  apply state_ok_frame; unfold read_console;
    repeat break_if; reflexivity.
Qed.

Lemma do_colour_variation_ok (s : State) :
  state_ok B s -> state_ok B (do_colour_variation s).
Proof.
  unfold state_ok, strip_ok, do_colour_variation.
  break_if; cbn; tauto.
Qed.

Lemma set_playMode_ok (s : State) :
  state_ok B s -> state_ok B (set_playMode s).
Proof.
  unfold state_ok, strip_ok, set_playMode.
  intros (L1 & L2 & (C1 & K1) & (C2 & K2)).
  destruct (eqb (isButton0Pressed s) true); cbn;
    destruct (eqb (isButton1Pressed s) true); cbn;
    repeat split; try tauto; try assumption; intros; discriminate.
Qed.

Lemma add_glitter_ok (seed : Z) (s : State) :
  state_ok B s -> state_ok B (add_glitter B seed s).
Proof.
  apply state_ok_frame; unfold add_glitter;
    destruct (glitter_overlay B seed _) as [[[l0 l1] l2] l3]; reflexivity.
Qed.

Lemma FastLED_delay_ok (ms : Z) (s : State) :
  state_ok B s -> state_ok B (FastLED_delay ms s).
Proof. unfold state_ok, strip_ok, FastLED_delay. cbn. tauto. Qed.

(** ** The idle ramp *)

Lemma strip1_idle_pingpong (s : State) :
  let s' := strip1_idle_animation B s in
  (brightness (strip1 s'), isMaxBrightness (strip1 s'))
  = pingpong (maxBrightLvl (strip1 s))
             (brightness (strip1 s), isMaxBrightness (strip1 s))
  /\ maxBrightLvl (strip1 s') = maxBrightLvl (strip1 s)
  /\ activeLedState (strip1 s') = activeLedState (strip1 s)
  /\ readingsCounter (strip1 s') = readingsCounter (strip1 s)
  /\ strip2 s' = strip2 s
  /\ readings1 s' = readings1 s /\ readings2 s' = readings2 s.
Proof.
  unfold strip1_idle_animation.
  change (pingpong (maxBrightLvl (strip1 s))
            (brightness (strip1 s), isMaxBrightness (strip1 s)))
    with (let bl := strip1_get_brightness s (brightness (strip1 s)) in
          (bl, if bl =? maxBrightLvl (strip1 s) then true
               else if bl =? 0 then false else isMaxBrightness (strip1 s))).
  generalize (strip1_get_brightness s (brightness (strip1 s))) as bl.
  intros bl. cbv zeta.
  destruct (SCULPTURE_ID (sculpture B) =? 1); cbn;
    destruct (bl =? maxBrightLvl (strip1 s)); cbn;
    try (destruct (bl =? 0); cbn); repeat split; reflexivity.
Qed.

Lemma strip2_idle_pingpong (s : State) :
  let s' := strip2_idle_animation B s in
  (brightness (strip2 s'), isMaxBrightness (strip2 s'))
  = pingpong (maxBrightLvl (strip2 s))
             (brightness (strip2 s), isMaxBrightness (strip2 s))
  /\ maxBrightLvl (strip2 s') = maxBrightLvl (strip2 s)
  /\ activeLedState (strip2 s') = activeLedState (strip2 s)
  /\ readingsCounter (strip2 s') = readingsCounter (strip2 s)
  /\ strip1 s' = strip1 s
  /\ readings1 s' = readings1 s /\ readings2 s' = readings2 s.
Proof.
  unfold strip2_idle_animation.
  change (pingpong (maxBrightLvl (strip2 s))
            (brightness (strip2 s), isMaxBrightness (strip2 s)))
    with (let bl := strip2_get_brightness s (brightness (strip2 s)) in
          (bl, if bl =? maxBrightLvl (strip2 s) then true
               else if bl =? 0 then false else isMaxBrightness (strip2 s))).
  generalize (strip2_get_brightness s (brightness (strip2 s))) as bl.
  intros bl. cbv zeta.
  destruct (SCULPTURE_ID (sculpture B) =? 1); cbn;
    destruct (bl =? maxBrightLvl (strip2 s)); cbn;
    try (destruct (bl =? 0); cbn); repeat split; reflexivity.
Qed.

Lemma pingpong_up (M b : Z) :
  0 <= b -> b + 1 < M -> M < 32768 -> pingpong M (b, false) = (b + 1, false).
Proof.
  intros H0 H1 HM. unfold pingpong. cbn [negb].
  rewrite int16_small by lia.
  assert (E : (b + 1 >? M) = false) by (apply gtb_ge; lia). rewrite E.
  destruct (Z.eqb_spec (b + 1) M); [lia |].
  destruct (Z.eqb_spec (b + 1) 0); [lia | reflexivity].
Qed.

Lemma pingpong_top (M : Z) :
  0 < M < 32768 -> pingpong M (M - 1, false) = (M, true).
Proof.
  intros HM. unfold pingpong. cbn [negb].
  rewrite int16_small by lia.
  assert (E : (M - 1 + 1 >? M) = false) by (apply gtb_ge; lia). rewrite E.
  destruct (Z.eqb_spec (M - 1 + 1) M); [f_equal; lia | lia].
Qed.

Lemma pingpong_down (M b : Z) :
  1 < b -> b <= M -> M < 32768 -> pingpong M (b, true) = (b - 1, true).
Proof.
  intros H0 H1 HM. unfold pingpong. cbn [negb].
  rewrite int16_small by lia.
  destruct (Z.ltb_spec (b - 1) 0); [lia |].
  destruct (Z.eqb_spec (b - 1) M); [lia |].
  destruct (Z.eqb_spec (b - 1) 0); [lia | reflexivity].
Qed.

Lemma pingpong_bottom (M : Z) :
  0 < M < 32768 -> pingpong M (1, true) = (0, false).
Proof.
  intros HM. unfold pingpong. cbn [negb].
  rewrite int16_small by lia. change (1 - 1) with 0.
  change (0 <? 0) with false. cbv iota.
  destruct (Z.eqb_spec 0 M); [lia | reflexivity].
Qed.

Lemma pingpong_on_ramp (M : Z) (bf : Z * bool) :
  0 < M < 32768 -> on_ramp M bf -> on_ramp M (pingpong M bf).
Proof.
  intros HM. destruct bf as [b [|]]; unfold on_ramp; cbn [fst snd];
    intros (Hb & Hf & Ht).
  - specialize (Ht eq_refl).
    destruct (Z.eq_dec b 1) as [-> | Hne].
    + rewrite pingpong_bottom by lia. cbn. repeat split; intros; first [lia | discriminate].
    + rewrite pingpong_down by lia. cbn. repeat split; intros; first [lia | discriminate].
  - specialize (Hf eq_refl).
    destruct (Z.eq_dec (b + 1) M) as [E | Hne].
    + replace b with (M - 1) by lia. rewrite pingpong_top by lia. cbn.
      repeat split; intros; first [lia | discriminate].
    + rewrite pingpong_up by lia. cbn. repeat split; intros; first [lia | discriminate].
Qed.






Lemma strip_ok_on_ramp (n : Z) (t : Strip) :
  strip_ok n t -> on_ramp 255 (brightness t, isMaxBrightness t).
Proof. unfold strip_ok, on_ramp. cbn. tauto. Qed.



Lemma strip1_idle_animation_ok (s : State) :
  state_ok B s -> state_ok B (strip1_idle_animation B s).
Proof.
  intros (L1 & L2 & K1 & K2).
  destruct (strip1_idle_pingpong s) as (E & EM & Ea & Ec & E2 & R1 & R2).
  pose proof (pingpong_on_ramp 255 _ ltac:(lia) (strip_ok_on_ramp _ _ K1)) as Hr.
  destruct K1 as (C & M & K1).
  rewrite M in E. rewrite <- E in Hr. unfold on_ramp in Hr. cbn in Hr.
  unfold state_ok. rewrite E2, R1, R2.
  split; [exact L1 |]. split; [exact L2 |]. split; [| exact K2].
  unfold strip_ok. rewrite EM, Ea, Ec. tauto.
Qed.

Lemma strip2_idle_animation_ok (s : State) :
  state_ok B s -> state_ok B (strip2_idle_animation B s).
Proof.
  intros (L1 & L2 & K1 & K2).
  destruct (strip2_idle_pingpong s) as (E & EM & Ea & Ec & E2 & R1 & R2).
  pose proof (pingpong_on_ramp 255 _ ltac:(lia) (strip_ok_on_ramp _ _ K2)) as Hr.
  destruct K2 as (C & M & K2).
  rewrite M in E. rewrite <- E in Hr. unfold on_ramp in Hr. cbn in Hr.
  unfold state_ok. rewrite E2, R1, R2.
  split; [exact L1 |]. split; [exact L2 |]. split; [exact K1 |].
  unfold strip_ok. rewrite EM, Ea, Ec. tauto.
Qed.

Lemma read_reading_in_range (l : list Z) (c : Z) :
  0 <= c < Z.of_nat (length l) -> exists r, read_reading l c = Some r.
Proof.
  intros Hc. unfold read_reading.
  destruct (Z.ltb_spec c 0); [lia |].
  destruct (nth_error l (Z.to_nat c)) eqn:E; [eauto |].
  apply nth_error_None in E. lia.
Qed.

Lemma strip1_playback_readings_ok (s : State) :
  state_ok B s ->
  exists s', strip1_playback_readings B s = Some s' /\ state_ok B s'.
Proof.
  intros (L1 & L2 & K1 & K2). unfold strip_ok in K1, K2.
  pose proof numElements1_range as Hn.
  destruct (Z.eq_dec (activeLedState (strip1 s)) 1) as [H1 | H1].
  - destruct K1 as (C & K1). specialize (C H1).
    destruct (Z.lt_ge_cases (bandms (strip1 s)) (BAND_DELAY * 2)) as [Hms | Hms].
    + destruct (read_reading_in_range (readings1 s) (readingsCounter (strip1 s))
                  ltac:(lia)) as [r Hr].
      destruct (strip1_interpolating_frame s r H1 Hms Hr)
        as (s' & E & _ & _ & Ea & Ec & _ & _ & Er & _).
      exists s'. split; [exact E |].
      revert E. unfold strip1_playback_readings.
      rewrite H1. change (1 =? 0) with false. change (1 =? 1) with true.
      cbv iota. apply Z.ltb_lt in Hms. rewrite Hms, Hr.
      intros E. injection E as <-.
      unfold state_ok, strip_ok. repeat break_if; cbn; tauto.
    + destruct (strip1_next_reading s H1 Hms) as (s' & E & Ec & _ & _ & Er & Ea).
      exists s'. split; [exact E |].
      rewrite uint16_small in Ec, Ea by lia.
      revert E. unfold strip1_playback_readings.
      rewrite H1. change (1 =? 0) with false. change (1 =? 1) with true.
      cbv iota. apply Z.ltb_ge in Hms. rewrite Hms.
      unfold state_ok, strip_ok.
      cbn. rewrite uint16_small by lia.
      destruct (Z.eqb_spec (readingsCounter (strip1 s) + 1)
                  (Z.of_nat (length (readings1 s)))) as [Q | Q];
        intros E; injection E as <-; cbn;
        repeat split; try tauto; try lia; intros; discriminate.
  - unfold strip1_playback_readings.
    destruct (Z.eqb_spec (activeLedState (strip1 s)) 0) as [H0 | H0].
    + unfold state_ok, strip_ok in *. cbv zeta.
      destruct (eqb (strip1_has_fade B (strip1_fade B s)) true);
        eexists; (split; [reflexivity |]); cbn;
        repeat split; try tauto; try lia.
    + destruct (Z.eqb_spec (activeLedState (strip1 s)) 1) as [? | _]; [lia |].
      destruct (Z.eqb_spec (activeLedState (strip1 s)) 2) as [H2 | H2].
      * unfold state_ok, strip_ok in *. cbv zeta.
        destruct (strip1_has_fade B (strip1_fade B s));
          eexists; (split; [reflexivity |]); cbn;
          repeat split; try tauto; try lia; intros; discriminate.
      * exists s. split; [reflexivity |]. unfold state_ok, strip_ok. tauto.
Qed.

Lemma strip2_playback_readings_ok (s : State) :
  state_ok B s ->
  exists s', strip2_playback_readings B s = Some s' /\ state_ok B s'.
Proof.
  intros (L1 & L2 & K2 & K1). unfold strip_ok in K1, K2.
  pose proof numElements2_range as Hn.
  destruct (Z.eq_dec (activeLedState (strip2 s)) 1) as [H1 | H1].
  - destruct K1 as (C & K1). specialize (C H1).
    destruct (Z.lt_ge_cases (bandms (strip2 s)) (BAND_DELAY * 2)) as [Hms | Hms].
    + destruct (read_reading_in_range (readings2 s) (readingsCounter (strip2 s))
                  ltac:(lia)) as [r Hr].
      destruct (strip2_interpolating_frame s r H1 Hms Hr)
        as (s' & E & _ & _ & Ea & Ec & _ & _ & Er & _).
      exists s'. split; [exact E |].
      revert E. unfold strip2_playback_readings.
      rewrite H1. change (1 =? 0) with false. change (1 =? 1) with true.
      cbv iota. apply Z.ltb_lt in Hms. rewrite Hms, Hr.
      intros E. injection E as <-.
      unfold state_ok, strip_ok. repeat break_if; cbn; tauto.
    + destruct (strip2_next_reading s H1 Hms) as (s' & E & Ec & _ & _ & Er & Ea).
      exists s'. split; [exact E |].
      rewrite uint16_small in Ec, Ea by lia.
      revert E. unfold strip2_playback_readings.
      rewrite H1. change (1 =? 0) with false. change (1 =? 1) with true.
      cbv iota. apply Z.ltb_ge in Hms. rewrite Hms.
      unfold state_ok, strip_ok.
      cbn. rewrite uint16_small by lia.
      destruct (Z.eqb_spec (readingsCounter (strip2 s) + 1)
                  (Z.of_nat (length (readings2 s)))) as [Q | Q];
        intros E; injection E as <-; cbn;
        repeat split; try tauto; try lia; intros; discriminate.
  - unfold strip2_playback_readings.
    destruct (Z.eqb_spec (activeLedState (strip2 s)) 0) as [H0 | H0].
    + unfold state_ok, strip_ok in *. cbv zeta.
      destruct (eqb (strip2_has_fade B (strip2_fade B s)) true);
        eexists; (split; [reflexivity |]); cbn;
        repeat split; try tauto; try lia.
    + destruct (Z.eqb_spec (activeLedState (strip2 s)) 1) as [? | _]; [lia |].
      destruct (Z.eqb_spec (activeLedState (strip2 s)) 2) as [H2 | H2].
      * unfold state_ok, strip_ok in *. cbv zeta.
        destruct (strip2_has_fade B (strip2_fade B s));
          eexists; (split; [reflexivity |]); cbn;
          repeat split; try tauto; try lia; intros; discriminate.
      * exists s. split; [reflexivity |]. unfold state_ok, strip_ok. tauto.
Qed.

Lemma loop_ok (i : Input) (s : State) :
  state_ok B s -> exists s', loop B i s = Some s' /\ state_ok B s'.
Proof.
  intros H. unfold loop.
  apply (read_console_ok i), do_colour_variation_ok, set_playMode_ok in H.
  set (s0 := set_playMode (do_colour_variation (read_console i s))) in *.
  assert (H1 : exists s1,
             (if playMode (strip1 s0) =? IDLE_MODE
              then Some (strip1_idle_animation B s0)
              else if playMode (strip1 s0) =? BUTTON_MODE
                   then strip1_playback_readings B s0 else Some s0) = Some s1
             /\ state_ok B s1).
  { destruct (playMode (strip1 s0) =? IDLE_MODE).
    - eexists. split; [reflexivity |]. now apply strip1_idle_animation_ok.
    - destruct (playMode (strip1 s0) =? BUTTON_MODE).
      + now apply strip1_playback_readings_ok.
      + eexists. split; [reflexivity | assumption]. }
  destruct H1 as (s1 & E1 & K1). cbv zeta. rewrite E1.
  assert (H2 : exists s2,
             (if playMode (strip2 s1) =? IDLE_MODE
              then Some (strip2_idle_animation B s1)
              else if playMode (strip2 s1) =? BUTTON_MODE
                   then strip2_playback_readings B s1 else Some s1) = Some s2
             /\ state_ok B s2).
  { destruct (playMode (strip2 s1) =? IDLE_MODE).
    - eexists. split; [reflexivity |]. now apply strip2_idle_animation_ok.
    - destruct (playMode (strip2 s1) =? BUTTON_MODE).
      + now apply strip2_playback_readings_ok.
      + eexists. split; [reflexivity | assumption]. }
  destruct H2 as (s2 & E2 & K2). rewrite E2.
  eexists. split; [reflexivity |].
  now apply FastLED_delay_ok, add_glitter_ok.
Qed.

Lemma reachable_ok (s : State) : reachable B s -> state_ok B s.
Proof.
  induction 1 as [t0 | s i s' _ IH E].
  - apply setup_ok.
  - destruct (loop_ok i s IH) as (s'' & E' & K). congruence.
Qed.

(** C4: in the interpolating phase, when the cursor is at the last reading
    and the dwell window has elapsed, the strip goes to the fade to idle
    (state 2); and in every state the sketch reaches, a strip that is in the
    interpolating phase has its cursor inside the readings, so that no pass
    of [loop] reads [readings1] or [readings2] outside its bounds: [loop]
    gives a next state for every input. *)
Theorem interpolating_stays_in_bounds :
  (forall s : State,
     activeLedState (strip1 s) = 1 ->
     readingsCounter (strip1 s) = Z.of_nat (length (readings1 s)) - 1 ->
     BAND_DELAY * 2 <= bandms (strip1 s) ->
     0 < Z.of_nat (length (readings1 s)) < 65536 ->
     exists s', strip1_playback_readings B s = Some s'
                /\ activeLedState (strip1 s') = 2)
  /\
  (forall s : State,
     activeLedState (strip2 s) = 1 ->
     readingsCounter (strip2 s) = Z.of_nat (length (readings2 s)) - 1 ->
     BAND_DELAY * 2 <= bandms (strip2 s) ->
     0 < Z.of_nat (length (readings2 s)) < 65536 ->
     exists s', strip2_playback_readings B s = Some s'
                /\ activeLedState (strip2 s') = 2)
  /\
  (forall s : State,
     reachable B s ->
     (activeLedState (strip1 s) = 1 ->
      0 <= readingsCounter (strip1 s) < Z.of_nat (length (readings1 s)))
     /\ (activeLedState (strip2 s) = 1 ->
         0 <= readingsCounter (strip2 s) < Z.of_nat (length (readings2 s)))
     /\ (forall i : Input, exists s', loop B i s = Some s')).
Proof.
  split; [| split].
  - intros s H1 Hc Hms Hl.
    destruct (strip1_next_reading s H1 Hms) as (s' & E & _ & _ & _ & _ & Ea).
    exists s'. split; [exact E |]. rewrite Ea, Hc.
    rewrite uint16_small by lia.
    destruct (Z.eqb_spec (Z.of_nat (length (readings1 s)) - 1 + 1)
                (Z.of_nat (length (readings1 s)))); [reflexivity | lia].
  - intros s H1 Hc Hms Hl.
    destruct (strip2_next_reading s H1 Hms) as (s' & E & _ & _ & _ & _ & Ea).
    exists s'. split; [exact E |]. rewrite Ea, Hc.
    rewrite uint16_small by lia.
    destruct (Z.eqb_spec (Z.of_nat (length (readings2 s)) - 1 + 1)
                (Z.of_nat (length (readings2 s)))); [reflexivity | lia].
  - intros s Hr. pose proof (reachable_ok s Hr) as K.
    split; [| split].
    + destruct K as (L1 & _ & (C & _) & _). rewrite L1. exact C.
    + destruct K as (_ & L2 & _ & (C & _)). rewrite L2. exact C.
    + intros i. destruct (loop_ok i s K) as (s' & E & _). eauto.
Qed.

(** C8: in every state, whatever the play mode and the playback phase of the
    strip, consuming the activate flag of a strip puts the strip in button
    mode with [activeLedState] 0, raises its mode change flag, sets its fade
    delay to the base delay divided by 4 and clears the activate flag; the
    playback that follows in the same pass of [loop] is the fade to black of
    phase 0, so a press during a playback starts the playback again from the
    fade. *)
Theorem set_playMode_restarts_playback (s : State) :
  (isButton0Pressed s = true ->
   let s1 := set_playMode s in
   playMode (strip1 s1) = BUTTON_MODE
   /\ activeLedState (strip1 s1) = 0
   /\ hasPlayModeChanged (strip1 s1) = true
   /\ bandDelay (strip1 s1) = BAND_DELAY ÷ 4
   /\ isButton0Pressed s1 = false
   /\ exists s2,
        strip1_playback_readings B s1 = Some s2
        /\ leds0 s2 = leds0 (strip1_fade B s1)
        /\ (activeLedState (strip1 s2) = 0
            \/ activeLedState (strip1 s2) = 1
               /\ readingsCounter (strip1 s2) = 0))
  /\
  (isButton1Pressed s = true ->
   let s1 := set_playMode s in
   playMode (strip2 s1) = BUTTON_MODE
   /\ activeLedState (strip2 s1) = 0
   /\ hasPlayModeChanged (strip2 s1) = true
   /\ bandDelay (strip2 s1) = BAND_DELAY ÷ 4
   /\ isButton1Pressed s1 = false
   /\ exists s2,
        strip2_playback_readings B s1 = Some s2
        /\ leds1 s2 = leds1 (strip2_fade B s1)
        /\ (activeLedState (strip2 s2) = 0
            \/ activeLedState (strip2 s2) = 1
               /\ readingsCounter (strip2 s2) = 0)).
Proof.
  split; intros H s1.
  - destruct (set_playMode_button0 s H) as [E F]. fold s1 in E, F.
    assert (A : activeLedState (strip1 s1) = 0) by (rewrite E; reflexivity).
    rewrite F. rewrite E at 1 2 3 4. cbn.
    repeat (split; [reflexivity |]).
    unfold strip1_playback_readings. rewrite A. change (0 =? 0) with true.
    cbv iota zeta.
    destruct (eqb (strip1_has_fade B (strip1_fade B s1)) true);
      eexists; (split; [reflexivity |]); cbn; split; try reflexivity.
    + right. split; reflexivity.
    + left. exact A.
  - destruct (set_playMode_button1 s H) as [E F]. fold s1 in E, F.
    assert (A : activeLedState (strip2 s1) = 0) by (rewrite E; reflexivity).
    rewrite F. rewrite E at 1 2 3 4. cbn.
    repeat (split; [reflexivity |]).
    unfold strip2_playback_readings. rewrite A. change (0 =? 0) with true.
    cbv iota zeta.
    destruct (eqb (strip2_has_fade B (strip2_fade B s1)) true);
      eexists; (split; [reflexivity |]); cbn; split; try reflexivity.
    + right. split; reflexivity.
    + left. exact A.
Qed.

Lemma run_reachable (inputs : list Input) (s s' : State) :
  reachable B s -> run B inputs s = Some s' -> reachable B s'.
Proof.
  revert s. induction inputs as [| i inputs IH]; intros s Hr E; cbn in E.
  - congruence.
  - destruct (loop B i s) as [s1 |] eqn:L; [| discriminate].
    apply (IH s1); [| exact E]. exact (reach_loop B s i s1 Hr L).
Qed.

End Strips.

(** * Closed instances

    The theorems at concrete states of the PM2.5 sculpture, and the states
    at which the sketch does something else than the specification says. *)

Import Bench.

(** C1, counterexample: on the way down from 240 to the target 77 the value
    goes from 80 to 70, below the target, and on the way up from 69 to the
    target 226 it goes from 220 to 230, above the target.  The first state
    is met in a run: button 0 pressed in the first pass of [loop], then 116
    passes of 10 ms, and one more pass takes the value from 80 to 70. *)
Lemma interpolating_passes_the_target :
  read_reading (readings1 dimming) (readingsCounter (strip1 dimming)) = Some 77
  /\ playback1 dimming = (1, 1, 240, 80)
  /\ option_map playback1 (strip1_playback_readings Rig.pm25 dimming)
     = Some (1, 1, 240, 70)
  /\ 70 < 77
  /\ read_reading (readings1 brightening) (readingsCounter (strip1 brightening))
     = Some 226
  /\ playback1 brightening = (1, 3, 69, 220)
  /\ option_map playback1 (strip1_playback_readings Rig.pm25 brightening)
     = Some (1, 3, 69, 230)
  /\ 226 < 230
  /\ option_map playback1 (run Rig.pm25 (press0 :: repeat quiet 116) boot)
     = Some (1, 1, 240, 80)
  /\ option_map playback1 (run Rig.pm25 (press0 :: repeat quiet 117) boot)
     = Some (1, 1, 240, 70).
Proof. vm_compute. repeat split; reflexivity. Qed.

Lemma interpolating_steps_by_ten_witness :
  exists s',
    strip1_playback_readings Rig.pm25 dimming = Some s'
    /\ currBrightVal (strip1 s') = uint16 77
    /\ steps_by_ten (uint16 77) (prevBrightVal (strip1 dimming))
         (val (Color (strip1 dimming))) (val (Color (strip1 s'))).
Proof.
  apply (proj1 (interpolating_steps_by_ten Rig.pm25 dimming 77)).
  - reflexivity.
  - reflexivity.
  - reflexivity.
  - cbn. lia.
Defined.

(** C2, counterexample: strip 1 idles on its way down (direction flag true,
    brightness 130) when button 0 is pressed; after [set_playMode] the
    direction flag is still true. *)
Lemma set_playMode_keeps_direction_flag :
  isButton0Pressed pressed_on_the_way_down = true
  /\ isMaxBrightness (strip1 pressed_on_the_way_down) = true
  /\ playMode (strip1 (set_playMode pressed_on_the_way_down)) = BUTTON_MODE
  /\ isMaxBrightness (strip1 (set_playMode pressed_on_the_way_down)) = true.
Proof. vm_compute. repeat split; reflexivity. Qed.

Lemma set_playMode_side_effects_witness :
  bandDelay (strip1 (set_playMode pressed_on_the_way_down)) = BAND_DELAY ÷ 4
  /\ bandDelay (strip1 (set_playMode pressed_on_the_way_down)) = 125
  /\ brightness (strip1 (set_playMode pressed_on_the_way_down))
     = brightness (strip1 pressed_on_the_way_down)
  /\ Color (strip1 (set_playMode pressed_on_the_way_down))
     = Color (strip1 pressed_on_the_way_down)
  /\ leds0 (set_playMode pressed_on_the_way_down) = leds0 pressed_on_the_way_down
  /\ isMaxBrightness (strip1 (set_playMode pressed_on_the_way_down))
     = isMaxBrightness (strip1 pressed_on_the_way_down).
Proof.
  apply (proj1 (set_playMode_side_effects pressed_on_the_way_down)).
  reflexivity.
Defined.

(** C3, counterexample: the first PM2.5 reading is 118, and
    118 * 255 / 125 = 240.72; the sketch stores 240, the nearest integer is
    241. *)
Lemma translate_does_not_round :
  nth_error PM25_1 0 = Some 118
  /\ nth_error (readings1 (register_readings PM25 (power_on PM25 2010))) 0
     = Some 240
  /\ nth_error (translate 20 PM25_1 0 125) 0 = Some 240
  /\ nth_error (spec_translate PM25_1 0 125) 0 = Some 241
  /\ nearest ((118 - 0) * 255) (125 - 0) 241
  /\ (nearest ((118 - 0) * 255) (125 - 0) 240 -> False).
Proof.
  repeat split; try reflexivity; unfold nearest; cbn; lia.
Qed.

Lemma translate_truncates_witness :
  nth_error (translate 20 PM25_1 0 125) 0
  = Some (int16 (((118 - 0) * 255) ÷ (125 - 0)))
  /\
  (0 <= 118 -> 0 < 125 -> (118 - 0) * 255 / (125 - 0) < 32768 ->
   nth_error (translate 20 PM25_1 0 125) 0 = Some ((118 - 0) * 255 / (125 - 0))).
Proof.
  apply (translate_truncates 20 PM25_1 0 125 0 118).
  - lia.
  - reflexivity.
  - lia.
  - lia.
  - lia.
  - lia.
Defined.



(** C7, counterexample: a valid reading of 1000 mm makes the user present;
    the linear map of 1000 is 332, and the hue of both strips is 76. *)
Lemma hue_wraps_around :
  isUserPresent (read_console (poll 1000) boot) = true
  /\ rangeVal (read_console (poll 1000) boot) = 1000
  /\ 76 + (1000 - 0) * (204 - 76) / (500 - 0) = 332
  /\ hue (Color (strip1 (do_colour_variation (read_console (poll 1000) boot))))
     = 76
  /\ hue (Color (strip2 (do_colour_variation (read_console (poll 1000) boot))))
     = 76.
Proof. vm_compute. repeat split; reflexivity. Qed.

Lemma do_colour_variation_hue_witness :
  isUserPresent (read_console (poll 500) boot) = true
  /\ hue (Color (strip1 (do_colour_variation (read_console (poll 500) boot))))
     = 204
  /\ hue (Color (strip2 (do_colour_variation (read_console (poll 500) boot))))
     = 204.
Proof.
  split; [reflexivity |].
  apply (proj1 (proj2 (proj2 (proj2
           (do_colour_variation_hue (read_console (poll 500) boot)
              ltac:(cbn; lia)))))).
  - reflexivity.
  - reflexivity.
Defined.

Lemma interpolating_stays_in_bounds_witness :
  (exists s', strip1_playback_readings Rig.pm25 last_reading = Some s'
              /\ activeLedState (strip1 s') = 2)
  /\ reachable Rig.pm25 boot
  /\ (forall i : Input, exists s', loop Rig.pm25 i boot = Some s').
Proof.
  split; [| split].
  - apply (proj1 (interpolating_stays_in_bounds Rig.pm25) last_reading).
    + reflexivity.
    + reflexivity.
    + cbn. lia.
    + cbn. lia.
  - apply reach_setup.
  - apply (proj2 (proj2 (interpolating_stays_in_bounds Rig.pm25)) boot).
    apply reach_setup.
Defined.


Lemma set_playMode_restarts_playback_witness :
  playback1 pressed_in_playback = (1, 3, 69, 220)
  /\ playMode (strip1 (set_playMode pressed_in_playback)) = BUTTON_MODE
  /\ activeLedState (strip1 (set_playMode pressed_in_playback)) = 0
  /\ hasPlayModeChanged (strip1 (set_playMode pressed_in_playback)) = true
  /\ bandDelay (strip1 (set_playMode pressed_in_playback)) = BAND_DELAY ÷ 4.
Proof.
  split; [reflexivity |].
  destruct (proj1 (set_playMode_restarts_playback Rig.pm25 pressed_in_playback)
              eq_refl) as (H1 & H2 & H3 & H4 & _).
  repeat split; assumption.
Defined.

Lemma strip2_idle_writes_strip1Color_witness :
  SCULPTURE_ID (sculpture Rig.co2) = 1
  /\ leds3 (strip2_idle_animation Rig.co2 (setup Rig.co2 2010))
     = repeat (hsv2rgb Rig.co2 (Color (strip1 (setup Rig.co2 2010))))
         (BAND2 Rig.co2).
Proof.
  split; [reflexivity |].
  apply (proj1 (proj2 (proj2
           (strip2_idle_writes_strip1Color Rig.co2 (setup Rig.co2 2010)
              eq_refl)))).
  reflexivity.
Defined.

(** C10, counterexample: the dwell on the reading 354 (raw 174) follows the
    dwell on 363 (raw 178); the target 354 is above 255 and not above the
    previous target, and a frame leaves the value as it is (100 here, not
    110).  In a run, button 0 pressed in the first pass and 700 passes of
    10 ms after it, the value is 132 at the start of that dwell and 132
    thirty passes later. *)
Lemma value_kept_below_previous_target :
  read_reading (readings1 after_peak) (readingsCounter (strip1 after_peak))
  = Some 354
  /\ 255 < uint16 354
  /\ playback1 after_peak = (1, 7, 363, 100)
  /\ option_map playback1 (strip1_playback_readings Rig.pm25 after_peak)
     = Some (1, 7, 363, 100)
  /\ (100 + 10) mod 256 = 110
  /\ option_map playback1 (run Rig.pm25 (press0 :: repeat quiet 700) boot)
     = Some (1, 7, 363, 132)
  /\ option_map playback1 (run Rig.pm25 (press0 :: repeat quiet 730) boot)
     = Some (1, 7, 363, 132).
Proof. vm_compute. repeat split; reflexivity. Qed.

Lemma playback_value_wraps_witness :
  playback1 at_peak = (1, 6, 167, 250)
  /\ exists s',
       strip1_playback_readings Rig.pm25 at_peak = Some s'
       /\ val (Color (strip1 s')) = (250 + 10) mod 256
       /\ val (Color (strip1 s')) <> uint16 363.
Proof.
  split; [reflexivity |].
  destruct (proj1 (proj2 (playback_value_wraps Rig.pm25 at_peak 363)))
    as (s' & E & _ & Hne & Hup & _).
  - reflexivity.
  - reflexivity.
  - reflexivity.
  - cbn. lia.
  - cbn. lia.
  - exists s'. split; [exact E |]. split; [| exact Hne].
    apply Hup. cbn. lia.
Defined.

(** * More of the sketch *)

Ltac case_if :=
  match goal with
  | |- context [if ?c then _ else _] => destruct c eqn:?
  end.

Section Passes.

Variable B : Build.

(** ** What the functions of a strip leave alone *)

Lemma strip1_playback_readings_frame (s s' : State) :
  strip1_playback_readings B s = Some s' ->
  strip2 s' = strip2 s
  /\ readings1 s' = readings1 s /\ readings2 s' = readings2 s
  /\ leds1 s' = leds1 s /\ leds2 s' = leds2 s /\ leds3 s' = leds3 s
  /\ length (leds0 s') = length (leds0 s)
  /\ isButton0Pressed s' = isButton0Pressed s
  /\ isButton1Pressed s' = isButton1Pressed s
  /\ rangeVal s' = rangeVal s /\ loxmsec s' = loxmsec s
  /\ isUserPresent s' = isUserPresent s
  /\ hue (Color (strip1 s')) = hue (Color (strip1 s))
  /\ sat (Color (strip1 s')) = sat (Color (strip1 s)).
Proof.
  intros E. unfold strip1_playback_readings in E. cbv zeta in E.
  destruct (activeLedState (strip1 s) =? 0).
  { destruct (eqb (strip1_has_fade B (strip1_fade B s)) true);
      injection E as <-; cbn; rewrite ?for_pixels_length;
      repeat split; reflexivity. }
  destruct (activeLedState (strip1 s) =? 1).
  { destruct (bandms (strip1 s) <? BAND_DELAY * 2).
    - destruct (read_reading (readings1 s) (readingsCounter (strip1 s)))
        as [r |]; [| discriminate].
      injection E as <-. cbn.
      repeat case_if; cbn; rewrite ?for_pixels_length;
        repeat split; reflexivity.
    - revert E. cbn. case_if; intros E; injection E as <-; cbn;
        repeat split; reflexivity. }
  destruct (activeLedState (strip1 s) =? 2).
  { destruct (strip1_has_fade B (strip1_fade B s));
      injection E as <-; cbn; rewrite ?for_pixels_length;
      repeat split; reflexivity. }
  injection E as <-. repeat split; reflexivity.
Qed.

Lemma strip2_playback_readings_frame (s s' : State) :
  strip2_playback_readings B s = Some s' ->
  strip1 s' = strip1 s
  /\ readings1 s' = readings1 s /\ readings2 s' = readings2 s
  /\ leds0 s' = leds0 s /\ leds2 s' = leds2 s /\ leds3 s' = leds3 s
  /\ length (leds1 s') = length (leds1 s)
  /\ isButton0Pressed s' = isButton0Pressed s
  /\ isButton1Pressed s' = isButton1Pressed s
  /\ rangeVal s' = rangeVal s /\ loxmsec s' = loxmsec s
  /\ isUserPresent s' = isUserPresent s
  /\ hue (Color (strip2 s')) = hue (Color (strip2 s))
  /\ sat (Color (strip2 s')) = sat (Color (strip2 s)).
Proof.
  intros E. unfold strip2_playback_readings in E. cbv zeta in E.
  destruct (activeLedState (strip2 s) =? 0).
  { destruct (eqb (strip2_has_fade B (strip2_fade B s)) true);
      injection E as <-; cbn; rewrite ?for_pixels_length;
      repeat split; reflexivity. }
  destruct (activeLedState (strip2 s) =? 1).
  { destruct (bandms (strip2 s) <? BAND_DELAY * 2).
    - destruct (read_reading (readings2 s) (readingsCounter (strip2 s)))
        as [r |]; [| discriminate].
      injection E as <-. cbn.
      repeat case_if; cbn; rewrite ?for_pixels_length;
        repeat split; reflexivity.
    - revert E. cbn. case_if; intros E; injection E as <-; cbn;
        repeat split; reflexivity. }
  destruct (activeLedState (strip2 s) =? 2).
  { destruct (strip2_has_fade B (strip2_fade B s));
      injection E as <-; cbn; rewrite ?for_pixels_length;
      repeat split; reflexivity. }
  injection E as <-. repeat split; reflexivity.
Qed.

(** X1: where the band of a strip lies inside the array that its playback
    works on ([0 < BAND1 <= length leds0] for strip 1,
    [0 < BAND2 <= length leds1] for strip 2), the playback of strip 1 writes
    pixels of [leds0] only and the playback of strip 2 writes pixels of
    [leds1] only; neither changes the length of its array, the globals of the
    other strip, the readings, the console, or the hue and the saturation of
    its own colour record. *)
Theorem playback_touches_its_own_strip (s s' : State) :
  ((0 < BAND1 B <= length (leds0 s))%nat ->
   strip1_playback_readings B s = Some s' ->
   strip2 s' = strip2 s
   /\ readings1 s' = readings1 s /\ readings2 s' = readings2 s
   /\ leds1 s' = leds1 s /\ leds2 s' = leds2 s /\ leds3 s' = leds3 s
   /\ length (leds0 s') = length (leds0 s)
   /\ isButton0Pressed s' = isButton0Pressed s
   /\ isButton1Pressed s' = isButton1Pressed s
   /\ rangeVal s' = rangeVal s /\ loxmsec s' = loxmsec s
   /\ isUserPresent s' = isUserPresent s
   /\ hue (Color (strip1 s')) = hue (Color (strip1 s))
   /\ sat (Color (strip1 s')) = sat (Color (strip1 s)))
  /\
  ((0 < BAND2 B <= length (leds1 s))%nat ->
   strip2_playback_readings B s = Some s' ->
   strip1 s' = strip1 s
   /\ readings1 s' = readings1 s /\ readings2 s' = readings2 s
   /\ leds0 s' = leds0 s /\ leds2 s' = leds2 s /\ leds3 s' = leds3 s
   /\ length (leds1 s') = length (leds1 s)
   /\ isButton0Pressed s' = isButton0Pressed s
   /\ isButton1Pressed s' = isButton1Pressed s
   /\ rangeVal s' = rangeVal s /\ loxmsec s' = loxmsec s
   /\ isUserPresent s' = isUserPresent s
   /\ hue (Color (strip2 s')) = hue (Color (strip2 s))
   /\ sat (Color (strip2 s')) = sat (Color (strip2 s))).
Proof.
  split; intros _.
  - apply strip1_playback_readings_frame.
  - apply strip2_playback_readings_frame.
Qed.

(** ** The phases of a playback *)

Lemma strip1_playback_phases (s s' : State) :
  (strip1_playback_readings B s = Some s' ->
   (activeLedState (strip1 s) = 0 ->
    playMode (strip1 s') = playMode (strip1 s)
    /\ bandDelay (strip1 s') = bandDelay (strip1 s)
    /\ (strip1_has_fade B (strip1_fade B s) = false
        /\ activeLedState (strip1 s') = 0
        \/ strip1_has_fade B (strip1_fade B s) = true
           /\ activeLedState (strip1 s') = 1
           /\ readingsCounter (strip1 s') = 0
           /\ prevBrightVal (strip1 s') = 0
           /\ currBrightVal (strip1 s') = 0
           /\ val (Color (strip1 s')) = 0
           /\ bandms (strip1 s') = 0))
   /\
   (activeLedState (strip1 s) = 1 ->
    playMode (strip1 s') = playMode (strip1 s)
    /\ bandDelay (strip1 s') = bandDelay (strip1 s)
    /\ (activeLedState (strip1 s') = 1
        \/ activeLedState (strip1 s') = 2
           /\ BAND_DELAY * 2 <= bandms (strip1 s)
           /\ readingsCounter (strip1 s') = Z.of_nat (length (readings1 s))))
   /\
   (activeLedState (strip1 s) = 2 ->
    strip1_has_fade B (strip1_fade B s) = false
    /\ activeLedState (strip1 s') = 2
    /\ playMode (strip1 s') = playMode (strip1 s)
    /\ bandDelay (strip1 s') = bandDelay (strip1 s)
    \/ strip1_has_fade B (strip1_fade B s) = true
       /\ playMode (strip1 s') = IDLE_MODE
       /\ activeLedState (strip1 s') = 0
       /\ brightness (strip1 s') = 0
       /\ isMaxBrightness (strip1 s') = false
       /\ maxBrightLvl (strip1 s') = 255
       /\ bandDelay (strip1 s') = BAND_DELAY
       /\ bandms (strip1 s') = 0
       /\ hasPlayModeChanged (strip1 s') = true)
   /\
   (activeLedState (strip1 s) <> 0 -> activeLedState (strip1 s) <> 1 ->
    activeLedState (strip1 s) <> 2 -> s' = s)).
Proof.
  intros E.
  unfold strip1_playback_readings in E. cbv zeta in E.
    destruct (Z.eqb_spec (activeLedState (strip1 s)) 0) as [H0 | H0].
    { destruct (strip1_has_fade B (strip1_fade B s)) eqn:F;
        cbn [eqb] in E; injection E as <-; cbn;
        (split; [| split; [| split]]); intros; lia. }
    destruct (Z.eqb_spec (activeLedState (strip1 s)) 1) as [H1 | H1].
    { destruct (Z.ltb_spec (bandms (strip1 s)) (BAND_DELAY * 2)) as [Hms | Hms].
      - destruct (read_reading (readings1 s) (readingsCounter (strip1 s)))
          as [r |]; [| discriminate].
        injection E as <-.
        (split; [| split; [| split]]); intros; try lia.
        cbn. repeat case_if; cbn; repeat split; try reflexivity; left; assumption.
      - revert E. cbn.
        destruct (Z.eqb_spec (uint16 (readingsCounter (strip1 s) + 1))
                    (Z.of_nat (length (readings1 s)))) as [Q | Q];
          intros E; injection E as <-; cbn;
          (split; [| split; [| split]]); intros; try lia.
        repeat split; try reflexivity. right. repeat split; assumption. }
    destruct (Z.eqb_spec (activeLedState (strip1 s)) 2) as [H2 | H2].
    { destruct (strip1_has_fade B (strip1_fade B s)) eqn:F;
        injection E as <-; cbn;
        (split; [| split; [| split]]); intros; try lia.
      all: right; repeat split; reflexivity. }
    injection E as <-. repeat split; intros; try lia; reflexivity.
Qed.

Lemma strip2_playback_phases (s s' : State) :
  (strip2_playback_readings B s = Some s' ->
   (activeLedState (strip2 s) = 0 ->
    playMode (strip2 s') = playMode (strip2 s)
    /\ bandDelay (strip2 s') = bandDelay (strip2 s)
    /\ (strip2_has_fade B (strip2_fade B s) = false
        /\ activeLedState (strip2 s') = 0
        \/ strip2_has_fade B (strip2_fade B s) = true
           /\ activeLedState (strip2 s') = 1
           /\ readingsCounter (strip2 s') = 0
           /\ prevBrightVal (strip2 s') = 0
           /\ currBrightVal (strip2 s') = 0
           /\ val (Color (strip2 s')) = 0
           /\ bandms (strip2 s') = 0))
   /\
   (activeLedState (strip2 s) = 1 ->
    playMode (strip2 s') = playMode (strip2 s)
    /\ bandDelay (strip2 s') = bandDelay (strip2 s)
    /\ (activeLedState (strip2 s') = 1
        \/ activeLedState (strip2 s') = 2
           /\ BAND_DELAY * 2 <= bandms (strip2 s)
           /\ readingsCounter (strip2 s') = Z.of_nat (length (readings2 s))))
   /\
   (activeLedState (strip2 s) = 2 ->
    strip2_has_fade B (strip2_fade B s) = false
    /\ activeLedState (strip2 s') = 2
    /\ playMode (strip2 s') = playMode (strip2 s)
    /\ bandDelay (strip2 s') = bandDelay (strip2 s)
    \/ strip2_has_fade B (strip2_fade B s) = true
       /\ playMode (strip2 s') = IDLE_MODE
       /\ activeLedState (strip2 s') = 0
       /\ brightness (strip2 s') = 0
       /\ isMaxBrightness (strip2 s') = false
       /\ maxBrightLvl (strip2 s') = 255
       /\ bandDelay (strip2 s') = BAND_DELAY
       /\ bandms (strip2 s') = 0
       /\ hasPlayModeChanged (strip2 s') = true)
   /\
   (activeLedState (strip2 s) <> 0 -> activeLedState (strip2 s) <> 1 ->
    activeLedState (strip2 s) <> 2 -> s' = s)).
Proof.
  intros E.
  unfold strip2_playback_readings in E. cbv zeta in E.
    destruct (Z.eqb_spec (activeLedState (strip2 s)) 0) as [H0 | H0].
    { destruct (strip2_has_fade B (strip2_fade B s)) eqn:F;
        cbn [eqb] in E; injection E as <-; cbn;
        (split; [| split; [| split]]); intros; lia. }
    destruct (Z.eqb_spec (activeLedState (strip2 s)) 1) as [H1 | H1].
    { destruct (Z.ltb_spec (bandms (strip2 s)) (BAND_DELAY * 2)) as [Hms | Hms].
      - destruct (read_reading (readings2 s) (readingsCounter (strip2 s)))
          as [r |]; [| discriminate].
        injection E as <-.
        (split; [| split; [| split]]); intros; try lia.
        cbn. repeat case_if; cbn; repeat split; try reflexivity; left; assumption.
      - revert E. cbn.
        destruct (Z.eqb_spec (uint16 (readingsCounter (strip2 s) + 1))
                    (Z.of_nat (length (readings2 s)))) as [Q | Q];
          intros E; injection E as <-; cbn;
          (split; [| split; [| split]]); intros; try lia.
        repeat split; try reflexivity. right. repeat split; assumption. }
    destruct (Z.eqb_spec (activeLedState (strip2 s)) 2) as [H2 | H2].
    { destruct (strip2_has_fade B (strip2_fade B s)) eqn:F;
        injection E as <-; cbn;
        (split; [| split; [| split]]); intros; try lia.
      all: right; repeat split; reflexivity. }
    injection E as <-. repeat split; intros; try lia; reflexivity.
Qed.

(** X2: the playback of a strip goes through its phases in order.  From
    phase 0 the strip stays in phase 0 until its first pixel and its pixel
    [BAND - 1] are dark after the fade of the pass, and then enters phase 1
    with cursor 0, both targets 0, value 0 and the timer at 0.  From phase 1
    it stays in phase 1 or goes to phase 2, and goes to phase 2 only when the
    dwell window has elapsed and the cursor has reached the number of
    readings.  From phase 2 it stays in phase 2 until the two pixels are
    dark after the fade, and then goes idle with phase 0, brightness 0,
    direction flag false, top brightness 255, the base fade delay, the timer
    at 0 and the mode change flag raised.  The play mode changes in that last
    step only, and the fade delay with it. *)
Theorem playback_phases_in_order (s s' : State) :
  (strip1_playback_readings B s = Some s' ->
   (activeLedState (strip1 s) = 0 ->
    playMode (strip1 s') = playMode (strip1 s)
    /\ bandDelay (strip1 s') = bandDelay (strip1 s)
    /\ (strip1_has_fade B (strip1_fade B s) = false
        /\ activeLedState (strip1 s') = 0
        \/ strip1_has_fade B (strip1_fade B s) = true
           /\ activeLedState (strip1 s') = 1
           /\ readingsCounter (strip1 s') = 0
           /\ prevBrightVal (strip1 s') = 0
           /\ currBrightVal (strip1 s') = 0
           /\ val (Color (strip1 s')) = 0
           /\ bandms (strip1 s') = 0))
   /\
   (activeLedState (strip1 s) = 1 ->
    playMode (strip1 s') = playMode (strip1 s)
    /\ bandDelay (strip1 s') = bandDelay (strip1 s)
    /\ (activeLedState (strip1 s') = 1
        \/ activeLedState (strip1 s') = 2
           /\ BAND_DELAY * 2 <= bandms (strip1 s)
           /\ readingsCounter (strip1 s') = Z.of_nat (length (readings1 s))))
   /\
   (activeLedState (strip1 s) = 2 ->
    strip1_has_fade B (strip1_fade B s) = false
    /\ activeLedState (strip1 s') = 2
    /\ playMode (strip1 s') = playMode (strip1 s)
    /\ bandDelay (strip1 s') = bandDelay (strip1 s)
    \/ strip1_has_fade B (strip1_fade B s) = true
       /\ playMode (strip1 s') = IDLE_MODE
       /\ activeLedState (strip1 s') = 0
       /\ brightness (strip1 s') = 0
       /\ isMaxBrightness (strip1 s') = false
       /\ maxBrightLvl (strip1 s') = 255
       /\ bandDelay (strip1 s') = BAND_DELAY
       /\ bandms (strip1 s') = 0
       /\ hasPlayModeChanged (strip1 s') = true)
   /\
   (activeLedState (strip1 s) <> 0 -> activeLedState (strip1 s) <> 1 ->
    activeLedState (strip1 s) <> 2 -> s' = s))
  /\
  (strip2_playback_readings B s = Some s' ->
   (activeLedState (strip2 s) = 0 ->
    playMode (strip2 s') = playMode (strip2 s)
    /\ bandDelay (strip2 s') = bandDelay (strip2 s)
    /\ (strip2_has_fade B (strip2_fade B s) = false
        /\ activeLedState (strip2 s') = 0
        \/ strip2_has_fade B (strip2_fade B s) = true
           /\ activeLedState (strip2 s') = 1
           /\ readingsCounter (strip2 s') = 0
           /\ prevBrightVal (strip2 s') = 0
           /\ currBrightVal (strip2 s') = 0
           /\ val (Color (strip2 s')) = 0
           /\ bandms (strip2 s') = 0))
   /\
   (activeLedState (strip2 s) = 1 ->
    playMode (strip2 s') = playMode (strip2 s)
    /\ bandDelay (strip2 s') = bandDelay (strip2 s)
    /\ (activeLedState (strip2 s') = 1
        \/ activeLedState (strip2 s') = 2
           /\ BAND_DELAY * 2 <= bandms (strip2 s)
           /\ readingsCounter (strip2 s') = Z.of_nat (length (readings2 s))))
   /\
   (activeLedState (strip2 s) = 2 ->
    strip2_has_fade B (strip2_fade B s) = false
    /\ activeLedState (strip2 s') = 2
    /\ playMode (strip2 s') = playMode (strip2 s)
    /\ bandDelay (strip2 s') = bandDelay (strip2 s)
    \/ strip2_has_fade B (strip2_fade B s) = true
       /\ playMode (strip2 s') = IDLE_MODE
       /\ activeLedState (strip2 s') = 0
       /\ brightness (strip2 s') = 0
       /\ isMaxBrightness (strip2 s') = false
       /\ maxBrightLvl (strip2 s') = 255
       /\ bandDelay (strip2 s') = BAND_DELAY
       /\ bandms (strip2 s') = 0
       /\ hasPlayModeChanged (strip2 s') = true)
   /\
   (activeLedState (strip2 s) <> 0 -> activeLedState (strip2 s) <> 1 ->
    activeLedState (strip2 s) <> 2 -> s' = s)).
Proof.
  split.
  - apply strip1_playback_phases.
  - apply strip2_playback_phases.
Qed.

(** ** What a pass keeps *)

Lemma int16_range (z : Z) : -32768 <= int16 z < 32768.
Proof.
  unfold int16. pose proof (Z.mod_pos_bound (z + 32768) 65536 ltac:(lia)). lia.
Qed.

Lemma strip1_idle_animation_frame (s : State) :
  let s' := strip1_idle_animation B s in
  isButton0Pressed s' = isButton0Pressed s
  /\ isButton1Pressed s' = isButton1Pressed s
  /\ rangeVal s' = rangeVal s /\ loxmsec s' = loxmsec s
  /\ isUserPresent s' = isUserPresent s
  /\ strip2 s' = strip2 s
  /\ playMode (strip1 s') = playMode (strip1 s)
  /\ activeLedState (strip1 s') = activeLedState (strip1 s)
  /\ bandDelay (strip1 s') = bandDelay (strip1 s)
  /\ hasPlayModeChanged (strip1 s') = hasPlayModeChanged (strip1 s)
  /\ hue (Color (strip1 s')) = hue (Color (strip1 s))
  /\ sat (Color (strip1 s')) = sat (Color (strip1 s))
  /\ val (Color (strip1 s')) = uint8 (brightness (strip1 s'))
  /\ leds3 s' = leds3 s.
Proof.
  unfold strip1_idle_animation.
  generalize (strip1_get_brightness s (brightness (strip1 s))) as bl.
  intros bl. cbv zeta.
  destruct (SCULPTURE_ID (sculpture B) =? 1); cbn;
    destruct (bl =? maxBrightLvl (strip1 s)); cbn;
    try (destruct (bl =? 0); cbn); repeat split; reflexivity.
Qed.

Lemma strip2_idle_animation_frame (s : State) :
  let s' := strip2_idle_animation B s in
  isButton0Pressed s' = isButton0Pressed s
  /\ isButton1Pressed s' = isButton1Pressed s
  /\ rangeVal s' = rangeVal s /\ loxmsec s' = loxmsec s
  /\ isUserPresent s' = isUserPresent s
  /\ strip1 s' = strip1 s
  /\ playMode (strip2 s') = playMode (strip2 s)
  /\ activeLedState (strip2 s') = activeLedState (strip2 s)
  /\ bandDelay (strip2 s') = bandDelay (strip2 s)
  /\ hasPlayModeChanged (strip2 s') = hasPlayModeChanged (strip2 s)
  /\ hue (Color (strip2 s')) = hue (Color (strip2 s))
  /\ sat (Color (strip2 s')) = sat (Color (strip2 s))
  /\ val (Color (strip2 s')) = uint8 (brightness (strip2 s'))
  /\ leds0 s' = leds0 s /\ leds2 s' = leds2 s.
Proof.
  unfold strip2_idle_animation.
  generalize (strip2_get_brightness s (brightness (strip2 s))) as bl.
  intros bl. cbv zeta.
  destruct (SCULPTURE_ID (sculpture B) =? 1); cbn;
    destruct (bl =? maxBrightLvl (strip2 s)); cbn;
    try (destruct (bl =? 0); cbn); repeat split; reflexivity.
Qed.

Lemma strip1_playback_readings_val (s s' : State) :
  strip1_playback_readings B s = Some s' ->
  0 <= val (Color (strip1 s)) < 256 -> 0 <= val (Color (strip1 s')) < 256.
Proof.
  intros E Hv. unfold strip1_playback_readings in E. cbv zeta in E.
  destruct (activeLedState (strip1 s) =? 0).
  { destruct (eqb (strip1_has_fade B (strip1_fade B s)) true);
      injection E as <-; cbn; lia. }
  destruct (activeLedState (strip1 s) =? 1).
  { destruct (bandms (strip1 s) <? BAND_DELAY * 2).
    - destruct (read_reading (readings1 s) (readingsCounter (strip1 s)))
        as [r |]; [| discriminate].
      injection E as <-. cbn. apply uint8_range.
    - revert E. cbn. case_if; intros E; injection E as <-; cbn; lia. }
  destruct (activeLedState (strip1 s) =? 2).
  { destruct (strip1_has_fade B (strip1_fade B s));
      injection E as <-; cbn; lia. }
  injection E as <-. lia.
Qed.

Lemma strip2_playback_readings_val (s s' : State) :
  strip2_playback_readings B s = Some s' ->
  0 <= val (Color (strip2 s)) < 256 -> 0 <= val (Color (strip2 s')) < 256.
Proof.
  intros E Hv. unfold strip2_playback_readings in E. cbv zeta in E.
  destruct (activeLedState (strip2 s) =? 0).
  { destruct (eqb (strip2_has_fade B (strip2_fade B s)) true);
      injection E as <-; cbn; lia. }
  destruct (activeLedState (strip2 s) =? 1).
  { destruct (bandms (strip2 s) <? BAND_DELAY * 2).
    - destruct (read_reading (readings2 s) (readingsCounter (strip2 s)))
        as [r |]; [| discriminate].
      injection E as <-. cbn. apply uint8_range.
    - revert E. cbn. case_if; intros E; injection E as <-; cbn; lia. }
  destruct (activeLedState (strip2 s) =? 2).
  { destruct (strip2_has_fade B (strip2_fade B s));
      injection E as <-; cbn; lia. }
  injection E as <-. lia.
Qed.

Lemma strip1_playback_readings_mode (s s' : State) :
  strip1_playback_readings B s = Some s' ->
  playMode (strip1 s) = BUTTON_MODE ->
  mode_ok (strip1 s) -> mode_ok (strip1 s').
Proof.
  intros E Hb Hm.
  destruct (strip1_playback_phases s s' E) as (P0 & P1 & P2 & _).
  unfold mode_ok in *. unfold IDLE_MODE, BUTTON_MODE in *.
  destruct Hm as [(Hi & _) | (_ & [H | [H | H]] & Hd)]; [lia | | |].
  - destruct (P0 H) as (Em & Ed & [(_ & Ea) | (_ & Ea & _)]);
      right; rewrite Em, Ed, Ea; repeat split; auto.
  - destruct (P1 H) as (Em & Ed & [Ea | (Ea & _)]);
      right; rewrite Em, Ed, Ea; repeat split; auto.
  - destruct (P2 H) as [(_ & Ea & Em & Ed) | (_ & Em & Ea & _ & _ & _ & Ed & _)].
    + right. rewrite Em, Ed, Ea. repeat split; auto.
    + left. repeat split; assumption.
Qed.

Lemma strip2_playback_readings_mode (s s' : State) :
  strip2_playback_readings B s = Some s' ->
  playMode (strip2 s) = BUTTON_MODE ->
  mode_ok (strip2 s) -> mode_ok (strip2 s').
Proof.
  intros E Hb Hm.
  destruct (strip2_playback_phases s s' E) as (P0 & P1 & P2 & _).
  unfold mode_ok in *. unfold IDLE_MODE, BUTTON_MODE in *.
  destruct Hm as [(Hi & _) | (_ & [H | [H | H]] & Hd)]; [lia | | |].
  - destruct (P0 H) as (Em & Ed & [(_ & Ea) | (_ & Ea & _)]);
      right; rewrite Em, Ed, Ea; repeat split; auto.
  - destruct (P1 H) as (Em & Ed & [Ea | (Ea & _)]);
      right; rewrite Em, Ed, Ea; repeat split; auto.
  - destruct (P2 H) as [(_ & Ea & Em & Ed) | (_ & Em & Ea & _ & _ & _ & Ed & _)].
    + right. rewrite Em, Ed, Ea. repeat split; auto.
    + left. repeat split; assumption.
Qed.

Lemma read_console_pass (i : Input) (s : State) :
  let s' := read_console i s in
  isButton0Pressed s' = button0_fallingEdge i || isButton0Pressed s
  /\ isButton1Pressed s' = button1_fallingEdge i || isButton1Pressed s
  /\ strip1 s' = strip1 s /\ strip2 s' = strip2 s
  /\ (-32768 <= rangeVal s < 32768 -> -32768 <= rangeVal s' < 32768)
  /\ ((isUserPresent s = true -> rangeVal s <= 1000) ->
      isUserPresent s' = true -> rangeVal s' <= 1000).
Proof.
  unfold read_console.
  destruct (button0_fallingEdge i), (button1_fallingEdge i); cbn [orb];
    (case_if; [case_if; [case_if |] |]); cbn;
    repeat split; try reflexivity; try tauto; intros;
    try discriminate; try apply int16_range;
    try (match goal with H : (_ >? _) = false |- _ => apply gtb_ge in H end;
         cbn in *; assumption).
Qed.

Lemma do_colour_variation_pass (s : State) :
  let s' := do_colour_variation s in
  isButton0Pressed s' = isButton0Pressed s
  /\ isButton1Pressed s' = isButton1Pressed s
  /\ rangeVal s' = rangeVal s /\ isUserPresent s' = isUserPresent s
  /\ loxmsec s' = loxmsec s
  /\ (mode_ok (strip1 s) -> mode_ok (strip1 s'))
  /\ (mode_ok (strip2 s) -> mode_ok (strip2 s'))
  /\ playMode (strip1 s') = playMode (strip1 s)
  /\ playMode (strip2 s') = playMode (strip2 s)
  /\ (colours_ok s -> colours_ok s').
Proof.
  unfold do_colour_variation, colours_ok, bytes, mode_ok.
  case_if; cbn; repeat split; try reflexivity; try tauto;
    try apply uint8_range; lia.
Qed.

Lemma set_playMode_pass (s : State) :
  let s' := set_playMode s in
  isButton0Pressed s' = false /\ isButton1Pressed s' = false
  /\ rangeVal s' = rangeVal s /\ isUserPresent s' = isUserPresent s
  /\ loxmsec s' = loxmsec s
  /\ Color (strip1 s') = Color (strip1 s)
  /\ Color (strip2 s') = Color (strip2 s)
  /\ (mode_ok (strip1 s) -> mode_ok (strip1 s'))
  /\ (mode_ok (strip2 s) -> mode_ok (strip2 s'))
  /\ (isButton0Pressed s = false -> strip1 s' = strip1 s)
  /\ (isButton1Pressed s = false -> strip2 s' = strip2 s).
Proof.
  unfold set_playMode, mode_ok.
  destruct (isButton0Pressed s) eqn:E0; cbn;
    destruct (isButton1Pressed s) eqn:E1; cbn;
    repeat split; try reflexivity; try tauto; intros; try discriminate;
    right; repeat split; auto.
Qed.

Lemma setup_pass_ok (t0 : Z) : pass_ok (setup B t0).
Proof.
  unfold setup, pass_ok, console_ok, colours_ok, bytes, mode_ok.
  destruct (sculpture B); cbn; repeat split; intros; try lia; try discriminate;
    left; repeat split; reflexivity.
Qed.

Lemma add_glitter_frame (seed : Z) (s : State) :
  let s' := add_glitter B seed s in
  isButton0Pressed s' = isButton0Pressed s
  /\ isButton1Pressed s' = isButton1Pressed s
  /\ rangeVal s' = rangeVal s /\ isUserPresent s' = isUserPresent s
  /\ loxmsec s' = loxmsec s
  /\ strip1 s' = strip1 s /\ strip2 s' = strip2 s
  /\ readings1 s' = readings1 s /\ readings2 s' = readings2 s.
Proof.
  unfold add_glitter.
  destruct (glitter_overlay B seed _) as [[[l0 l1] l2] l3]. cbn.
  repeat split; reflexivity.
Qed.

(** The state that the two strips are dispatched on, and the two dispatches,
    as [loop] has them. *)
Lemma loop_stages (i : Input) (s s' : State) :
  loop B i s = Some s' ->
  let s0 := set_playMode (do_colour_variation (read_console i s)) in
  exists s1 s2,
    (if playMode (strip1 s0) =? IDLE_MODE then Some (strip1_idle_animation B s0)
     else if playMode (strip1 s0) =? BUTTON_MODE
          then strip1_playback_readings B s0 else Some s0) = Some s1
    /\ (if playMode (strip2 s1) =? IDLE_MODE then Some (strip2_idle_animation B s1)
        else if playMode (strip2 s1) =? BUTTON_MODE
             then strip2_playback_readings B s1 else Some s1) = Some s2
    /\ s' = FastLED_delay (elapsed i) (add_glitter B (glitter_seed i) s2).
Proof.
  unfold loop. cbv zeta.
  set (s0 := set_playMode (do_colour_variation (read_console i s))).
  destruct (if playMode (strip1 s0) =? IDLE_MODE then _ else _) as [s1 |] eqn:E1;
    [| discriminate].
  destruct (if playMode (strip2 s1) =? IDLE_MODE then _ else _) as [s2 |] eqn:E2;
    [| discriminate].
  intros E. injection E as <-. exists s1, s2. repeat split; assumption.
Qed.

Lemma strip1_dispatch (s0 s1 : State) :
  (if playMode (strip1 s0) =? IDLE_MODE then Some (strip1_idle_animation B s0)
   else if playMode (strip1 s0) =? BUTTON_MODE
        then strip1_playback_readings B s0 else Some s0) = Some s1 ->
  isButton0Pressed s1 = isButton0Pressed s0
  /\ isButton1Pressed s1 = isButton1Pressed s0
  /\ rangeVal s1 = rangeVal s0 /\ isUserPresent s1 = isUserPresent s0
  /\ loxmsec s1 = loxmsec s0
  /\ strip2 s1 = strip2 s0
  /\ hue (Color (strip1 s1)) = hue (Color (strip1 s0))
  /\ sat (Color (strip1 s1)) = sat (Color (strip1 s0))
  /\ (0 <= val (Color (strip1 s0)) < 256 -> 0 <= val (Color (strip1 s1)) < 256)
  /\ (mode_ok (strip1 s0) -> mode_ok (strip1 s1)).
Proof.
  destruct (Z.eqb_spec (playMode (strip1 s0)) IDLE_MODE) as [Hi | Hi].
  - intros E. injection E as <-.
    destruct (strip1_idle_animation_frame s0)
      as (F0 & F1 & Fr & Fl & Fp & F2 & Fm & Fa & Fd & _ & Fh & Fs & Fv & _).
    repeat split; try assumption.
    + rewrite Fv. apply uint8_range.
    + rewrite Fv. apply uint8_range.
    + unfold mode_ok. rewrite Fm, Fa, Fd. tauto.
  - destruct (Z.eqb_spec (playMode (strip1 s0)) BUTTON_MODE) as [Hb | Hb].
    + intros E.
      destruct (strip1_playback_readings_frame s0 s1 E)
        as (F2 & _ & _ & _ & _ & _ & _ & F0 & F1 & Fr & Fl & Fp & Fh & Fs).
      repeat split; try assumption.
      * apply (strip1_playback_readings_val s0 s1 E). assumption.
      * apply (strip1_playback_readings_val s0 s1 E). assumption.
      * now apply strip1_playback_readings_mode.
    + intros E. injection E as <-. repeat split; tauto.
Qed.

Lemma strip2_dispatch (s0 s1 : State) :
  (if playMode (strip2 s0) =? IDLE_MODE then Some (strip2_idle_animation B s0)
   else if playMode (strip2 s0) =? BUTTON_MODE
        then strip2_playback_readings B s0 else Some s0) = Some s1 ->
  isButton0Pressed s1 = isButton0Pressed s0
  /\ isButton1Pressed s1 = isButton1Pressed s0
  /\ rangeVal s1 = rangeVal s0 /\ isUserPresent s1 = isUserPresent s0
  /\ loxmsec s1 = loxmsec s0
  /\ strip1 s1 = strip1 s0
  /\ hue (Color (strip2 s1)) = hue (Color (strip2 s0))
  /\ sat (Color (strip2 s1)) = sat (Color (strip2 s0))
  /\ (0 <= val (Color (strip2 s0)) < 256 -> 0 <= val (Color (strip2 s1)) < 256)
  /\ (mode_ok (strip2 s0) -> mode_ok (strip2 s1)).
Proof.
  destruct (Z.eqb_spec (playMode (strip2 s0)) IDLE_MODE) as [Hi | Hi].
  - intros E. injection E as <-.
    destruct (strip2_idle_animation_frame s0)
      as (F0 & F1 & Fr & Fl & Fp & F2 & Fm & Fa & Fd & _ & Fh & Fs & Fv & _).
    repeat split; try assumption.
    + rewrite Fv. apply uint8_range.
    + rewrite Fv. apply uint8_range.
    + unfold mode_ok. rewrite Fm, Fa, Fd. tauto.
  - destruct (Z.eqb_spec (playMode (strip2 s0)) BUTTON_MODE) as [Hb | Hb].
    + intros E.
      destruct (strip2_playback_readings_frame s0 s1 E)
        as (F2 & _ & _ & _ & _ & _ & _ & F0 & F1 & Fr & Fl & Fp & Fh & Fs).
      repeat split; try assumption.
      * apply (strip2_playback_readings_val s0 s1 E). assumption.
      * apply (strip2_playback_readings_val s0 s1 E). assumption.
      * now apply strip2_playback_readings_mode.
    + intros E. injection E as <-. repeat split; tauto.
Qed.

Lemma loop_pass_ok (i : Input) (s s' : State) :
  pass_ok s -> loop B i s = Some s' -> pass_ok s'.
Proof.
  intros ((Hb0 & Hb1 & Hr & Hp) & Hc & Hm1 & Hm2) E.
  destruct (loop_stages i s s' E) as (s1 & s2 & D1 & D2 & ->).
  destruct (read_console_pass i s) as (_ & _ & R1 & R2 & Rr & Rp).
  specialize (Rr Hr). specialize (Rp Hp).
  set (sa := read_console i s) in *.
  assert (Hca : colours_ok sa)
    by (unfold colours_ok in *; rewrite R1, R2; exact Hc).
  assert (Hma1 : mode_ok (strip1 sa)) by (rewrite R1; exact Hm1).
  assert (Hma2 : mode_ok (strip2 sa)) by (rewrite R2; exact Hm2).
  destruct (do_colour_variation_pass sa)
    as (_ & _ & Cr & Cp & _ & Cm1 & Cm2 & _ & _ & Cc).
  specialize (Cc Hca). specialize (Cm1 Hma1). specialize (Cm2 Hma2).
  set (sb := do_colour_variation sa) in *.
  destruct (set_playMode_pass sb)
    as (P0 & P1 & Pr & Pp & _ & Pc1 & Pc2 & Pm1 & Pm2 & _).
  specialize (Pm1 Cm1). specialize (Pm2 Cm2).
  set (s0 := set_playMode sb) in *.
  destruct (strip1_dispatch s0 s1 D1)
    as (A0 & A1 & Ar & Ap & _ & A2 & Ah & As & Av & Am).
  destruct (strip2_dispatch s1 s2 D2)
    as (B0 & B1 & Br & Bp & _ & B2 & Bh & Bs & Bv & Bm).
  destruct (add_glitter_frame (glitter_seed i) s2)
    as (G0 & G1 & Gr & Gp & _ & G2 & G3 & _).
  destruct Cc as ((Hh1 & Hs1 & Hv1) & (Hh2 & Hs2 & Hv2) & S1 & S2 & Heq).
  unfold pass_ok, console_ok, colours_ok, bytes, FastLED_delay.
  cbn. rewrite G0, G1, Gr, Gp, G2, G3.
  rewrite B0, B1, Br, Bp, B2, Bh, Bs.
  rewrite A0, A1, Ar, Ap, Ah, As.
  rewrite P0, P1, Pr, Pp.
  assert (M1 : mode_ok (strip1 s1)) by auto.
  assert (M2 : mode_ok (strip2 s2)) by (apply Bm; rewrite A2; exact Pm2).
  assert (V1 : 0 <= val (Color (strip1 s1)) < 256)
    by (apply Av; rewrite Pc1; exact Hv1).
  assert (V2 : 0 <= val (Color (strip2 s2)) < 256)
    by (apply Bv; rewrite A2, Pc2; exact Hv2).
  rewrite A2. rewrite Pc1, Pc2.
  rewrite Cr, Cp.
  repeat split; try assumption; try tauto; lia.
Qed.

Lemma reachable_pass_ok (s : State) : reachable B s -> pass_ok s.
Proof.
  induction 1 as [t0 | s i s' _ IH E].
  - apply setup_pass_ok.
  - exact (loop_pass_ok i s s' IH E).
Qed.

(** X3: at the start of every pass of [loop] no button press is pending
    (a press that [read_console] latches is consumed by [set_playMode] in the
    same pass), the stored distance is an [int], and a user who is present is
    at most 1000 mm away. *)
Theorem console_settled_between_passes (s : State) :
  reachable B s ->
  isButton0Pressed s = false
  /\ isButton1Pressed s = false
  /\ -32768 <= rangeVal s < 32768
  /\ (isUserPresent s = true -> rangeVal s <= 1000).
Proof. intros Hr. exact (proj1 (reachable_pass_ok s Hr)). Qed.

(** X4: in every state the sketch reaches, the hue, saturation and value of
    both colour records are bytes, both records are fully saturated, and the
    two strips have the same hue. *)
Theorem colour_records_are_bytes (s : State) :
  reachable B s ->
  (0 <= hue (Color (strip1 s)) < 256
   /\ 0 <= sat (Color (strip1 s)) < 256
   /\ 0 <= val (Color (strip1 s)) < 256)
  /\ (0 <= hue (Color (strip2 s)) < 256
      /\ 0 <= sat (Color (strip2 s)) < 256
      /\ 0 <= val (Color (strip2 s)) < 256)
  /\ sat (Color (strip1 s)) = 255 /\ sat (Color (strip2 s)) = 255
  /\ hue (Color (strip1 s)) = hue (Color (strip2 s)).
Proof. intros Hr. exact (proj1 (proj2 (reachable_pass_ok s Hr))). Qed.

(** X5: in every state the sketch reaches, each strip is either idle, in
    phase 0 and with the base fade delay (500), or in button mode, in phase
    0, 1 or 2 and with a quarter of the base fade delay (125). *)
Theorem play_mode_and_phase_agree (s : State) :
  reachable B s ->
  (playMode (strip1 s) = IDLE_MODE /\ activeLedState (strip1 s) = 0
   /\ bandDelay (strip1 s) = 500
   \/ playMode (strip1 s) = BUTTON_MODE
      /\ (activeLedState (strip1 s) = 0 \/ activeLedState (strip1 s) = 1
          \/ activeLedState (strip1 s) = 2)
      /\ bandDelay (strip1 s) = 125)
  /\
  (playMode (strip2 s) = IDLE_MODE /\ activeLedState (strip2 s) = 0
   /\ bandDelay (strip2 s) = 500
   \/ playMode (strip2 s) = BUTTON_MODE
      /\ (activeLedState (strip2 s) = 0 \/ activeLedState (strip2 s) = 1
          \/ activeLedState (strip2 s) = 2)
      /\ bandDelay (strip2 s) = 125).
Proof.
  intros Hr. destruct (reachable_pass_ok s Hr) as (_ & _ & M1 & M2).
  split; [exact M1 | exact M2].
Qed.

(** ** The hue follows the sensor *)

Lemma loop_hue (i : Input) (s s' : State) :
  loop B i s = Some s' ->
  hue (Color (strip1 s'))
  = (if isUserPresent s' then uint8 (Arduino.map (rangeVal s') 0 500 76 204)
     else 140)
  /\ hue (Color (strip2 s')) = hue (Color (strip1 s')).
Proof.
  intros E.
  destruct (loop_stages i s s' E) as (s1 & s2 & D1 & D2 & ->).
  set (sa := read_console i s) in *.
  destruct (do_colour_variation_pass sa) as (_ & _ & Cr & Cp & _).
  assert (Hc : hue (Color (strip1 (do_colour_variation sa)))
               = (if isUserPresent sa
                  then uint8 (Arduino.map (rangeVal sa) 0 500 76 204) else 140)
               /\ hue (Color (strip2 (do_colour_variation sa)))
                  = hue (Color (strip1 (do_colour_variation sa)))).
  { unfold do_colour_variation. destruct (isUserPresent sa); cbn;
      split; reflexivity. }
  set (sb := do_colour_variation sa) in *.
  destruct (set_playMode_pass sb) as (_ & _ & Pr & Pp & _ & Pc1 & Pc2 & _).
  set (s0 := set_playMode sb) in *.
  destruct (strip1_dispatch s0 s1 D1) as (_ & _ & Ar & Ap & _ & A2 & Ah & _).
  destruct (strip2_dispatch s1 s2 D2) as (_ & _ & Br & Bp & _ & B2 & Bh & _).
  destruct (add_glitter_frame (glitter_seed i) s2)
    as (_ & _ & Gr & Gp & _ & G2 & G3 & _).
  unfold FastLED_delay. cbn.
  rewrite G2, G3, Gr, Gp, B2, Bh, Br, Bp, Ah, A2, Ar, Ap, Pc1, Pc2, Pr, Pp.
  rewrite <- Cr, <- Cp in Hc. exact Hc.
Qed.

(** X6: in every state the sketch reaches, the hue of both strips is the one
    that the last stored sensor state gives: the integer linear map of the
    stored distance, modulo 256, when the user is present, and 140 when not.
    The hue is never left behind by a change of the presence or of the
    distance. *)
Theorem hue_follows_the_sensor (s : State) :
  reachable B s ->
  hue (Color (strip1 s))
  = (if isUserPresent s then ((rangeVal s * 128) ÷ 500 + 76) mod 256 else 140)
  /\ hue (Color (strip2 s)) = hue (Color (strip1 s)).
Proof.
  intros Hr.
  destruct (proj1 (reachable_pass_ok s Hr)) as (_ & _ & Hrange & _).
  assert (Hm : uint8 (Arduino.map (rangeVal s) 0 500 76 204)
               = ((rangeVal s * 128) ÷ 500 + 76) mod 256).
  { rewrite map_of_ints by lia. rewrite Z.sub_0_r. reflexivity. }
  rewrite <- Hm. clear Hm Hrange.
  destruct Hr as [t0 | s0 i s' _ E].
  - unfold setup. destruct (sculpture B); cbn; split; reflexivity.
  - exact (loop_hue i s0 s' E).
Qed.

(** ** The sensor is polled at most every 100 ms *)

(** X7: a pass of [loop] that starts with at most 100 ms on the sensor timer
    does not poll: it keeps the stored distance and the presence, whatever
    the sensor would report, and lets the timer run on; a pass that starts
    with more than 100 ms polls and restarts the timer, so that the next
    pass starts with only the time its own pass has taken. *)
Theorem sensor_polled_every_100_ms (i : Input) (s s' : State) :
  loop B i s = Some s' ->
  (loxmsec s <= 100 ->
   rangeVal s' = rangeVal s
   /\ isUserPresent s' = isUserPresent s
   /\ loxmsec s' = uint32 (loxmsec s + elapsed i))
  /\
  (100 < loxmsec s -> loxmsec s' = uint32 (0 + elapsed i)).
Proof.
  intros E.
  destruct (loop_stages i s s' E) as (s1 & s2 & D1 & D2 & ->).
  set (sa := read_console i s) in *.
  destruct (do_colour_variation_pass sa) as (_ & _ & Cr & Cp & Cl & _).
  set (sb := do_colour_variation sa) in *.
  destruct (set_playMode_pass sb) as (_ & _ & Pr & Pp & Pl & _).
  set (s0 := set_playMode sb) in *.
  destruct (strip1_dispatch s0 s1 D1) as (_ & _ & Ar & Ap & Al & _).
  destruct (strip2_dispatch s1 s2 D2) as (_ & _ & Br & Bp & Bl & _).
  destruct (add_glitter_frame (glitter_seed i) s2)
    as (_ & _ & Gr & Gp & Gl & _).
  unfold FastLED_delay. cbn.
  rewrite Gr, Gp, Gl, Br, Bp, Bl, Ar, Ap, Al, Pr, Pp, Pl, Cr, Cp, Cl.
  subst sa. unfold read_console.
  set (sx := if button1_fallingEdge i then _ else _).
  assert (Hx : loxmsec sx = loxmsec s /\ rangeVal sx = rangeVal s
               /\ isUserPresent sx = isUserPresent s).
  { subst sx. destruct (button0_fallingEdge i), (button1_fallingEdge i);
      repeat split; reflexivity. }
  destruct Hx as (Hl & Hr & Hp).
  destruct (loxmsec sx >? 100) eqn:G; [apply gtb_lt in G | apply gtb_ge in G].
  - split; [intros; lia |]. intros _.
    repeat case_if; reflexivity.
  - split; [| intros; lia]. intros _. rewrite Hl, Hr, Hp.
    repeat split; reflexivity.
Qed.

(** ** Buttons and modes over a pass *)

Lemma do_colour_variation_strips (s : State) :
  let s' := do_colour_variation s in
  with_Color (Color (strip1 s)) (strip1 s') = strip1 s
  /\ with_Color (Color (strip2 s)) (strip2 s') = strip2 s.
Proof.
  unfold do_colour_variation.
  case_if; cbn; destruct (strip1 s), (strip2 s); split; reflexivity.
Qed.

(** The strips that the dispatches of a pass see, for a strip whose button
    is not pressed in a state with no press pending: they are the strips the
    pass started with, up to the colour record. *)
Lemma strips_before_dispatch (i : Input) (s : State) :
  let s0 := set_playMode (do_colour_variation (read_console i s)) in
  (isButton0Pressed s = false -> button0_fallingEdge i = false ->
   with_Color (Color (strip1 s)) (strip1 s0) = strip1 s)
  /\
  (isButton1Pressed s = false -> button1_fallingEdge i = false ->
   with_Color (Color (strip2 s)) (strip2 s0) = strip2 s).
Proof.
  cbv zeta.
  destruct (read_console_pass i s) as (R0 & R1 & E1 & E2 & _).
  set (sa := read_console i s) in *.
  destruct (do_colour_variation_pass sa) as (C0 & C1 & _).
  destruct (do_colour_variation_strips sa) as (Q1 & Q2).
  set (sb := do_colour_variation sa) in *.
  destruct (set_playMode_pass sb) as (_ & _ & _ & _ & _ & _ & _ & _ & _ & P1 & P2).
  split; intros Hf He.
  - rewrite P1 by (rewrite C0, R0, He, Hf; reflexivity).
    rewrite <- E1 at 1. rewrite Q1. exact E1.
  - rewrite P2 by (rewrite C1, R1, He, Hf; reflexivity).
    rewrite <- E2 at 1. rewrite Q2. exact E2.
Qed.

(** The fields of strip 1 at the end of a pass are those after its own
    dispatch, but for the timer. *)
Lemma strip1_after_dispatch (i : Input) (s1 s2 : State) :
  (if playMode (strip2 s1) =? IDLE_MODE then Some (strip2_idle_animation B s1)
   else if playMode (strip2 s1) =? BUTTON_MODE
        then strip2_playback_readings B s1 else Some s1) = Some s2 ->
  with_bandms (bandms (strip1 s1))
    (strip1 (FastLED_delay (elapsed i) (add_glitter B (glitter_seed i) s2)))
  = strip1 s1.
Proof.
  intros D2.
  destruct (strip2_dispatch s1 s2 D2) as (_ & _ & _ & _ & _ & B2 & _).
  destruct (add_glitter_frame (glitter_seed i) s2)
    as (_ & _ & _ & _ & _ & G1 & _).
  unfold FastLED_delay. cbn. rewrite G1, B2. destruct (strip1 s1); reflexivity.
Qed.

Lemma strip2_after_dispatch (i : Input) (s2 : State) :
  with_bandms (bandms (strip2 s2))
    (strip2 (FastLED_delay (elapsed i) (add_glitter B (glitter_seed i) s2)))
  = strip2 s2.
Proof.
  destruct (add_glitter_frame (glitter_seed i) s2)
    as (_ & _ & _ & _ & _ & _ & G2 & _).
  unfold FastLED_delay. cbn. rewrite G2. destruct (strip2 s2); reflexivity.
Qed.

(** X8: a press starts the playback in the pass that sees it, and nothing
    else does.  In every state the sketch reaches: if the button of a strip
    has a falling edge in a pass, the strip ends the pass in button mode, in
    phase 0, or in phase 1 with the cursor at the first reading, whatever it
    was doing before; if it has none and the strip is idle, the strip is
    still idle after the pass and its brightness and direction flag have
    made one step of the idle ramp. *)
Theorem press_starts_playback (i : Input) (s s' : State) :
  reachable B s ->
  loop B i s = Some s' ->
  (button0_fallingEdge i = true ->
   playMode (strip1 s') = BUTTON_MODE
   /\ (activeLedState (strip1 s') = 0
       \/ activeLedState (strip1 s') = 1 /\ readingsCounter (strip1 s') = 0))
  /\
  (button0_fallingEdge i = false -> playMode (strip1 s) = IDLE_MODE ->
   playMode (strip1 s') = IDLE_MODE
   /\ (brightness (strip1 s'), isMaxBrightness (strip1 s'))
      = pingpong 255 (brightness (strip1 s), isMaxBrightness (strip1 s)))
  /\
  (button1_fallingEdge i = true ->
   playMode (strip2 s') = BUTTON_MODE
   /\ (activeLedState (strip2 s') = 0
       \/ activeLedState (strip2 s') = 1 /\ readingsCounter (strip2 s') = 0))
  /\
  (button1_fallingEdge i = false -> playMode (strip2 s) = IDLE_MODE ->
   playMode (strip2 s') = IDLE_MODE
   /\ (brightness (strip2 s'), isMaxBrightness (strip2 s'))
      = pingpong 255 (brightness (strip2 s), isMaxBrightness (strip2 s))).
Proof.
  intros Hr E.
  destruct (proj1 (reachable_pass_ok s Hr)) as (Hf0 & Hf1 & _).
  destruct (reachable_ok B s Hr) as (_ & _ & (_ & M1 & _) & (_ & M2 & _)).
  destruct (loop_stages i s s' E) as (s1 & s2 & D1 & D2 & ->).
  pose proof (strip1_after_dispatch i s1 s2 D2) as T1.
  pose proof (strip2_after_dispatch i s2) as T2.
  destruct (strip2_dispatch s1 s2 D2) as (_ & _ & _ & _ & _ & K1 & _).
  destruct (strips_before_dispatch i s) as (U1 & U2).
  destruct (read_console_pass i s) as (R0 & R1 & _).
  destruct (do_colour_variation_pass (read_console i s)) as (C0 & C1 & _).
  set (sb := do_colour_variation (read_console i s)) in *.
  set (s0 := set_playMode sb) in *.
  set (sz := FastLED_delay (elapsed i) (add_glitter B (glitter_seed i) s2)) in *.
  assert (Z1 : playMode (strip1 sz) = playMode (strip1 s1)
               /\ activeLedState (strip1 sz) = activeLedState (strip1 s1)
               /\ readingsCounter (strip1 sz) = readingsCounter (strip1 s1)
               /\ brightness (strip1 sz) = brightness (strip1 s1)
               /\ isMaxBrightness (strip1 sz) = isMaxBrightness (strip1 s1))
    by (rewrite <- T1; repeat split; reflexivity).
  assert (Z2 : playMode (strip2 sz) = playMode (strip2 s2)
               /\ activeLedState (strip2 sz) = activeLedState (strip2 s2)
               /\ readingsCounter (strip2 sz) = readingsCounter (strip2 s2)
               /\ brightness (strip2 sz) = brightness (strip2 s2)
               /\ isMaxBrightness (strip2 sz) = isMaxBrightness (strip2 s2))
    by (rewrite <- T2; repeat split; reflexivity).
  destruct Z1 as (Zm1 & Za1 & Zc1 & Zb1 & Zf1).
  destruct Z2 as (Zm2 & Za2 & Zc2 & Zb2 & Zf2).
  rewrite Zm1, Za1, Zc1, Zb1, Zf1, Zm2, Za2, Zc2, Zb2, Zf2.
  clear T1 T2 Zm1 Za1 Zc1 Zb1 Zf1 Zm2 Za2 Zc2 Zb2 Zf2.
  split; [| split; [| split]].
  - intros He.
    destruct (set_playMode_button0 sb) as [Es _];
      [rewrite C0, R0, He; reflexivity |].
    fold s0 in Es.
    assert (Hm : playMode (strip1 s0) = BUTTON_MODE) by (rewrite Es; reflexivity).
    assert (Ha : activeLedState (strip1 s0) = 0) by (rewrite Es; reflexivity).
    rewrite Hm in D1. cbn in D1.
    destruct (strip1_playback_phases s0 s1 D1) as (P0 & _).
    destruct (P0 Ha) as (Em & _ & [(_ & Ea) | (_ & Ea & Ec & _)]).
    + split; [congruence | left; exact Ea].
    + split; [congruence | right; split; assumption].
  - intros He Hi. specialize (U1 Hf0 He).
    assert (Hm : playMode (strip1 s0) = playMode (strip1 s))
      by (rewrite <- U1; reflexivity).
    assert (Hb : brightness (strip1 s0) = brightness (strip1 s))
      by (rewrite <- U1; reflexivity).
    assert (Hf : isMaxBrightness (strip1 s0) = isMaxBrightness (strip1 s))
      by (rewrite <- U1; reflexivity).
    assert (Hx : maxBrightLvl (strip1 s0) = maxBrightLvl (strip1 s))
      by (rewrite <- U1; reflexivity).
    rewrite Hi in Hm. rewrite Hm in D1. cbn in D1. injection D1 as <-.
    destruct (strip1_idle_pingpong B s0) as (Ep & _).
    destruct (strip1_idle_animation_frame s0) as (_ & _ & _ & _ & _ & _ & Fm & _).
    rewrite Fm, Ep, Hb, Hf, Hx, M1. split; [exact Hm | reflexivity].
  - intros He.
    destruct (set_playMode_button1 sb) as [Es _];
      [rewrite C1, R1, He; reflexivity |].
    fold s0 in Es.
    destruct (strip1_dispatch s0 s1 D1) as (_ & _ & _ & _ & _ & K2 & _).
    assert (Hm : playMode (strip2 s1) = BUTTON_MODE)
      by (rewrite K2, Es; reflexivity).
    assert (Ha : activeLedState (strip2 s1) = 0)
      by (rewrite K2, Es; reflexivity).
    rewrite Hm in D2. cbn in D2.
    destruct (strip2_playback_phases s1 s2 D2) as (P0 & _).
    destruct (P0 Ha) as (Em & _ & [(_ & Ea) | (_ & Ea & Ec & _)]).
    + split; [congruence | left; exact Ea].
    + split; [congruence | right; split; assumption].
  - intros He Hi. specialize (U2 Hf1 He).
    destruct (strip1_dispatch s0 s1 D1) as (_ & _ & _ & _ & _ & K2 & _).
    assert (Hm : playMode (strip2 s1) = playMode (strip2 s))
      by (rewrite K2, <- U2; reflexivity).
    assert (Hb : brightness (strip2 s1) = brightness (strip2 s))
      by (rewrite K2, <- U2; reflexivity).
    assert (Hf : isMaxBrightness (strip2 s1) = isMaxBrightness (strip2 s))
      by (rewrite K2, <- U2; reflexivity).
    assert (Hx : maxBrightLvl (strip2 s1) = maxBrightLvl (strip2 s))
      by (rewrite K2, <- U2; reflexivity).
    rewrite Hi in Hm. rewrite Hm in D2. cbn in D2. injection D2 as <-.
    destruct (strip2_idle_pingpong B s1) as (Ep & _).
    destruct (strip2_idle_animation_frame s1) as (_ & _ & _ & _ & _ & _ & Fm & _).
    rewrite Fm, Ep, Hb, Hf, Hx, M2. split; [exact Hm | reflexivity].
Qed.

(** ** The idle ramp, step by step *)

(** X9: in every state the sketch reaches, one call of the idle animation of
    a strip moves its brightness by exactly one: up when the direction flag
    is false, down when it is true; the brightness stays within 0 and 255,
    the direction flag is true afterwards exactly when the brightness has
    reached 255 or was going down and has not reached 0, and the value of
    the colour record is the new brightness. *)
Theorem idle_moves_by_one (s : State) :
  reachable B s ->
  (let s' := strip1_idle_animation B s in
   brightness (strip1 s')
   = (if isMaxBrightness (strip1 s) then brightness (strip1 s) - 1
      else brightness (strip1 s) + 1)
   /\ 0 <= brightness (strip1 s') <= 255
   /\ isMaxBrightness (strip1 s')
      = ((brightness (strip1 s') =? 255)
         || (isMaxBrightness (strip1 s) && negb (brightness (strip1 s') =? 0)))
   /\ val (Color (strip1 s')) = brightness (strip1 s'))
  /\
  (let s' := strip2_idle_animation B s in
   brightness (strip2 s')
   = (if isMaxBrightness (strip2 s) then brightness (strip2 s) - 1
      else brightness (strip2 s) + 1)
   /\ 0 <= brightness (strip2 s') <= 255
   /\ isMaxBrightness (strip2 s')
      = ((brightness (strip2 s') =? 255)
         || (isMaxBrightness (strip2 s) && negb (brightness (strip2 s') =? 0)))
   /\ val (Color (strip2 s')) = brightness (strip2 s')).
Proof.
  intros Hr.
  destruct (reachable_ok B s Hr)
    as (_ & _ & (_ & M1 & Hb1 & Hu1 & Hd1) & (_ & M2 & Hb2 & Hu2 & Hd2)).
  split; cbv zeta.
  - destruct (strip1_idle_pingpong B s) as (Ep & _).
    destruct (strip1_idle_animation_frame s)
      as (_ & _ & _ & _ & _ & _ & _ & _ & _ & _ & _ & _ & Fv & _).
    rewrite Fv. rewrite M1 in Ep.
    destruct (isMaxBrightness (strip1 s)) eqn:F.
    + specialize (Hd1 eq_refl).
      destruct (Z.eq_dec (brightness (strip1 s)) 1) as [E1 | E1].
      * rewrite E1 in *. rewrite pingpong_bottom in Ep by lia.
        injection Ep as -> ->. cbn. repeat split; reflexivity || lia.
      * rewrite pingpong_down in Ep by lia. injection Ep as -> ->.
        rewrite uint8_small by lia.
        destruct (Z.eqb_spec (brightness (strip1 s) - 1) 255); [lia |].
        destruct (Z.eqb_spec (brightness (strip1 s) - 1) 0); [lia |].
        repeat split; reflexivity || lia.
    + specialize (Hu1 eq_refl).
      destruct (Z.eq_dec (brightness (strip1 s) + 1) 255) as [E1 | E1].
      * replace (brightness (strip1 s)) with (255 - 1) in Ep by lia.
        rewrite pingpong_top in Ep by lia. injection Ep as Eb ->.
        rewrite Eb, E1. cbn. repeat split; reflexivity || lia.
      * rewrite pingpong_up in Ep by lia. injection Ep as -> ->.
        rewrite uint8_small by lia.
        destruct (Z.eqb_spec (brightness (strip1 s) + 1) 255); [lia |].
        repeat split; reflexivity || lia.
  - destruct (strip2_idle_pingpong B s) as (Ep & _).
    destruct (strip2_idle_animation_frame s)
      as (_ & _ & _ & _ & _ & _ & _ & _ & _ & _ & _ & _ & Fv & _).
    rewrite Fv. rewrite M2 in Ep.
    destruct (isMaxBrightness (strip2 s)) eqn:F.
    + specialize (Hd2 eq_refl).
      destruct (Z.eq_dec (brightness (strip2 s)) 1) as [E1 | E1].
      * rewrite E1 in *. rewrite pingpong_bottom in Ep by lia.
        injection Ep as -> ->. cbn. repeat split; reflexivity || lia.
      * rewrite pingpong_down in Ep by lia. injection Ep as -> ->.
        rewrite uint8_small by lia.
        destruct (Z.eqb_spec (brightness (strip2 s) - 1) 255); [lia |].
        destruct (Z.eqb_spec (brightness (strip2 s) - 1) 0); [lia |].
        repeat split; reflexivity || lia.
    + specialize (Hu2 eq_refl).
      destruct (Z.eq_dec (brightness (strip2 s) + 1) 255) as [E1 | E1].
      * replace (brightness (strip2 s)) with (255 - 1) in Ep by lia.
        rewrite pingpong_top in Ep by lia. injection Ep as Eb ->.
        rewrite Eb, E1. cbn. repeat split; reflexivity || lia.
      * rewrite pingpong_up in Ep by lia. injection Ep as -> ->.
        rewrite uint8_small by lia.
        destruct (Z.eqb_spec (brightness (strip2 s) + 1) 255); [lia |].
        repeat split; reflexivity || lia.
Qed.

(** ** What the pixels show *)

Lemma for_pixels_nth_error_ge (n : nat) (f : CRGB -> CRGB) (l : list CRGB) (i : nat) :
  (n <= i)%nat -> nth_error (for_pixels n f l) i = nth_error l i.
Proof.
  revert l i. induction n as [| n IH]; intros l i Hi; [reflexivity |].
  destruct l as [| p l]; [reflexivity |].
  destruct i as [| i]; [lia |]. cbn. apply IH. lia.
Qed.

Lemma for_pixels_painted (n : nat) (c : CRGB) (l : list CRGB) :
  painted n c l (for_pixels n (fun _ => c) l).
Proof.
  split; [apply for_pixels_length |]. split.
  - intros i Hi Hl. rewrite for_pixels_nth_error by assumption.
    destruct (nth_error l i) eqn:E; [reflexivity |].
    apply nth_error_None in E. lia.
  - intros i Hi. now apply for_pixels_nth_error_ge.
Qed.

Lemma strip1_idle_animation_leds (s : State) :
  let s' := strip1_idle_animation B s in
  let c := hsv2rgb B (Color (strip1 s')) in
  (SCULPTURE_ID (sculpture B) = 1 ->
   leds0 s' = for_pixels (BAND1_1 B) (fun _ => c) (leds0 s)
   /\ leds1 s' = for_pixels (BAND1_2 B) (fun _ => c) (leds1 s)
   /\ leds2 s' = for_pixels (BAND1_3 B) (fun _ => c) (leds2 s))
  /\
  (SCULPTURE_ID (sculpture B) <> 1 ->
   leds0 s' = for_pixels (BAND1 B) (fun _ => c) (leds0 s)
   /\ leds1 s' = leds1 s /\ leds2 s' = leds2 s).
Proof.
  unfold strip1_idle_animation.
  generalize (strip1_get_brightness s (brightness (strip1 s))) as bl.
  intros bl. cbv zeta.
  destruct (Z.eqb_spec (SCULPTURE_ID (sculpture B)) 1) as [H1 | H1]; cbn;
    destruct (bl =? maxBrightLvl (strip1 s)); cbn;
    try (destruct (bl =? 0); cbn);
    (split; intros; [try contradiction | try contradiction]);
    repeat split; reflexivity.
Qed.

Lemma strip2_idle_animation_leds (s : State) :
  let s' := strip2_idle_animation B s in
  SCULPTURE_ID (sculpture B) <> 1 ->
  leds1 s' = for_pixels (BAND2 B) (fun _ => hsv2rgb B (Color (strip2 s'))) (leds1 s)
  /\ leds3 s' = leds3 s.
Proof.
  unfold strip2_idle_animation.
  generalize (strip2_get_brightness s (brightness (strip2 s))) as bl.
  intros bl. cbv zeta.
  destruct (Z.eqb_spec (SCULPTURE_ID (sculpture B)) 1) as [H1 | H1]; cbn;
    destruct (bl =? maxBrightLvl (strip2 s)); cbn;
    try (destruct (bl =? 0); cbn);
    intros; try contradiction; split; reflexivity.
Qed.

(** X13: a strip shows one colour.  The idle animation of strip 1 leaves the
    colour record of the strip, converted once, in every pixel below the band
    of [leds0] (and, on the CO2 sculpture, of [leds1] and [leds2] too), and
    the pixels past the band as they were; the idle animation of strip 2 does
    the same to [leds1] on the other two sculptures; and so does every frame
    of the interpolating phase, with the value it has just computed, to
    [leds0] for strip 1 and to [leds1] for strip 2. *)
Theorem strip_shows_one_colour (s : State) :
  (let s' := strip1_idle_animation B s in
   let c := hsv2rgb B (Color (strip1 s')) in
   (SCULPTURE_ID (sculpture B) = 1 ->
    painted (BAND1_1 B) c (leds0 s) (leds0 s')
    /\ painted (BAND1_2 B) c (leds1 s) (leds1 s')
    /\ painted (BAND1_3 B) c (leds2 s) (leds2 s'))
   /\ (SCULPTURE_ID (sculpture B) <> 1 ->
       painted (BAND1 B) c (leds0 s) (leds0 s')
       /\ leds1 s' = leds1 s /\ leds2 s' = leds2 s))
  /\
  (let s' := strip2_idle_animation B s in
   SCULPTURE_ID (sculpture B) <> 1 ->
   painted (BAND2 B) (hsv2rgb B (Color (strip2 s'))) (leds1 s) (leds1 s')
   /\ leds3 s' = leds3 s)
  /\
  (forall s' : State,
     activeLedState (strip1 s) = 1 ->
     bandms (strip1 s) < BAND_DELAY * 2 ->
     strip1_playback_readings B s = Some s' ->
     painted (BAND1 B) (hsv2rgb B (Color (strip1 s'))) (leds0 s) (leds0 s'))
  /\
  (forall s' : State,
     activeLedState (strip2 s) = 1 ->
     bandms (strip2 s) < BAND_DELAY * 2 ->
     strip2_playback_readings B s = Some s' ->
     painted (BAND2 B) (hsv2rgb B (Color (strip2 s'))) (leds1 s) (leds1 s')).
Proof.
  split; [| split; [| split]].
  - destruct (strip1_idle_animation_leds s) as [H1 Hn]. cbv zeta in *.
    split; intros Hid.
    + destruct (H1 Hid) as (E0 & E1 & E2). rewrite E0, E1, E2.
      repeat split; apply for_pixels_painted.
    + destruct (Hn Hid) as (E0 & E1 & E2). rewrite E0.
      split; [apply for_pixels_painted | split; assumption].
  - cbv zeta. intros Hid.
    destruct (strip2_idle_animation_leds s Hid) as (E1 & E3). rewrite E1.
    split; [apply for_pixels_painted | assumption].
  - intros s' Ha Hms E.
    destruct (read_reading (readings1 s) (readingsCounter (strip1 s)))
      as [r |] eqn:Hr.
    + destruct (strip1_interpolating_frame B s r Ha Hms Hr)
        as (s2 & E2 & _ & _ & _ & _ & _ & _ & _ & El).
      assert (s2 = s') by congruence. subst s2. rewrite El.
      apply for_pixels_painted.
    + exfalso. revert E. unfold strip1_playback_readings.
      rewrite Ha. change (1 =? 0) with false. change (1 =? 1) with true.
      cbv iota. apply Z.ltb_lt in Hms. rewrite Hms, Hr. discriminate.
  - intros s' Ha Hms E.
    destruct (read_reading (readings2 s) (readingsCounter (strip2 s)))
      as [r |] eqn:Hr.
    + destruct (strip2_interpolating_frame B s r Ha Hms Hr)
        as (s2 & E2 & _ & _ & _ & _ & _ & _ & _ & El).
      assert (s2 = s') by congruence. subst s2. rewrite El.
      apply for_pixels_painted.
    + exfalso. revert E. unfold strip2_playback_readings.
      rewrite Ha. change (1 =? 0) with false. change (1 =? 1) with true.
      cbv iota. apply Z.ltb_lt in Hms. rewrite Hms, Hr. discriminate.
Qed.

(** ** The fade delay is written and never read *)

Ltac open_state s :=
  destruct s as [b0 b1 rv lx up [pm br mx hc al im bm bd rc pv cv co]
                   [pm' br' mx' hc' al' im' bm' bd' rc' pv' cv' co']
                   r1 r2 l0 l1 l2 l3].

Ltac case_plain_if :=
  match goal with
  | |- context [if ?c then _ else _] =>
    lazymatch c with
    | context [if _ then _ else _] => fail
    | _ => destruct c eqn:?
    end
  end.

Ltac by_cases := cbn; repeat (case_plain_if; cbn).

Lemma state_ext (s t : State) :
  isButton0Pressed s = isButton0Pressed t ->
  isButton1Pressed s = isButton1Pressed t ->
  rangeVal s = rangeVal t -> loxmsec s = loxmsec t ->
  isUserPresent s = isUserPresent t ->
  strip1 s = strip1 t -> strip2 s = strip2 t ->
  readings1 s = readings1 t -> readings2 s = readings2 t ->
  leds0 s = leds0 t -> leds1 s = leds1 t ->
  leds2 s = leds2 t -> leds3 s = leds3 t ->
  s = t.
Proof. destruct s, t. cbn. intros. subst. reflexivity. Qed.

Ltac same_state :=
  try apply (f_equal (@Some State));
  first [apply state_ext; cbn; reflexivity | reflexivity].

Ltac by_cases_of_playback :=
  by_cases;
  try (match goal with
       | |- context [read_reading ?l ?c] => destruct (read_reading l c)
       end; by_cases).

Lemma idle_animations_bandDelay1 (v : Z) (s : State) :
  strip1_idle_animation B (upd_strip1 (with_bandDelay v) s)
  = upd_strip1 (with_bandDelay v) (strip1_idle_animation B s)
  /\ strip2_idle_animation B (upd_strip1 (with_bandDelay v) s)
     = upd_strip1 (with_bandDelay v) (strip2_idle_animation B s).
Proof.
  open_state s.
  unfold strip1_idle_animation, strip2_idle_animation,
    strip1_get_brightness, strip2_get_brightness.
  by_cases; split; same_state.
Qed.

Lemma strip1_playback_readings_bandDelay1 (v : Z) (s : State) :
  exists w,
    strip1_playback_readings B (upd_strip1 (with_bandDelay v) s)
    = option_map (upd_strip1 (with_bandDelay w)) (strip1_playback_readings B s).
Proof.
  open_state s.
  unfold strip1_playback_readings, strip1_has_fade, strip1_fade,
    strip1_set_brightLevel, strip1_go_idle.
  by_cases_of_playback;
    first [exists 0; reflexivity | eexists; same_state].
Qed.

Lemma strip2_playback_readings_bandDelay1 (v : Z) (s : State) :
  strip2_playback_readings B (upd_strip1 (with_bandDelay v) s)
  = option_map (upd_strip1 (with_bandDelay v)) (strip2_playback_readings B s).
Proof.
  open_state s.
  unfold strip2_playback_readings, strip2_has_fade, strip2_fade,
    strip2_set_brightLevel, strip2_go_idle.
  by_cases_of_playback; same_state.
Qed.

Lemma erase_bandDelay1 (v w : Z) (s : State) :
  upd_strip1 (with_bandDelay v) (upd_strip1 (with_bandDelay w) s)
  = upd_strip1 (with_bandDelay v) s.
Proof. open_state s. reflexivity. Qed.

Lemma console_bandDelay1 (v : Z) (i : Input) (s : State) :
  exists w,
    set_playMode (do_colour_variation (read_console i (upd_strip1 (with_bandDelay v) s)))
    = upd_strip1 (with_bandDelay w)
        (set_playMode (do_colour_variation (read_console i s))).
Proof.
  open_state s. unfold set_playMode, do_colour_variation, read_console.
  by_cases; eexists; same_state.
Qed.

Lemma end_of_pass_bandDelay1 (v : Z) (i : Input) (s : State) :
  FastLED_delay (elapsed i)
    (add_glitter B (glitter_seed i) (upd_strip1 (with_bandDelay v) s))
  = upd_strip1 (with_bandDelay v)
      (FastLED_delay (elapsed i) (add_glitter B (glitter_seed i) s)).
Proof.
  open_state s. unfold FastLED_delay, add_glitter. cbn.
  destruct (glitter_overlay B (glitter_seed i) (l0, l1, l2, l3))
    as [[[k0 k1] k2] k3]. reflexivity.
Qed.

Lemma dispatch1_bandDelay1 (v : Z) (s : State) :
  exists w,
    (if playMode (strip1 (upd_strip1 (with_bandDelay v) s)) =? IDLE_MODE
     then Some (strip1_idle_animation B (upd_strip1 (with_bandDelay v) s))
     else if playMode (strip1 (upd_strip1 (with_bandDelay v) s)) =? BUTTON_MODE
          then strip1_playback_readings B (upd_strip1 (with_bandDelay v) s)
          else Some (upd_strip1 (with_bandDelay v) s))
    = option_map (upd_strip1 (with_bandDelay w))
        (if playMode (strip1 s) =? IDLE_MODE
         then Some (strip1_idle_animation B s)
         else if playMode (strip1 s) =? BUTTON_MODE
              then strip1_playback_readings B s else Some s).
Proof.
  change (playMode (strip1 (upd_strip1 (with_bandDelay v) s)))
    with (playMode (strip1 s)).
  destruct (playMode (strip1 s) =? IDLE_MODE).
  - exists v. rewrite (proj1 (idle_animations_bandDelay1 v s)). reflexivity.
  - destruct (playMode (strip1 s) =? BUTTON_MODE).
    + apply strip1_playback_readings_bandDelay1.
    + exists v. reflexivity.
Qed.

Lemma dispatch2_bandDelay1 (v : Z) (s : State) :
  exists w,
    (if playMode (strip2 (upd_strip1 (with_bandDelay v) s)) =? IDLE_MODE
     then Some (strip2_idle_animation B (upd_strip1 (with_bandDelay v) s))
     else if playMode (strip2 (upd_strip1 (with_bandDelay v) s)) =? BUTTON_MODE
          then strip2_playback_readings B (upd_strip1 (with_bandDelay v) s)
          else Some (upd_strip1 (with_bandDelay v) s))
    = option_map (upd_strip1 (with_bandDelay w))
        (if playMode (strip2 s) =? IDLE_MODE
         then Some (strip2_idle_animation B s)
         else if playMode (strip2 s) =? BUTTON_MODE
              then strip2_playback_readings B s else Some s).
Proof.
  change (playMode (strip2 (upd_strip1 (with_bandDelay v) s)))
    with (playMode (strip2 s)).
  destruct (playMode (strip2 s) =? IDLE_MODE).
  - exists v. rewrite (proj2 (idle_animations_bandDelay1 v s)). reflexivity.
  - destruct (playMode (strip2 s) =? BUTTON_MODE).
    + exists v. apply strip2_playback_readings_bandDelay1.
    + exists v. reflexivity.
Qed.

Lemma loop_bandDelay1 (v : Z) (i : Input) (s : State) :
  exists w,
    loop B i (upd_strip1 (with_bandDelay v) s)
    = option_map (upd_strip1 (with_bandDelay w)) (loop B i s).
Proof.
  unfold loop. cbv zeta.
  destruct (console_bandDelay1 v i s) as [w0 ->].
  set (s0 := set_playMode (do_colour_variation (read_console i s))).
  destruct (dispatch1_bandDelay1 w0 s0) as [w1 ->].
  destruct (if playMode (strip1 s0) =? IDLE_MODE then _ else _) as [s1 |];
    [| exists 0; reflexivity].
  cbn [option_map].
  destruct (dispatch2_bandDelay1 w1 s1) as [w2 ->].
  destruct (if playMode (strip2 s1) =? IDLE_MODE then _ else _) as [s2 |];
    [| exists 0; reflexivity].
  cbn [option_map]. exists w2. now rewrite end_of_pass_bandDelay1.
Qed.

Lemma idle_animations_bandDelay2 (v : Z) (s : State) :
  strip1_idle_animation B (upd_strip2 (with_bandDelay v) s)
  = upd_strip2 (with_bandDelay v) (strip1_idle_animation B s)
  /\ strip2_idle_animation B (upd_strip2 (with_bandDelay v) s)
     = upd_strip2 (with_bandDelay v) (strip2_idle_animation B s).
Proof.
  open_state s.
  unfold strip1_idle_animation, strip2_idle_animation,
    strip1_get_brightness, strip2_get_brightness.
  by_cases; split; same_state.
Qed.

Lemma strip2_playback_readings_bandDelay2 (v : Z) (s : State) :
  exists w,
    strip2_playback_readings B (upd_strip2 (with_bandDelay v) s)
    = option_map (upd_strip2 (with_bandDelay w)) (strip2_playback_readings B s).
Proof.
  open_state s.
  unfold strip2_playback_readings, strip2_has_fade, strip2_fade,
    strip2_set_brightLevel, strip2_go_idle.
  by_cases_of_playback;
    first [exists 0; reflexivity | eexists; same_state].
Qed.

Lemma strip1_playback_readings_bandDelay2 (v : Z) (s : State) :
  strip1_playback_readings B (upd_strip2 (with_bandDelay v) s)
  = option_map (upd_strip2 (with_bandDelay v)) (strip1_playback_readings B s).
Proof.
  open_state s.
  unfold strip1_playback_readings, strip1_has_fade, strip1_fade,
    strip1_set_brightLevel, strip1_go_idle.
  by_cases_of_playback; same_state.
Qed.

Lemma erase_bandDelay2 (v w : Z) (s : State) :
  upd_strip2 (with_bandDelay v) (upd_strip2 (with_bandDelay w) s)
  = upd_strip2 (with_bandDelay v) s.
Proof. open_state s. reflexivity. Qed.

Lemma console_bandDelay2 (v : Z) (i : Input) (s : State) :
  exists w,
    set_playMode (do_colour_variation (read_console i (upd_strip2 (with_bandDelay v) s)))
    = upd_strip2 (with_bandDelay w)
        (set_playMode (do_colour_variation (read_console i s))).
Proof.
  open_state s. unfold set_playMode, do_colour_variation, read_console.
  by_cases; eexists; same_state.
Qed.

Lemma end_of_pass_bandDelay2 (v : Z) (i : Input) (s : State) :
  FastLED_delay (elapsed i)
    (add_glitter B (glitter_seed i) (upd_strip2 (with_bandDelay v) s))
  = upd_strip2 (with_bandDelay v)
      (FastLED_delay (elapsed i) (add_glitter B (glitter_seed i) s)).
Proof.
  open_state s. unfold FastLED_delay, add_glitter. cbn.
  destruct (glitter_overlay B (glitter_seed i) (l0, l1, l2, l3))
    as [[[k0 k1] k2] k3]. reflexivity.
Qed.

Lemma dispatch1_bandDelay2 (v : Z) (s : State) :
  exists w,
    (if playMode (strip1 (upd_strip2 (with_bandDelay v) s)) =? IDLE_MODE
     then Some (strip1_idle_animation B (upd_strip2 (with_bandDelay v) s))
     else if playMode (strip1 (upd_strip2 (with_bandDelay v) s)) =? BUTTON_MODE
          then strip1_playback_readings B (upd_strip2 (with_bandDelay v) s)
          else Some (upd_strip2 (with_bandDelay v) s))
    = option_map (upd_strip2 (with_bandDelay w))
        (if playMode (strip1 s) =? IDLE_MODE
         then Some (strip1_idle_animation B s)
         else if playMode (strip1 s) =? BUTTON_MODE
              then strip1_playback_readings B s else Some s).
Proof.
  change (playMode (strip1 (upd_strip2 (with_bandDelay v) s)))
    with (playMode (strip1 s)).
  destruct (playMode (strip1 s) =? IDLE_MODE).
  - exists v. rewrite (proj1 (idle_animations_bandDelay2 v s)). reflexivity.
  - destruct (playMode (strip1 s) =? BUTTON_MODE).
    + exists v. apply strip1_playback_readings_bandDelay2.
    + exists v. reflexivity.
Qed.

Lemma dispatch2_bandDelay2 (v : Z) (s : State) :
  exists w,
    (if playMode (strip2 (upd_strip2 (with_bandDelay v) s)) =? IDLE_MODE
     then Some (strip2_idle_animation B (upd_strip2 (with_bandDelay v) s))
     else if playMode (strip2 (upd_strip2 (with_bandDelay v) s)) =? BUTTON_MODE
          then strip2_playback_readings B (upd_strip2 (with_bandDelay v) s)
          else Some (upd_strip2 (with_bandDelay v) s))
    = option_map (upd_strip2 (with_bandDelay w))
        (if playMode (strip2 s) =? IDLE_MODE
         then Some (strip2_idle_animation B s)
         else if playMode (strip2 s) =? BUTTON_MODE
              then strip2_playback_readings B s else Some s).
Proof.
  change (playMode (strip2 (upd_strip2 (with_bandDelay v) s)))
    with (playMode (strip2 s)).
  destruct (playMode (strip2 s) =? IDLE_MODE).
  - exists v. rewrite (proj2 (idle_animations_bandDelay2 v s)). reflexivity.
  - destruct (playMode (strip2 s) =? BUTTON_MODE).
    + apply strip2_playback_readings_bandDelay2.
    + exists v. reflexivity.
Qed.

Lemma loop_bandDelay2 (v : Z) (i : Input) (s : State) :
  exists w,
    loop B i (upd_strip2 (with_bandDelay v) s)
    = option_map (upd_strip2 (with_bandDelay w)) (loop B i s).
Proof.
  unfold loop. cbv zeta.
  destruct (console_bandDelay2 v i s) as [w0 ->].
  set (s0 := set_playMode (do_colour_variation (read_console i s))).
  destruct (dispatch1_bandDelay2 w0 s0) as [w1 ->].
  destruct (if playMode (strip1 s0) =? IDLE_MODE then _ else _) as [s1 |];
    [| exists 0; reflexivity].
  cbn [option_map].
  destruct (dispatch2_bandDelay2 w1 s1) as [w2 ->].
  destruct (if playMode (strip2 s1) =? IDLE_MODE then _ else _) as [s2 |];
    [| exists 0; reflexivity].
  cbn [option_map]. exists w2. now rewrite end_of_pass_bandDelay2.
Qed.

(** X15: the fade delay of a strip is written ([set_playMode] sets it to 125,
    [stripN_go_idle] to 500) and never read: a pass of [loop] from a state
    that differs only in the fade delay of a strip ends, for every input, in
    the same state, the fade delay of that strip apart.  No pixel, colour,
    phase, cursor or timer depends on it; the dwell window is the constant
    [BAND_DELAY * 2], and the fade is the constant step of
    [fadeToBlackBy(8)]. *)
Theorem fade_delay_is_never_read (v : Z) (i : Input) (s : State) :
  option_map (upd_strip1 (with_bandDelay 0))
    (loop B i (upd_strip1 (with_bandDelay v) s))
  = option_map (upd_strip1 (with_bandDelay 0)) (loop B i s)
  /\
  option_map (upd_strip2 (with_bandDelay 0))
    (loop B i (upd_strip2 (with_bandDelay v) s))
  = option_map (upd_strip2 (with_bandDelay 0)) (loop B i s).
Proof.
  split.
  - destruct (loop_bandDelay1 v i s) as [w ->].
    destruct (loop B i s) as [s' |]; [| reflexivity].
    cbn [option_map]. now rewrite erase_bandDelay1.
  - destruct (loop_bandDelay2 v i s) as [w ->].
    destruct (loop B i s) as [s' |]; [| reflexivity].
    cbn [option_map]. now rewrite erase_bandDelay2.
Qed.

(** ** The cursor over a pass *)

(** X16: the readings are played one by one.  In every state the sketch
    reaches, for a strip in the interpolating phase whose button is not
    pressed in the pass: while the dwell window lasts the pass keeps the
    phase, the cursor and the previous target, and takes the reading under
    the cursor as the target; when the dwell window has elapsed the pass
    moves the cursor on by exactly one, makes the last target the previous
    target, restarts the timer, and leaves the interpolating phase for the
    fade to idle exactly when the cursor has passed the last reading. *)
Theorem readings_are_played_one_by_one (i : Input) (s s' : State) :
  reachable B s ->
  loop B i s = Some s' ->
  (button0_fallingEdge i = false ->
   activeLedState (strip1 s) = 1 ->
   (bandms (strip1 s) < BAND_DELAY * 2 ->
    activeLedState (strip1 s') = 1
    /\ readingsCounter (strip1 s') = readingsCounter (strip1 s)
    /\ prevBrightVal (strip1 s') = prevBrightVal (strip1 s)
    /\ exists r,
         nth_error (readings1 s) (Z.to_nat (readingsCounter (strip1 s))) = Some r
         /\ currBrightVal (strip1 s') = uint16 r)
   /\
   (BAND_DELAY * 2 <= bandms (strip1 s) ->
    readingsCounter (strip1 s') = readingsCounter (strip1 s) + 1
    /\ prevBrightVal (strip1 s') = currBrightVal (strip1 s)
    /\ bandms (strip1 s') = uint32 (0 + elapsed i)
    /\ activeLedState (strip1 s')
       = (if readingsCounter (strip1 s) + 1 =? Z.of_nat (length (readings1 s))
          then 2 else 1)))
  /\
  (button1_fallingEdge i = false ->
   activeLedState (strip2 s) = 1 ->
   (bandms (strip2 s) < BAND_DELAY * 2 ->
    activeLedState (strip2 s') = 1
    /\ readingsCounter (strip2 s') = readingsCounter (strip2 s)
    /\ prevBrightVal (strip2 s') = prevBrightVal (strip2 s)
    /\ exists r,
         nth_error (readings2 s) (Z.to_nat (readingsCounter (strip2 s))) = Some r
         /\ currBrightVal (strip2 s') = uint16 r)
   /\
   (BAND_DELAY * 2 <= bandms (strip2 s) ->
    readingsCounter (strip2 s') = readingsCounter (strip2 s) + 1
    /\ prevBrightVal (strip2 s') = currBrightVal (strip2 s)
    /\ bandms (strip2 s') = uint32 (0 + elapsed i)
    /\ activeLedState (strip2 s')
       = (if readingsCounter (strip2 s) + 1 =? Z.of_nat (length (readings2 s))
          then 2 else 1))).
Proof.
  intros Hr E.
  destruct (reachable_pass_ok s Hr) as ((Hf0 & Hf1 & _) & _ & Hm1 & Hm2).
  destruct (reachable_ok B s Hr) as (L1 & L2 & (C1 & _) & (C2 & _)).
  pose proof (numElements1_range B) as N1.
  pose proof (numElements2_range B) as N2.
  destruct (loop_stages i s s' E) as (s1 & s2 & D1 & D2 & ->).
  pose proof (strip1_after_dispatch i s1 s2 D2) as T1.
  pose proof (strip2_after_dispatch i s2) as T2.
  destruct (strip1_dispatch _ s1 D1) as (_ & _ & _ & _ & _ & K2 & _).
  destruct (strips_before_dispatch i s) as (U1 & U2).
  assert (R : readings1 (set_playMode (do_colour_variation (read_console i s)))
              = readings1 s
              /\ readings2 (set_playMode (do_colour_variation (read_console i s)))
                 = readings2 s).
  { unfold set_playMode, do_colour_variation, read_console.
    repeat (case_if; cbn); split; reflexivity. }
  destruct R as (R1 & R2).
  set (s0 := set_playMode (do_colour_variation (read_console i s))) in *.
  set (sz := FastLED_delay (elapsed i) (add_glitter B (glitter_seed i) s2)) in *.
  assert (Tm1 : bandms (strip1 sz) = uint32 (bandms (strip1 s1) + elapsed i)).
  { subst sz. unfold FastLED_delay. cbn.
    destruct (add_glitter_frame (glitter_seed i) s2)
      as (_ & _ & _ & _ & _ & G1 & _).
    destruct (strip2_dispatch s1 s2 D2) as (_ & _ & _ & _ & _ & B1 & _).
    now rewrite G1, B1. }
  assert (Tm2 : bandms (strip2 sz) = uint32 (bandms (strip2 s2) + elapsed i)).
  { subst sz. unfold FastLED_delay. cbn.
    destruct (add_glitter_frame (glitter_seed i) s2)
      as (_ & _ & _ & _ & _ & _ & G2 & _).
    now rewrite G2. }
  split.
  - intros He Ha. specialize (U1 Hf0 He). specialize (C1 Ha).
    assert (Hp : playMode (strip1 s) = BUTTON_MODE).
    { destruct Hm1 as [(_ & Hz & _) | (Hp & _)]; [lia | exact Hp]. }
    assert (Q : playMode (strip1 s0) = playMode (strip1 s)
                /\ activeLedState (strip1 s0) = activeLedState (strip1 s)
                /\ bandms (strip1 s0) = bandms (strip1 s)
                /\ readingsCounter (strip1 s0) = readingsCounter (strip1 s)
                /\ prevBrightVal (strip1 s0) = prevBrightVal (strip1 s)
                /\ currBrightVal (strip1 s0) = currBrightVal (strip1 s))
      by (rewrite <- U1; repeat split; reflexivity).
    destruct Q as (Qm & Qa & Qb & Qc & Qp & Qv).
    rewrite Qm, Hp in D1. cbn in D1.
    rewrite Tm1.
    replace (activeLedState (strip1 sz)) with (activeLedState (strip1 s1))
      by (rewrite <- T1; reflexivity).
    replace (readingsCounter (strip1 sz)) with (readingsCounter (strip1 s1))
      by (rewrite <- T1; reflexivity).
    replace (prevBrightVal (strip1 sz)) with (prevBrightVal (strip1 s1))
      by (rewrite <- T1; reflexivity).
    replace (currBrightVal (strip1 sz)) with (currBrightVal (strip1 s1))
      by (rewrite <- T1; reflexivity).
    rewrite <- Qa in Ha. rewrite <- Qb, <- Qc, <- Qp, <- Qv, <- R1.
    split; intros Hms.
    + destruct (read_reading_in_range (readings1 s0) (readingsCounter (strip1 s0))
                  ltac:(rewrite R1, Qc; lia)) as [r Hrd].
      destruct (strip1_interpolating_frame B s0 r Ha Hms Hrd)
        as (sx & Ex & _ & Ec & Ea & Ecn & Ep & _).
      assert (sx = s1) by congruence. subst sx.
      repeat split; try assumption.
      exists r. split; [| assumption].
      unfold read_reading in Hrd.
      destruct (readingsCounter (strip1 s0) <? 0); [discriminate | exact Hrd].
    + destruct (strip1_next_reading B s0 Ha Hms)
        as (sx & Ex & Ec & Ep & Eb & _ & Ea).
      assert (sx = s1) by congruence. subst sx.
      rewrite uint16_small in Ec, Ea by (rewrite Qc; lia).
      rewrite Eb. repeat split; assumption.
  - intros He Ha. specialize (U2 Hf1 He). specialize (C2 Ha).
    assert (Hp : playMode (strip2 s) = BUTTON_MODE).
    { destruct Hm2 as [(_ & Hz & _) | (Hp & _)]; [lia | exact Hp]. }
    assert (Q : playMode (strip2 s1) = playMode (strip2 s)
                /\ activeLedState (strip2 s1) = activeLedState (strip2 s)
                /\ bandms (strip2 s1) = bandms (strip2 s)
                /\ readingsCounter (strip2 s1) = readingsCounter (strip2 s)
                /\ prevBrightVal (strip2 s1) = prevBrightVal (strip2 s)
                /\ currBrightVal (strip2 s1) = currBrightVal (strip2 s))
      by (rewrite K2, <- U2; repeat split; reflexivity).
    destruct Q as (Qm & Qa & Qb & Qc & Qp & Qv).
    assert (R2' : readings2 s1 = readings2 s).
    { rewrite <- R2. clear - D1.
      destruct (playMode (strip1 s0) =? IDLE_MODE).
      - injection D1 as <-.
        now destruct (strip1_idle_pingpong B s0) as (_ & _ & _ & _ & _ & _ & Hx).
      - destruct (playMode (strip1 s0) =? BUTTON_MODE).
        + now destruct (strip1_playback_readings_frame s0 s1 D1) as (_ & _ & Hx & _).
        + now injection D1 as <-. }
    rewrite Qm, Hp in D2. cbn in D2.
    rewrite Tm2.
    replace (activeLedState (strip2 sz)) with (activeLedState (strip2 s2))
      by (rewrite <- T2; reflexivity).
    replace (readingsCounter (strip2 sz)) with (readingsCounter (strip2 s2))
      by (rewrite <- T2; reflexivity).
    replace (prevBrightVal (strip2 sz)) with (prevBrightVal (strip2 s2))
      by (rewrite <- T2; reflexivity).
    replace (currBrightVal (strip2 sz)) with (currBrightVal (strip2 s2))
      by (rewrite <- T2; reflexivity).
    rewrite <- Qa in Ha. rewrite <- Qb, <- Qc, <- Qp, <- Qv, <- R2'.
    split; intros Hms.
    + destruct (read_reading_in_range (readings2 s1) (readingsCounter (strip2 s1))
                  ltac:(rewrite R2', Qc; lia)) as [r Hrd].
      destruct (strip2_interpolating_frame B s1 r Ha Hms Hrd)
        as (sx & Ex & _ & Ec & Ea & Ecn & Ep & _).
      assert (sx = s2) by congruence. subst sx.
      repeat split; try assumption.
      exists r. split; [| assumption].
      unfold read_reading in Hrd.
      destruct (readingsCounter (strip2 s1) <? 0); [discriminate | exact Hrd].
    + destruct (strip2_next_reading B s1 Ha Hms)
        as (sx & Ex & Ec & Ep & Eb & _ & Ea).
      assert (sx = s2) by congruence. subst sx.
      rewrite uint16_small in Ec, Ea by (rewrite Qc; lia).
      rewrite Eb. repeat split; assumption.
Qed.

End Passes.

(** ** The translation of readings *)

Lemma translate_length (n : nat) (D : list Z) (lo hi : Z) :
  length (translate n D lo hi) = Nat.min n (length D).
Proof. unfold translate. now rewrite length_map, length_firstn. Qed.

Lemma translate_floor (n : nat) (D : list Z) (lo hi : Z) (i : nat) (d : Z) :
  -32768 <= lo < 32768 ->
  -32768 <= hi < 32768 ->
  lo < hi ->
  (i < n)%nat ->
  nth_error D i = Some d ->
  lo <= d < 32768 ->
  (d - lo) * 255 / (hi - lo) < 32768 ->
  nth_error (translate n D lo hi) i = Some ((d - lo) * 255 / (hi - lo)).
Proof.
  intros Rlo Rhi Hlt Hi Hd Rd Hfit.
  rewrite (nth_error_translate n D lo hi i d Hi Hd).
  rewrite map_of_ints by lia.
  replace (255 - 0) with 255 by reflexivity. rewrite Z.add_0_r.
  rewrite Z.quot_div_nonneg by lia.
  rewrite int16_small; [reflexivity |].
  split; [| assumption]. transitivity 0; [lia |]. apply Z.div_pos; lia.
Qed.

(** X10: the translation has as many elements as the loop writes, the
    shorter of the loop bound and the data set; and for a domain range
    [lo < hi] of [int]s, a raw value inside the range gives a brightness
    between 0 and 255, [lo] gives 0 and [hi] gives 255. *)
Theorem translate_stays_in_byte_range
  (n : nat) (D : list Z) (lo hi : Z) (i : nat) (d : Z) :
  -32768 <= lo < 32768 ->
  -32768 <= hi < 32768 ->
  lo < hi ->
  (i < n)%nat ->
  nth_error D i = Some d ->
  lo <= d <= hi ->
  length (translate n D lo hi) = Nat.min n (length D)
  /\ exists v,
       nth_error (translate n D lo hi) i = Some v
       /\ 0 <= v <= 255
       /\ (d = lo -> v = 0)
       /\ (d = hi -> v = 255).
Proof.
  intros Rlo Rhi Hlt Hi Hd Hin. split; [apply translate_length |].
  assert (Hq : 0 <= (d - lo) * 255 / (hi - lo) <= 255).
  { split; [apply Z.div_pos; nia |].
    apply Z.div_le_upper_bound; nia. }
  exists ((d - lo) * 255 / (hi - lo)).
  split; [apply translate_floor; lia || assumption |]. split; [exact Hq |]. split.
  - intros ->. rewrite Z.sub_diag. reflexivity.
  - intros ->. rewrite Z.mul_comm. apply Z.div_mul. lia.
Qed.

(** X11: the translation keeps the order of the readings: for a domain range
    [lo < hi] of [int]s, of two raw values not below [lo] whose brightness
    fits an [int], the larger one never gets the smaller brightness. *)
Theorem translate_is_monotone
  (n : nat) (D : list Z) (lo hi : Z) (i j : nat) (d e : Z) :
  -32768 <= lo < 32768 ->
  -32768 <= hi < 32768 ->
  lo < hi ->
  (i < n)%nat -> (j < n)%nat ->
  nth_error D i = Some d ->
  nth_error D j = Some e ->
  lo <= d <= e ->
  e < 32768 ->
  (e - lo) * 255 / (hi - lo) < 32768 ->
  exists v w,
    nth_error (translate n D lo hi) i = Some v
    /\ nth_error (translate n D lo hi) j = Some w
    /\ v <= w.
Proof.
  intros Rlo Rhi Hlt Hi Hj Hd He Hle Re Hfit.
  assert (Hmono : (d - lo) * 255 / (hi - lo) <= (e - lo) * 255 / (hi - lo))
    by (apply Z.div_le_mono; nia).
  exists ((d - lo) * 255 / (hi - lo)), ((e - lo) * 255 / (hi - lo)).
  split; [apply translate_floor; lia || assumption |].
  split; [apply translate_floor; lia || assumption |]. exact Hmono.
Qed.

(** ** The hue over the nominal range *)

Lemma hue_linear (s : State) :
  isUserPresent s = true ->
  0 <= rangeVal s <= 703 ->
  hue (Color (strip1 (do_colour_variation s))) = 76 + rangeVal s * 128 / 500
  /\ hue (Color (strip2 (do_colour_variation s))) = 76 + rangeVal s * 128 / 500.
Proof.
  intros Hp Hd. destruct (do_colour_variation_present s Hp) as [E1 E2].
  rewrite E1, E2. rewrite map_of_ints by lia.
  rewrite Z.sub_0_r. replace (500 - 0) with 500 by reflexivity.
  replace (204 - 76) with 128 by reflexivity.
  rewrite Z.quot_div_nonneg by lia.
  assert (0 <= rangeVal s * 128 / 500 <= 179).
  { split; [apply Z.div_pos; lia |].
    apply Z.lt_succ_r. apply Z.div_lt_upper_bound; lia. }
  rewrite uint8_small by lia. split; lia.
Qed.

(** X12: with a user present, a stored distance between 0 and 500 mm gives a
    hue between 76 and 204 on both strips, and between 0 and 703 mm a larger
    distance never gives a smaller hue. *)
Theorem hue_over_the_nominal_range (s t : State) :
  isUserPresent s = true ->
  isUserPresent t = true ->
  (0 <= rangeVal s <= 500 ->
   76 <= hue (Color (strip1 (do_colour_variation s))) <= 204
   /\ 76 <= hue (Color (strip2 (do_colour_variation s))) <= 204)
  /\
  (0 <= rangeVal s <= rangeVal t -> rangeVal t <= 703 ->
   hue (Color (strip1 (do_colour_variation s)))
   <= hue (Color (strip1 (do_colour_variation t)))
   /\ hue (Color (strip2 (do_colour_variation s)))
      <= hue (Color (strip2 (do_colour_variation t)))).
Proof.
  intros Ps Pt. split.
  - intros Hd. destruct (hue_linear s Ps ltac:(lia)) as [E1 E2].
    rewrite E1, E2.
    assert (0 <= rangeVal s * 128 / 500 <= 128).
    { split; [apply Z.div_pos; lia | apply Z.div_le_upper_bound; lia]. }
    lia.
  - intros Hd Ht.
    destruct (hue_linear s Ps ltac:(lia)) as [E1 E2].
    destruct (hue_linear t Pt ltac:(lia)) as [F1 F2].
    rewrite E1, E2, F1, F2.
    assert (rangeVal s * 128 / 500 <= rangeVal t * 128 / 500)
      by (apply Z.div_le_mono; lia).
    lia.
Qed.

(** * The properties above at states of a run *)

Lemma after_reachable (inputs : list Input) :
  reachable Rig.pm25 (Trace.after inputs).
Proof.
  unfold Trace.after.
  destruct (run Rig.pm25 inputs Bench.boot) as [s |] eqn:E.
  - exact (run_reachable Rig.pm25 inputs Bench.boot s (reach_setup Rig.pm25 2010) E).
  - apply reach_setup.
Qed.

Lemma playback_touches_its_own_strip_witness :
  exists s',
    strip1_playback_readings Rig.pm25 Bench.dimming = Some s'
    /\ strip2 s' = strip2 Bench.dimming
    /\ leds1 s' = leds1 Bench.dimming
    /\ length (leds0 s') = length (leds0 Bench.dimming).
Proof.
  destruct (strip1_playback_readings Rig.pm25 Bench.dimming) as [s' |] eqn:E;
    [| vm_compute in E; discriminate].
  exists s'. split; [reflexivity |].
  assert (Hb : (0 < BAND1 Rig.pm25 <= length (leds0 Bench.dimming))%nat)
    by (vm_compute; lia).
  destruct (proj1 (playback_touches_its_own_strip Rig.pm25 Bench.dimming s') Hb E)
    as (H2 & _ & _ & H1 & _ & _ & H0 & _).
  repeat split; assumption.
Defined.

Lemma playback_phases_in_order_witness :
  exists s',
    strip1_playback_readings Rig.pm25 Bench.last_reading = Some s'
    /\ playMode (strip1 s') = playMode (strip1 Bench.last_reading)
    /\ (activeLedState (strip1 s') = 1 \/ activeLedState (strip1 s') = 2).
Proof.
  destruct (strip1_playback_readings Rig.pm25 Bench.last_reading) as [s' |] eqn:E;
    [| vm_compute in E; discriminate].
  exists s'. split; [reflexivity |].
  destruct (proj1 (playback_phases_in_order Rig.pm25 Bench.last_reading s') E)
    as (_ & P1 & _).
  destruct (P1 eq_refl) as (Hm & _ & [Ha | (Ha & _)]).
  - split; [exact Hm | left; exact Ha].
  - split; [exact Hm | right; exact Ha].
Defined.

Lemma console_settled_between_passes_witness :
  isButton0Pressed Trace.playing = false
  /\ isButton1Pressed Trace.playing = false
  /\ -32768 <= rangeVal Trace.playing < 32768
  /\ (isUserPresent Trace.playing = true -> rangeVal Trace.playing <= 1000).
Proof.
  apply (console_settled_between_passes Rig.pm25 Trace.playing).
  apply after_reachable.
Defined.

Lemma colour_records_are_bytes_witness :
  0 <= val (Color (strip1 Trace.playing)) < 256
  /\ hue (Color (strip1 Trace.playing)) = hue (Color (strip2 Trace.playing)).
Proof.
  destruct (colour_records_are_bytes Rig.pm25 Trace.playing
              (after_reachable _)) as ((_ & _ & Hv) & _ & _ & _ & Hh).
  split; assumption.
Defined.

Lemma play_mode_and_phase_agree_witness :
  playMode (strip1 Trace.playing) = BUTTON_MODE
  /\ (playMode (strip2 Trace.playing) = IDLE_MODE
      /\ activeLedState (strip2 Trace.playing) = 0
      /\ bandDelay (strip2 Trace.playing) = 500
      \/ playMode (strip2 Trace.playing) = BUTTON_MODE
         /\ (activeLedState (strip2 Trace.playing) = 0
             \/ activeLedState (strip2 Trace.playing) = 1
             \/ activeLedState (strip2 Trace.playing) = 2)
         /\ bandDelay (strip2 Trace.playing) = 125).
Proof.
  split; [reflexivity |].
  exact (proj2 (play_mode_and_phase_agree Rig.pm25 Trace.playing
                  (after_reachable _))).
Defined.

Lemma hue_follows_the_sensor_witness :
  isUserPresent Trace.seen = true
  /\ rangeVal Trace.seen = 300
  /\ hue (Color (strip1 Trace.seen))
     = (if isUserPresent Trace.seen
        then ((rangeVal Trace.seen * 128) ÷ 500 + 76) mod 256 else 140)
  /\ hue (Color (strip2 Trace.seen)) = hue (Color (strip1 Trace.seen)).
Proof.
  split; [reflexivity |]. split; [reflexivity |].
  apply (hue_follows_the_sensor Rig.pm25 Trace.seen). apply after_reachable.
Defined.

Lemma sensor_polled_every_100_ms_witness :
  loxmsec Trace.one_pass = 10
  /\ exists s',
       loop Rig.pm25 (Bench.poll 300) Trace.one_pass = Some s'
       /\ rangeVal s' = rangeVal Trace.one_pass
       /\ isUserPresent s' = isUserPresent Trace.one_pass
       /\ loxmsec s' = uint32 (loxmsec Trace.one_pass + elapsed (Bench.poll 300)).
Proof.
  split; [reflexivity |].
  destruct (loop Rig.pm25 (Bench.poll 300) Trace.one_pass) as [s' |] eqn:E;
    [| vm_compute in E; discriminate].
  exists s'. split; [reflexivity |].
  apply (proj1 (sensor_polled_every_100_ms Rig.pm25 (Bench.poll 300)
                  Trace.one_pass s' E)).
  vm_compute. discriminate.
Defined.

Lemma press_starts_playback_witness :
  exists s',
    loop Rig.pm25 Bench.press0 Bench.boot = Some s'
    /\ playMode (strip1 s') = BUTTON_MODE
    /\ playMode (strip2 s') = IDLE_MODE.
Proof.
  destruct (loop Rig.pm25 Bench.press0 Bench.boot) as [s' |] eqn:E;
    [| vm_compute in E; discriminate].
  exists s'. split; [reflexivity |].
  destruct (press_starts_playback Rig.pm25 Bench.press0 Bench.boot s'
              (reach_setup Rig.pm25 2010) E) as (P1 & _ & _ & P4).
  split.
  - exact (proj1 (P1 eq_refl)).
  - exact (proj1 (P4 eq_refl eq_refl)).
Defined.

Lemma idle_moves_by_one_witness :
  brightness (strip1 Trace.one_pass) = 1
  /\ brightness (strip1 (strip1_idle_animation Rig.pm25 Trace.one_pass))
     = (if isMaxBrightness (strip1 Trace.one_pass)
        then brightness (strip1 Trace.one_pass) - 1
        else brightness (strip1 Trace.one_pass) + 1).
Proof.
  split; [reflexivity |].
  exact (proj1 (proj1 (idle_moves_by_one Rig.pm25 Trace.one_pass
                         (after_reachable _)))).
Defined.

Lemma translate_stays_in_byte_range_witness :
  length (translate 20 PM25_1 0 125) = Nat.min 20 (length PM25_1)
  /\ exists v,
       nth_error (translate 20 PM25_1 0 125) 4 = Some v
       /\ 0 <= v <= 255
       /\ (125 = 0 -> v = 0)
       /\ (125 = 125 -> v = 255).
Proof.
  apply (translate_stays_in_byte_range 20 PM25_1 0 125 4 125).
  - lia.
  - lia.
  - lia.
  - lia.
  - reflexivity.
  - lia.
Defined.

Lemma translate_is_monotone_witness :
  exists v w,
    nth_error (translate 20 PM25_1 0 125) 1 = Some v
    /\ nth_error (translate 20 PM25_1 0 125) 0 = Some w
    /\ v <= w.
Proof.
  apply (translate_is_monotone 20 PM25_1 0 125 1 0 38 118).
  - lia.
  - lia.
  - lia.
  - lia.
  - lia.
  - reflexivity.
  - reflexivity.
  - lia.
  - lia.
  - vm_compute. reflexivity.
Defined.

Lemma hue_over_the_nominal_range_witness :
  76 <= hue (Color (strip1 (do_colour_variation
                              (read_console (Bench.poll 100) Bench.boot))))
     <= 204
  /\ hue (Color (strip1 (do_colour_variation
                           (read_console (Bench.poll 100) Bench.boot))))
     <= hue (Color (strip1 (do_colour_variation
                              (read_console (Bench.poll 400) Bench.boot)))).
Proof.
  destruct (hue_over_the_nominal_range
              (read_console (Bench.poll 100) Bench.boot)
              (read_console (Bench.poll 400) Bench.boot) eq_refl eq_refl)
    as (H1 & H2).
  split.
  - apply H1. vm_compute. split; discriminate.
  - apply H2; vm_compute; try split; discriminate.
Defined.

Lemma strip_shows_one_colour_witness :
  exists s',
    strip1_playback_readings Rig.pm25 Bench.dimming = Some s'
    /\ painted (BAND1 Rig.pm25) (hsv2rgb Rig.pm25 (Color (strip1 s')))
         (leds0 Bench.dimming) (leds0 s').
Proof.
  destruct (strip1_playback_readings Rig.pm25 Bench.dimming) as [s' |] eqn:E;
    [| vm_compute in E; discriminate].
  exists s'. split; [reflexivity |].
  apply (proj1 (proj2 (proj2 (strip_shows_one_colour Rig.pm25 Bench.dimming)))).
  - reflexivity.
  - reflexivity.
  - exact E.
Defined.

Lemma readings_are_played_one_by_one_witness :
  bandms (strip1 Trace.dwell_over) = 1000
  /\ readingsCounter (strip1 Trace.dwell_over) = 0
  /\ exists s',
       loop Rig.pm25 Bench.quiet Trace.dwell_over = Some s'
       /\ readingsCounter (strip1 s') = readingsCounter (strip1 Trace.dwell_over) + 1
       /\ prevBrightVal (strip1 s') = currBrightVal (strip1 Trace.dwell_over).
Proof.
  split; [reflexivity |]. split; [reflexivity |].
  destruct (loop Rig.pm25 Bench.quiet Trace.dwell_over) as [s' |] eqn:E;
    [| vm_compute in E; discriminate].
  exists s'. split; [reflexivity |].
  destruct (proj1 (readings_are_played_one_by_one Rig.pm25 Bench.quiet
                     Trace.dwell_over s' (after_reachable _) E)
              eq_refl eq_refl) as (_ & H).
  destruct H as (Hc & Hp & _); [vm_compute; discriminate |].
  split; assumption.
Defined.
